(** * UAE telecom recommender: the sector risk-scoring engine

    A shallow embedding of [uae_telecom_recommender] (sectors/base_sector.py,
    sectors/network_infrastructure.py, sectors/cybersecurity.py,
    sectors/regulatory_compliance.py, config/config_manager.py,
    core/risk_manager.py, core/recommender.py and cli.py) and the properties
    of its scoring core.

    Conventions of the embedding.
    - A Python [float] is an exact rational ([Q]); equality of scores is
      [Qeq].  The rational embedding covers inputs that are numbers and
      computes without rounding.  What rounding and NaN change is stated on
      binary64 values: the module [Binary64] embeds the functions concerned
      a second time, on the kernel's primitive floats.
    - A Python [int] is a [Z]; [len] is [Z.of_nat (length _)].  Python
      raises [OverflowError] when an int beyond the range of a float is
      divided or multiplied with a float; what a scorer returns is stated
      for projects whose numbers are within that range ([in_float_range]).
    - A Python [str] is a [string] of 8-bit characters; [str.lower] folds the
      ASCII letters only.
    - A Python [dict] is an association list in insertion order with unique
      keys ([dict_set] overwrites in place), because iteration order is
      observable in the rankings.
    - Code that can raise returns a [result]; the aggregator runs in a small
      monad that threads the trace of observable events (lines printed,
      sector scorers invoked).  Only exceptions derived from [Exception] are
      modelled, which are the ones [except Exception] catches.
    - [datetime.now().isoformat()] is read once per call and handed down as
      [now]; no score depends on it. *)

From Stdlib Require Import QArith Qminmax ZArith List String Ascii Bool.
From Stdlib Require Import Lia Lqa Permutation Sorted.
From Stdlib Require Floats.
Import ListNotations.

Set Warnings "-inexact-float".

Local Open Scope Q_scope.
Local Open Scope string_scope.

(* ================================================================== *)
(** ** Python built-ins used by the program *)
(* ================================================================== *)

Module Py.

(** [x > y], [x >= y] on floats. *)
Definition Qgtb (x y : Q) : bool := negb (Qle_bool x y).
Definition Qgeb (x y : Q) : bool := Qle_bool y x.

(** [numpy.clip(x, lo, hi)]. *)
Definition clip (x lo hi : Q) : Q := Qmin (Qmax x lo) hi.

(** [len(l)] as a float operand. *)
Definition len {A : Type} (l : list A) : Z := Z.of_nat (List.length l).
Definition flen {A : Type} (l : list A) : Q := inject_Z (len l).

(** Truthiness of a string and of a list. *)
Definition str_truthy (s : string) : bool :=
  match s with EmptyString => false | String _ _ => true end.
Definition list_truthy {A : Type} (l : list A) : bool :=
  match l with [] => false | _ :: _ => true end.

(** [str.lower()], on the ASCII letters. *)
Definition lower_ascii (c : ascii) : ascii :=
  let n := nat_of_ascii c in
  if (65 <=? n)%nat && (n <=? 90)%nat then ascii_of_nat (n + 32) else c.

Fixpoint lower (s : string) : string :=
  match s with
  | EmptyString => EmptyString
  | String c s' => String (lower_ascii c) (lower s')
  end.

(** [s.replace('_', ' ')]. *)
Fixpoint replace_underscore (s : string) : string :=
  match s with
  | EmptyString => EmptyString
  | String c s' =>
      String (if Ascii.eqb c "_"%char then " "%char else c) (replace_underscore s')
  end.

(** [needle in hay] on strings: substring test. *)
Fixpoint str_in (needle hay : string) : bool :=
  String.prefix needle hay ||
  match hay with
  | EmptyString => false
  | String _ hay' => str_in needle hay'
  end.

(** [x in l] on a list of strings. *)
Definition list_in (x : string) (l : list string) : bool :=
  existsb (String.eqb x) l.

(** [sep.join(l)]. *)
Fixpoint join (sep : string) (l : list string) : string :=
  match l with
  | [] => ""
  | [x] => x
  | x :: l' => x ++ sep ++ join sep l'
  end.

(** [l[:n]] for an arbitrary integer [n]: a negative [n] counts from the
    end of the list. *)
Definition slice_to {A : Type} (l : list A) (n : Z) : list A :=
  if (n <? 0)%Z then firstn (Z.to_nat (len l + n)) l
  else firstn (Z.to_nat n) l.

(** [l.sort(key=..., reverse=True)]: the built-in sort is stable, also when
    reversed.  [ge x y] is [key x >= key y].  An element goes in front of the
    first later element whose key is not greater than its own. *)
Section Sort.
Context {A : Type} (ge : A -> A -> bool).

Fixpoint insert_desc (x : A) (l : list A) : list A :=
  match l with
  | [] => [x]
  | y :: l' => if ge x y then x :: y :: l' else y :: insert_desc x l'
  end.

Fixpoint sort_desc (l : list A) : list A :=
  match l with
  | [] => []
  | x :: l' => insert_desc x (sort_desc l')
  end.

End Sort.

(** [list(set(l))]: the distinct elements of [l].  CPython leaves the
    iteration order of a set of strings unspecified; the model lists them in
    order of first occurrence, and nothing below depends on that order. *)
Fixpoint list_of_set (l : list string) : list string :=
  match l with
  | [] => []
  | x :: l' => x :: filter (fun y => negb (String.eqb x y)) (list_of_set l')
  end.

End Py.

(* ================================================================== *)
(** ** Insertion-ordered dictionaries *)
(* ================================================================== *)

Definition dict (V : Type) : Type := list (string * V).

Fixpoint dict_get {V : Type} (d : dict V) (k : string) : option V :=
  match d with
  | [] => None
  | (k', v) :: d' => if String.eqb k k' then Some v else dict_get d' k
  end.

Definition dict_mem {V : Type} (d : dict V) (k : string) : bool :=
  match dict_get d k with Some _ => true | None => false end.

(** [d[k] = v]: a present key keeps its position. *)
Fixpoint dict_set {V : Type} (d : dict V) (k : string) (v : V) : dict V :=
  match d with
  | [] => [(k, v)]
  | (k', v') :: d' =>
      if String.eqb k k' then (k, v) :: d' else (k', v') :: dict_set d' k v
  end.

Definition dict_keys {V : Type} (d : dict V) : list string := map fst d.

(* ================================================================== *)
(** ** Exceptions, and the monad of the aggregator *)
(* ================================================================== *)

(** A Python exception derived from [Exception]: its class and [str(e)]. *)
Record Exception : Type := mkException { exn_class : string; exn_msg : string }.

Definition ValueError (msg : string) : Exception := mkException "ValueError" msg.

Inductive result (A : Type) : Type :=
| Ok (a : A)
| Raise (e : Exception).
Arguments Ok {A} a.
Arguments Raise {A} e.

(** What an observer of one call can see besides its result. *)
Inductive event : Type :=
| Printed (line : string)      (* a line written by [print] *)
| Scored (sector_id : string). (* a sector's [assess_risk] was entered *)

Definition M (A : Type) : Type := list event -> result A * list event.

Definition ret {A : Type} (a : A) : M A := fun tr => (Ok a, tr).

Definition raise {A : Type} (e : Exception) : M A := fun tr => (Raise e, tr).

Definition bind {A B : Type} (m : M A) (k : A -> M B) : M B :=
  fun tr =>
    match m tr with
    | (Ok a, tr') => k a tr'
    | (Raise e, tr') => (Raise e, tr')
    end.

(** [try: body  except Exception as e: handler e]. *)
Definition try_except {A : Type} (body : M A) (handler : Exception -> M A) : M A :=
  fun tr =>
    match body tr with
    | (Ok a, tr') => (Ok a, tr')
    | (Raise e, tr') => handler e tr'
    end.

Definition emit (ev : event) : M unit := fun tr => (Ok tt, (tr ++ [ev])%list).

Definition print (line : string) : M unit := emit (Printed line).

Declare Scope monad_scope.
Delimit Scope monad_scope with monad.
Notation "x <- m ;; k" := (bind m (fun x => k))
  (at level 61, m at next level, right associativity) : monad_scope.
Notation "m ;;; k" := (bind m (fun _ => k))
  (at level 61, right associativity) : monad_scope.

(** A loop [for x in l: acc = body x acc]. *)
Fixpoint for_each {A S : Type} (l : list A) (body : A -> S -> M S) (acc : S) : M S :=
  match l with
  | [] => ret acc
  | x :: l' => bind (body x acc) (for_each l' body)
  end.

(* ================================================================== *)
(** ** sectors/base_sector.py *)
(* ================================================================== *)

Record RiskAssessment : Type := mkRiskAssessment {
  sector_id : string;
  risk_level : Q;
  risk_factors : list string;
  mitigation_strategies : list string;
  confidence : Q;
  timestamp : string
}.

Record ProjectData : Type := mkProjectData {
  project_id : string;
  project_sector_id : string;
  description : string;
  budget : Q;
  timeline_days : Z;
  complexity_score : Q;
  stakeholders : list string;
  technologies : list string;
  dependencies : list string;
  historical_risks : option (list string)
}.

(** One entry of the [sectors] section of the configuration file. *)
Record SectorConfig : Type := mkSectorConfig {
  cfg_name : string;
  cfg_description : string;
  cfg_risk_factors : list string;
  cfg_weight : Q
}.

(** A sector object: the attributes the aggregator reads and the two
    methods of the [BaseSector] interface.  [assess_risk] receives the
    reading of the clock that stamps the assessment. *)
Record Sector : Type := mkSector {
  self_sector_id : string;
  name : string;
  weight : Q;
  self_risk_factors : list string;
  assess_risk : ProjectData -> string -> result RiskAssessment;
  get_recommendations : RiskAssessment -> list string
}.

Module BaseSector.
Import Py.

Definition calculate_base_risk_score (project_data : ProjectData) : Q :=
  let budget_factor := Qmin (budget project_data / 1000000) 1.0 in
  let timeline_factor := Qmin (inject_Z (timeline_days project_data) / 365) 1.0 in
  let complexity_factor := complexity_score project_data in
  let dependency_factor := Qmin (flen (dependencies project_data) / 10) 1.0 in
  let base_score :=
    budget_factor * 0.25 +
    timeline_factor * 0.25 +
    complexity_factor * 0.35 +
    dependency_factor * 0.15 in
  clip base_score 0.0 1.0.

Definition get_common_mitigation_strategies : list string :=
  [ "Regular risk monitoring and assessment";
    "Stakeholder communication and alignment";
    "Contingency planning and backup procedures";
    "Vendor and supplier diversification";
    "Staff training and skill development";
    "Documentation and knowledge management";
    "Quality assurance and testing protocols";
    "Budget reserves for unexpected costs";
    "Timeline buffers for critical activities";
    "Compliance monitoring and reporting" ].

(** [historical_risks] is truthy when it is a non-empty list. *)
Definition historical_risks_truthy (project_data : ProjectData) : bool :=
  match historical_risks project_data with
  | Some l => list_truthy l
  | None => false
  end.

Definition calculate_confidence_score (project_data : ProjectData) : Q :=
  let data_completeness := 0.0 in
  let data_completeness :=
    if str_truthy (description project_data)
    then data_completeness + 0.2 else data_completeness in
  let data_completeness :=
    if Qgtb (budget project_data) 0
    then data_completeness + 0.2 else data_completeness in
  let data_completeness :=
    if (timeline_days project_data >? 0)%Z
    then data_completeness + 0.2 else data_completeness in
  let data_completeness :=
    if list_truthy (technologies project_data)
    then data_completeness + 0.2 else data_completeness in
  let data_completeness :=
    if historical_risks_truthy project_data
    then data_completeness + 0.2 else data_completeness in
  data_completeness.

End BaseSector.

(** Idioms shared by the sector modules. *)
Module Idiom.
Import Py.

(** [if c: acc += v]. *)
Definition add_if (c : bool) (acc v : Q) : Q := if c then acc + v else acc.

(** [for keyword in keywords: if keyword in text: acc += v]. *)
Definition add_per_keyword (keywords : list string) (text : string) (v acc : Q) : Q :=
  fold_left (fun acc keyword => add_if (str_in keyword text) acc v) keywords acc.

(** [any(keyword in text for keyword in keywords)]. *)
Definition any_keyword_in (keywords : list string) (text : string) : bool :=
  existsb (fun keyword => str_in keyword text) keywords.

(** [table[key]] for a literal key of a literal table. *)
Definition getitem (table : dict Q) (key : string) : Q :=
  match dict_get table key with Some v => v | None => 0 end.

(** [name in tech_lower] under either spelling of a table key:
    [key.replace('_', ' ') in tech_lower or key in tech_lower]. *)
Definition key_in (key tech_lower : string) : bool :=
  str_in (replace_underscore key) tech_lower || str_in key tech_lower.

End Idiom.

(* ================================================================== *)
(** ** sectors/network_infrastructure.py *)
(* ================================================================== *)

Module NetworkInfrastructureSector.
Import Py Idiom BaseSector.

Definition infrastructure_components : dict Q :=
  [ ("fiber_optic", 0.3); ("cellular_towers", 0.4); ("data_centers", 0.5);
    ("switches_routers", 0.4); ("transmission_equipment", 0.3);
    ("power_systems", 0.6); ("cooling_systems", 0.4); ("security_systems", 0.3) ].

Definition technology_age_risks : dict Q :=
  [ ("legacy", 0.8); ("mature", 0.4); ("current", 0.2); ("emerging", 0.6) ].

Definition _assess_infrastructure_risk (project_data : ProjectData) : Q :=
  let risk_score := 0.0 in
  let risk_score :=
    fold_left
      (fun risk_score tech =>
         let tech_lower := lower tech in
         fold_left
           (fun risk_score '(component, risk_multiplier) =>
              add_if (key_in component tech_lower) risk_score risk_multiplier)
           infrastructure_components risk_score)
      (technologies project_data) risk_score in
  let complexity_multiplier := 1.0 + complexity_score project_data * 0.5 in
  let risk_score := risk_score * complexity_multiplier in
  Qmin (risk_score / flen infrastructure_components) 1.0.

Definition _assess_environmental_risk (project_data : ProjectData) : Q :=
  let base_environmental_risk := 0.4 in
  let timeline_factor := Qmin (inject_Z (timeline_days project_data) / 365) 2.0 in
  let outdoor_keywords := ["tower"; "outdoor"; "external"; "field"; "installation"] in
  let outdoor_risk :=
    add_per_keyword outdoor_keywords (lower (description project_data)) 0.2 0.0 in
  let environmental_risk :=
    base_environmental_risk + timeline_factor * 0.1 + outdoor_risk in
  Qmin environmental_risk 1.0.

Definition _assess_technology_risk (project_data : ProjectData) : Q :=
  let technology_risk :=
    fold_left
      (fun technology_risk tech =>
         let tech_lower := lower tech in
         if any_keyword_in ["legacy"; "old"; "deprecated"] tech_lower then
           technology_risk + getitem technology_age_risks "legacy"
         else if any_keyword_in ["new"; "emerging"; "beta"; "cutting-edge"] tech_lower then
           technology_risk + getitem technology_age_risks "emerging"
         else if any_keyword_in ["5g"; "ai"; "iot"; "edge"] tech_lower then
           technology_risk + getitem technology_age_risks "emerging"
         else
           technology_risk + getitem technology_age_risks "current")
      (technologies project_data) 0.0 in
  Qmin (technology_risk / inject_Z (Z.max (len (technologies project_data)) 1)) 1.0.

Definition _assess_capacity_risk (project_data : ProjectData) : Q :=
  let capacity_risk := 0.3 in
  let capacity_risk := add_if (Qgtb (budget project_data) 5000000) capacity_risk 0.2 in
  let capacity_risk :=
    add_if (len (dependencies project_data) >? 5)%Z capacity_risk 0.3 in
  let capacity_keywords := ["scaling"; "expansion"; "upgrade"; "capacity"; "bandwidth"] in
  let capacity_risk :=
    add_per_keyword capacity_keywords (lower (description project_data)) 0.1 capacity_risk in
  Qmin capacity_risk 1.0.

Definition _identify_active_risk_factors
  (infra_risk env_risk tech_risk capacity_risk : Q) : list string :=
  ((if Qgtb infra_risk 0.5 then ["Equipment failure"] else []) ++
   (if Qgtb env_risk 0.4 then ["Infrastructure damage"] else []) ++
   (if Qgtb tech_risk 0.5 then ["Technology obsolescence"] else []) ++
   (if Qgtb capacity_risk 0.4 then ["Capacity limitations"] else []) ++
   ["Network congestion"])%list.

Definition _get_mitigation_strategies (risk_factors : list string) : list string :=
  let network_strategies :=
    [ "Implement redundant network paths and equipment";
      "Regular maintenance and equipment health monitoring";
      "Environmental protection systems for outdoor equipment";
      "Capacity planning and traffic management";
      "Technology refresh cycles and upgrade planning";
      "Network performance monitoring and alerting";
      "Emergency response procedures for infrastructure failures";
      "Backup power systems and uninterruptible power supplies";
      "Climate control systems for equipment rooms";
      "Network security hardening and access controls" ] in
  firstn 10 (get_common_mitigation_strategies ++ network_strategies)%list.

Definition assess_risk (self_id : string) (self_weight : Q)
  (project_data : ProjectData) (now : string) : RiskAssessment :=
  let base_risk := calculate_base_risk_score project_data in
  let infrastructure_risk := _assess_infrastructure_risk project_data in
  let environmental_risk := _assess_environmental_risk project_data in
  let technology_risk := _assess_technology_risk project_data in
  let capacity_risk := _assess_capacity_risk project_data in
  let total_risk :=
    base_risk * 0.3 +
    infrastructure_risk * 0.25 +
    environmental_risk * 0.2 +
    technology_risk * 0.15 +
    capacity_risk * 0.1 in
  let weighted_risk := Qmin (total_risk * self_weight * 10) 1.0 in
  let active_risk_factors :=
    _identify_active_risk_factors
      infrastructure_risk environmental_risk technology_risk capacity_risk in
  let mitigation_strategies := _get_mitigation_strategies active_risk_factors in
  let confidence := calculate_confidence_score project_data in
  mkRiskAssessment self_id weighted_risk active_risk_factors
    mitigation_strategies confidence now.

Definition get_recommendations (risk_assessment : RiskAssessment) : list string :=
  if Qgtb (risk_level risk_assessment) 0.7 then
    [ "Conduct immediate infrastructure vulnerability assessment";
      "Implement comprehensive disaster recovery procedures";
      "Establish 24/7 network operations center monitoring" ]
  else if Qgtb (risk_level risk_assessment) 0.5 then
    [ "Schedule preventive maintenance for critical equipment";
      "Review and update capacity planning models";
      "Implement enhanced environmental monitoring" ]
  else
    [ "Continue regular monitoring and maintenance schedules";
      "Plan for future technology upgrades";
      "Maintain current redundancy levels" ].

(** The constructor [NetworkInfrastructureSector(sector_id, config)]. *)
Definition new (sector_id : string) (config : SectorConfig) : Sector :=
  mkSector sector_id (cfg_name config) (cfg_weight config) (cfg_risk_factors config)
    (fun project_data now => Ok (assess_risk sector_id (cfg_weight config) project_data now))
    get_recommendations.

End NetworkInfrastructureSector.

(* ================================================================== *)
(** ** sectors/cybersecurity.py *)
(* ================================================================== *)

Module CybersecuritySector.
Import Py Idiom BaseSector.

Definition security_controls : dict Q :=
  [ ("firewall", 0.3); ("intrusion_detection", 0.4); ("encryption", 0.5);
    ("multi_factor_authentication", 0.4); ("security_training", 0.3);
    ("vulnerability_management", 0.5); ("backup_systems", 0.4);
    ("incident_response", 0.4); ("access_controls", 0.4);
    ("security_monitoring", 0.5) ].

Definition technology_risks : dict Q :=
  [ ("cloud_services", 0.4); ("iot_devices", 0.6); ("mobile_apps", 0.5);
    ("apis", 0.5); ("third_party_integrations", 0.6); ("legacy_systems", 0.8) ].

Definition _assess_threat_landscape (project_data : ProjectData) : Q :=
  let threat_score := 0.5 in
  let high_risk_keywords := ["internet-facing"; "public"; "external"; "customer-facing"] in
  let threat_score :=
    add_per_keyword high_risk_keywords (lower (description project_data)) 0.2 threat_score in
  let threat_score :=
    if Qgtb (budget project_data) 10000000 then threat_score + 0.2
    else if Qgtb (budget project_data) 5000000 then threat_score + 0.1
    else threat_score in
  let threat_score := add_if (timeline_days project_data >? 365)%Z threat_score 0.1 in
  Qmin threat_score 1.0.

Definition _assess_compliance_risk (project_data : ProjectData) : Q :=
  let compliance_risk := 0.6 in
  let compliance_keywords :=
    ["personal data"; "customer information"; "financial"; "critical infrastructure"] in
  let compliance_risk :=
    add_per_keyword compliance_keywords (lower (description project_data)) 0.2 compliance_risk in
  let international_keywords := ["international"; "cross-border"; "global"; "offshore"] in
  let compliance_risk :=
    add_per_keyword international_keywords (lower (description project_data)) 0.3 compliance_risk in
  Qmin compliance_risk 1.0.

Definition _assess_technology_security_risk (project_data : ProjectData) : Q :=
  let tech_risk := 0.0 in
  let tech_risk :=
    fold_left
      (fun tech_risk tech =>
         let tech_lower := lower tech in
         fold_left
           (fun tech_risk '(risk_tech, risk_level) =>
              add_if (key_in risk_tech tech_lower) tech_risk risk_level)
           technology_risks tech_risk)
      (technologies project_data) tech_risk in
  let emerging_keywords := ["ai"; "machine learning"; "blockchain"; "5g"; "edge computing"] in
  let tech_risk :=
    fold_left
      (fun tech_risk keyword =>
         add_if (existsb (fun tech => str_in keyword (lower tech)) (technologies project_data))
           tech_risk 0.4)
      emerging_keywords tech_risk in
  Qmin (tech_risk / inject_Z (Z.max (len (technologies project_data)) 1)) 1.0.

Definition _assess_data_protection_risk (project_data : ProjectData) : Q :=
  let data_risk := 0.3 in
  let data_keywords :=
    ["database"; "customer data"; "personal information"; "analytics"; "reporting"] in
  let data_risk :=
    add_per_keyword data_keywords (lower (description project_data)) 0.2 data_risk in
  let data_risk := add_if (len (stakeholders project_data) >? 10)%Z data_risk 0.2 in
  let data_risk := add_if (len (dependencies project_data) >? 5)%Z data_risk 0.1 in
  Qmin data_risk 1.0.

Definition _assess_security_controls (project_data : ProjectData) : Q :=
  let description_lower := lower (description project_data) in
  let '(controls_score, controls_found) :=
    fold_left
      (fun acc tech =>
         let tech_lower := lower tech in
         fold_left
           (fun '(controls_score, controls_found) '(control, effectiveness) =>
              let control_terms := replace_underscore control in
              if str_in control_terms description_lower
                 || str_in control_terms tech_lower
                 || str_in control tech_lower
              then (controls_score + effectiveness, (controls_found + 1)%Z)
              else (controls_score, controls_found))
           security_controls acc)
      (technologies project_data) (0.0, 0%Z) in
  if (controls_found >? 0)%Z
  then Qmin (controls_score / inject_Z controls_found) 1.0
  else 0.1.

Definition _identify_active_risk_factors
  (threat_risk compliance_risk tech_risk data_risk : Q) : list string :=
  let active_factors :=
    ((if Qgtb threat_risk 0.6 then ["Cyber attacks"; "System vulnerabilities"] else []) ++
     (if Qgtb compliance_risk 0.6 then ["Compliance violations"] else []) ++
     (if Qgtb tech_risk 0.5 then ["System vulnerabilities"] else []) ++
     (if Qgtb data_risk 0.5 then ["Data breaches"] else []) ++
     ["Insider threats"])%list in
  list_of_set active_factors.

Definition _get_mitigation_strategies (risk_factors : list string) : list string :=
  let cyber_strategies :=
    [ "Implement multi-layered security controls (Defense in Depth)";
      "Conduct regular security assessments and penetration testing";
      "Establish Security Operations Center (SOC) monitoring";
      "Deploy advanced threat detection and response systems";
      "Implement zero-trust network architecture";
      "Conduct regular security awareness training for all staff";
      "Establish incident response and business continuity plans";
      "Implement data encryption at rest and in transit";
      "Deploy endpoint detection and response (EDR) solutions";
      "Maintain up-to-date vulnerability management program";
      "Implement privileged access management controls";
      "Establish secure software development lifecycle (SDLC)";
      "Deploy network segmentation and micro-segmentation";
      "Implement continuous compliance monitoring";
      "Establish threat intelligence and information sharing" ] in
  firstn 12 (get_common_mitigation_strategies ++ cyber_strategies)%list.

Definition assess_risk (self_id : string) (self_weight : Q)
  (project_data : ProjectData) (now : string) : RiskAssessment :=
  let base_risk := calculate_base_risk_score project_data in
  let threat_risk := _assess_threat_landscape project_data in
  let compliance_risk := _assess_compliance_risk project_data in
  let technology_risk := _assess_technology_security_risk project_data in
  let data_risk := _assess_data_protection_risk project_data in
  let controls_effectiveness := _assess_security_controls project_data in
  let total_risk :=
    base_risk * 0.2 +
    threat_risk * 0.25 +
    compliance_risk * 0.2 +
    technology_risk * 0.2 +
    data_risk * 0.15 in
  let adjusted_risk := total_risk * (1.0 - controls_effectiveness * 0.5) in
  let weighted_risk := Qmin (adjusted_risk * self_weight * 10) 1.0 in
  let active_risk_factors :=
    _identify_active_risk_factors threat_risk compliance_risk technology_risk data_risk in
  let mitigation_strategies := _get_mitigation_strategies active_risk_factors in
  let confidence := calculate_confidence_score project_data in
  mkRiskAssessment self_id weighted_risk active_risk_factors
    mitigation_strategies confidence now.

Definition get_recommendations (risk_assessment : RiskAssessment) : list string :=
  let recommendations :=
    if Qgtb (risk_level risk_assessment) 0.8 then
      [ "URGENT: Conduct immediate security risk assessment";
        "Implement emergency incident response procedures";
        "Deploy advanced security monitoring and alerting";
        "Engage external cybersecurity expertise";
        "Review and strengthen access controls immediately" ]
    else if Qgtb (risk_level risk_assessment) 0.6 then
      [ "Conduct comprehensive security audit";
        "Implement additional security controls";
        "Enhance security monitoring capabilities";
        "Provide targeted security training";
        "Review compliance with UAE regulations" ]
    else if Qgtb (risk_level risk_assessment) 0.4 then
      [ "Maintain current security posture";
        "Schedule regular security reviews";
        "Update security policies and procedures";
        "Continue security awareness programs" ]
    else
      [ "Continue baseline security practices";
        "Monitor for emerging threats";
        "Maintain security documentation" ] in
  firstn 8 recommendations.

Definition new (sector_id : string) (config : SectorConfig) : Sector :=
  mkSector sector_id (cfg_name config) (cfg_weight config) (cfg_risk_factors config)
    (fun project_data now => Ok (assess_risk sector_id (cfg_weight config) project_data now))
    get_recommendations.

End CybersecuritySector.

(* ================================================================== *)
(** ** sectors/regulatory_compliance.py *)
(* ================================================================== *)

Module RegulatoryComplianceSector.
Import Py Idiom BaseSector.

(** An entry of [regulatory_frameworks]: its [risk_level] and [keywords]. *)
Record Framework : Type := mkFramework {
  fw_risk_level : Q;
  fw_keywords : list string
}.

Definition regulatory_frameworks : dict Framework :=
  [ ("tra_telecom_regulations",
       mkFramework 0.8 ["telecom"; "telecommunication"; "network"; "spectrum"; "licensing"]);
    ("uae_cyber_security_law",
       mkFramework 0.9 ["cybersecurity"; "information security"; "data protection"; "cyber"]);
    ("uae_data_protection_law",
       mkFramework 0.8 ["personal data"; "privacy"; "data processing"; "customer information"]);
    ("consumer_protection_law",
       mkFramework 0.6 ["consumer"; "customer service"; "billing"; "complaints"]);
    ("federal_law_competition",
       mkFramework 0.5 ["competition"; "market"; "pricing"; "anti-monopoly"]);
    ("anti_money_laundering",
       mkFramework 0.7 ["aml"; "financial"; "payment"; "money laundering"; "sanctions"]);
    ("critical_infrastructure",
       mkFramework 0.9 ["critical infrastructure"; "national security"; "essential services"]) ].

Definition _assess_regulatory_framework_risk (project_data : ProjectData) : Q :=
  let description_lower := lower (description project_data) in
  let '(framework_risk, applicable_frameworks) :=
    fold_left
      (fun '(framework_risk, applicable_frameworks) '(framework, details) =>
         let framework_applies := any_keyword_in (fw_keywords details) description_lower in
         if framework_applies
         then (framework_risk + fw_risk_level details, (applicable_frameworks + 1)%Z)
         else (framework_risk, applicable_frameworks))
      regulatory_frameworks (0.0, 0%Z) in
  let framework_risk :=
    if Qgtb (budget project_data) 50000000 then framework_risk + 0.3
    else if Qgtb (budget project_data) 20000000 then framework_risk + 0.2
    else framework_risk in
  let framework_risk :=
    add_if (len (stakeholders project_data) >? 15)%Z framework_risk 0.2 in
  Qmin (framework_risk / inject_Z (Z.max applicable_frameworks 1)) 1.0.

Definition _assess_license_compliance_risk (project_data : ProjectData) : Q :=
  let license_risk := 0.4 in
  let license_keywords :=
    [ "new service"; "service launch"; "spectrum"; "frequency";
      "infrastructure deployment"; "network expansion"; "interconnection" ] in
  let license_risk :=
    add_per_keyword license_keywords (lower (description project_data)) 0.3 license_risk in
  let international_keywords :=
    ["international"; "cross-border"; "submarine cable"; "satellite"] in
  let license_risk :=
    add_per_keyword international_keywords (lower (description project_data)) 0.4 license_risk in
  let license_risk := add_if (timeline_days project_data >? 730)%Z license_risk 0.2 in
  Qmin license_risk 1.0.

Definition _assess_data_protection_risk (project_data : ProjectData) : Q :=
  let data_risk := 0.3 in
  let data_keywords :=
    [ "customer data"; "personal information"; "data collection";
      "data processing"; "analytics"; "artificial intelligence";
      "machine learning"; "profiling"; "behavioral analysis" ] in
  let data_risk :=
    add_per_keyword data_keywords (lower (description project_data)) 0.2 data_risk in
  let customer_keywords := ["customer portal"; "mobile app"; "web service"; "self-service"] in
  let data_risk :=
    add_per_keyword customer_keywords (lower (description project_data)) 0.3 data_risk in
  let data_risk :=
    add_if
      (existsb
         (fun dep => str_in "international" (lower dep) || str_in "offshore" (lower dep))
         (dependencies project_data))
      data_risk 0.4 in
  Qmin data_risk 1.0.

Definition _assess_audit_readiness_risk (project_data : ProjectData) : Q :=
  let audit_risk := 0.5 in
  let audit_risk := add_if (Qgtb (complexity_score project_data) 0.7) audit_risk 0.2 in
  let audit_risk := add_if (len (dependencies project_data) >? 8)%Z audit_risk 0.2 in
  let emerging_tech_keywords := ["ai"; "5g"; "iot"; "blockchain"; "edge computing"] in
  let audit_risk :=
    fold_left
      (fun audit_risk tech =>
         add_if (any_keyword_in emerging_tech_keywords (lower tech)) audit_risk 0.1)
      (technologies project_data) audit_risk in
  Qmin audit_risk 1.0.

Definition _assess_policy_compliance_risk (project_data : ProjectData) : Q :=
  let policy_risk := 0.4 in
  let policy_risk := add_if (len (stakeholders project_data) >? 10)%Z policy_risk 0.2 in
  let policy_risk :=
    match historical_risks project_data with
    | Some (r :: rs) =>
        let compliance_history :=
          filter (fun risk => str_in "compliance" (lower risk) || str_in "policy" (lower risk))
            (r :: rs) in
        add_if (list_truthy compliance_history) policy_risk 0.3
    | _ => policy_risk
    end in
  Qmin policy_risk 1.0.

Definition _identify_active_risk_factors
  (framework_risk license_risk data_risk audit_risk : Q) : list string :=
  ((if Qgtb framework_risk 0.6 then ["Regulatory violations"] else []) ++
   (if Qgtb license_risk 0.5 then ["License compliance"] else []) ++
   (if Qgtb data_risk 0.5 then ["Data protection breaches"] else []) ++
   (if Qgtb audit_risk 0.5 then ["Audit failures"] else []) ++
   ["Policy non-compliance"])%list.

Definition _get_mitigation_strategies (risk_factors : list string) : list string :=
  let compliance_strategies :=
    [ "Establish dedicated compliance officer and team";
      "Conduct regular regulatory impact assessments";
      "Implement compliance monitoring and reporting systems";
      "Maintain current regulatory knowledge and tracking";
      "Establish relationships with regulatory authorities";
      "Conduct pre-launch compliance reviews";
      "Implement data protection impact assessments (DPIA)";
      "Establish audit trail and documentation procedures";
      "Create compliance training programs for staff";
      "Implement automated compliance monitoring tools";
      "Establish legal review processes for new initiatives";
      "Maintain compliance risk register and mitigation plans";
      "Conduct regular internal compliance audits";
      "Establish incident response procedures for compliance breaches";
      "Implement change management for regulatory updates" ] in
  firstn 12 (get_common_mitigation_strategies ++ compliance_strategies)%list.

Definition assess_risk (self_id : string) (self_weight : Q)
  (project_data : ProjectData) (now : string) : RiskAssessment :=
  let base_risk := calculate_base_risk_score project_data in
  let regulatory_framework_risk := _assess_regulatory_framework_risk project_data in
  let license_compliance_risk := _assess_license_compliance_risk project_data in
  let data_protection_risk := _assess_data_protection_risk project_data in
  let audit_risk := _assess_audit_readiness_risk project_data in
  let policy_compliance_risk := _assess_policy_compliance_risk project_data in
  let total_risk :=
    base_risk * 0.15 +
    regulatory_framework_risk * 0.25 +
    license_compliance_risk * 0.2 +
    data_protection_risk * 0.2 +
    audit_risk * 0.1 +
    policy_compliance_risk * 0.1 in
  let weighted_risk := Qmin (total_risk * self_weight * 10) 1.0 in
  let active_risk_factors :=
    _identify_active_risk_factors
      regulatory_framework_risk license_compliance_risk data_protection_risk audit_risk in
  let mitigation_strategies := _get_mitigation_strategies active_risk_factors in
  let confidence := calculate_confidence_score project_data in
  mkRiskAssessment self_id weighted_risk active_risk_factors
    mitigation_strategies confidence now.

Definition get_recommendations (risk_assessment : RiskAssessment) : list string :=
  let recommendations :=
    if Qgtb (risk_level risk_assessment) 0.8 then
      [ "URGENT: Conduct immediate compliance risk assessment";
        "Engage legal counsel for regulatory review";
        "Implement emergency compliance monitoring";
        "Contact relevant regulatory authorities for guidance";
        "Suspend project activities until compliance confirmed" ]
    else if Qgtb (risk_level risk_assessment) 0.6 then
      [ "Conduct comprehensive regulatory compliance review";
        "Engage compliance consultants for specialized expertise";
        "Implement enhanced compliance monitoring";
        "Review and update compliance policies and procedures";
        "Provide compliance training for project team" ]
    else if Qgtb (risk_level risk_assessment) 0.4 then
      [ "Schedule regular compliance reviews";
        "Update compliance documentation";
        "Monitor regulatory changes and updates";
        "Maintain current compliance certifications" ]
    else
      [ "Continue baseline compliance activities";
        "Monitor for regulatory updates";
        "Maintain compliance documentation" ] in
  firstn 6 recommendations.

Definition new (sector_id : string) (config : SectorConfig) : Sector :=
  mkSector sector_id (cfg_name config) (cfg_weight config) (cfg_risk_factors config)
    (fun project_data now => Ok (assess_risk sector_id (cfg_weight config) project_data now))
    get_recommendations.

End RegulatoryComplianceSector.

(* ================================================================== *)
(** ** config/config_manager.py *)
(* ================================================================== *)

Module ConfigManager.
Import Py.

(** The [sectors] section of the loaded configuration.  The other two
    sections ([uae_settings], [recommendation_engine]) are passed through
    unread by the scoring core and are not modelled; the field checks of
    [validate_config] hold by typing. *)
Definition Config : Type := dict SectorConfig.

Definition get_sector_weights (config : Config) : dict Q :=
  map (fun '(sector_id, c) => (sector_id, cfg_weight c)) config.

(** [sum(weights.values())]. *)
Definition total_weight (config : Config) : Q :=
  fold_left Qplus (map snd (get_sector_weights config)) 0.

(** The message of the error carries the formatted sum in the source; the
    model keeps a fixed text. *)
Definition validate_config (config : Config) : result bool :=
  let total_weight := total_weight config in
  if negb (Qle_bool 0.95 total_weight && Qle_bool total_weight 1.05)
  then Raise (ValueError "Sector weights sum is not close to 1.0")
  else Ok true.

End ConfigManager.

(* ================================================================== *)
(** ** core/risk_manager.py *)
(* ================================================================== *)

Module RiskManager.
Import Py.

(** The class [PlaceholderSector] closed over [sector_id] and [config]. *)
Module PlaceholderSector.

Definition assess_risk (self_id self_name : string) (self_risk_factors : list string)
  (project_data : ProjectData) (now : string) : RiskAssessment :=
  let base_risk := Qmin (complexity_score project_data * 0.8) 1.0 in
  mkRiskAssessment self_id base_risk (firstn 3 self_risk_factors)
    [ "Conduct " ++ lower self_name ++ " risk assessment";
      "Implement " ++ lower self_name ++ " best practices";
      "Monitor " ++ lower self_name ++ " key metrics" ]
    0.5 now.

Definition get_recommendations (self_name : string) (risk_assessment : RiskAssessment)
  : list string :=
  [ "Develop comprehensive " ++ lower self_name ++ " strategy";
    "Implement " ++ lower self_name ++ " monitoring";
    "Regular " ++ lower self_name ++ " reviews" ].

Definition new (sector_id : string) (config : SectorConfig) : Sector :=
  mkSector sector_id (cfg_name config) (cfg_weight config) (cfg_risk_factors config)
    (fun project_data now =>
       Ok (assess_risk sector_id (cfg_name config) (cfg_risk_factors config) project_data now))
    (get_recommendations (cfg_name config)).

End PlaceholderSector.

(** The state of a [RiskManager]: its [sectors] dictionary. *)
Record t : Type := mk { sectors : dict Sector }.

Definition sector_classes : dict (string -> SectorConfig -> Sector) :=
  [ ("network_infrastructure", NetworkInfrastructureSector.new);
    ("cybersecurity", CybersecuritySector.new);
    ("regulatory_compliance", RegulatoryComplianceSector.new) ].

Definition _create_placeholder_sector := PlaceholderSector.new.

Definition _initialize_sectors (sector_configs : ConfigManager.Config) : dict Sector :=
  fold_left
    (fun sectors '(sector_id, sector_config) =>
       match dict_get sector_classes sector_id with
       | Some cls => dict_set sectors sector_id (cls sector_id sector_config)
       | None =>
           dict_set sectors sector_id (_create_placeholder_sector sector_id sector_config)
       end)
    sector_configs [].

(** [RiskManager(config_manager)]. *)
Definition new (config : ConfigManager.Config) : t := mk (_initialize_sectors config).

Definition _create_fallback_assessment (self : t) (sector_id : string)
  (project_data : ProjectData) (error_msg : string) (now : string)
  : option RiskAssessment :=
  match dict_get (sectors self) sector_id with
  | None => None
  | Some sector =>
      Some (mkRiskAssessment sector_id 0.5 ["Assessment error occurred"]
              [ "Review " ++ name sector ++ " assessment methodology";
                "Conduct manual risk evaluation";
                "Seek expert consultation" ]
              0.1 now)
  end.

(** The call [self.sectors[sector_id].assess_risk(project_data)]: entering
    the scorer is observable, and the scorer may raise. *)
Definition call_assess_risk (sector_id : string) (sector : Sector)
  (project_data : ProjectData) (now : string) : M RiskAssessment :=
  bind (emit (Scored sector_id))
       (fun _ tr => (assess_risk sector project_data now, tr)).

(** The body of the loop of [assess_project_risk]. *)
Definition assess_sector (self : t) (project_data : ProjectData) (now : string)
  (sector_id : string) (risk_assessments : dict RiskAssessment)
  : M (dict RiskAssessment) :=
  match dict_get (sectors self) sector_id with
  | Some sector =>
      try_except
        (risk_assessment <- call_assess_risk sector_id sector project_data now ;;
         ret (dict_set risk_assessments sector_id risk_assessment))%monad
        (fun e =>
           (print ("Error assessing risk for sector " ++ sector_id ++ ": " ++ exn_msg e) ;;;
            match _create_fallback_assessment self sector_id project_data (exn_msg e) now with
            | Some fallback => ret (dict_set risk_assessments sector_id fallback)
            | None =>
                (* not reached: [sector_id] was just found in [self.sectors] *)
                ret risk_assessments
            end)%monad)
  | None => ret risk_assessments
  end.

Definition assess_project_risk (self : t) (project_data : ProjectData)
  (sectors_to_assess : option (list string)) (now : string)
  : M (dict RiskAssessment) :=
  let sectors_to_assess :=
    match sectors_to_assess with
    | None => dict_keys (sectors self)
    | Some l => l
    end in
  for_each sectors_to_assess (assess_sector self project_data now) [].

(** The two accumulators of the loop of [calculate_overall_risk]. *)
Definition accumulate_risk (self : t) (risk_assessments : dict RiskAssessment) : Q * Q :=
  fold_left
    (fun '(weighted_risk, total_weight) '(sector_id, assessment) =>
       match dict_get (sectors self) sector_id with
       | Some sector =>
           let sector_weight := weight sector in
           (weighted_risk + risk_level assessment * sector_weight,
            total_weight + sector_weight)
       | None => (weighted_risk, total_weight)
       end)
    risk_assessments (0.0, 0.0).

Definition calculate_overall_risk (self : t) (risk_assessments : dict RiskAssessment) : Q :=
  if negb (list_truthy risk_assessments) then 0.5
  else
    let '(weighted_risk, total_weight) := accumulate_risk self risk_assessments in
    if Qgtb total_weight 0 then Qmin (weighted_risk / total_weight) 1.0
    else 0.5.

(** A ranked entry: [(risk_factor | recommendation, sector_name, risk_level)]. *)
Definition Ranked : Type := string * string * Q.

Definition ranked_level (x : Ranked) : Q := snd x.

(** [key x >= key y] for [key = lambda x: x[2]]. *)
Definition level_ge (x y : Ranked) : bool := Qgeb (ranked_level x) (ranked_level y).

(** The list [all_risks] before it is sorted. *)
Definition all_risks (self : t) (risk_assessments : dict RiskAssessment) : list Ranked :=
  flat_map
    (fun '(sector_id, assessment) =>
       match dict_get (sectors self) sector_id with
       | Some sector =>
           let sector_name := name sector in
           map (fun risk_factor => (risk_factor, sector_name, risk_level assessment))
             (risk_factors assessment)
       | None => []
       end)
    risk_assessments.

Definition get_top_risk_factors (self : t) (risk_assessments : dict RiskAssessment)
  (limit : Z) : list Ranked :=
  slice_to (sort_desc level_ge (all_risks self risk_assessments)) limit.

(** The list [all_recommendations] before it is sorted. *)
Definition all_recommendations (self : t) (risk_assessments : dict RiskAssessment)
  : list Ranked :=
  flat_map
    (fun '(sector_id, assessment) =>
       match dict_get (sectors self) sector_id with
       | Some sector =>
           let sector_recommendations := get_recommendations sector assessment in
           map (fun recommendation => (recommendation, name sector, risk_level assessment))
             sector_recommendations
       | None => []
       end)
    risk_assessments.

Definition get_priority_recommendations (self : t) (risk_assessments : dict RiskAssessment)
  (limit : Z) : list Ranked :=
  slice_to (sort_desc level_ge (all_recommendations self risk_assessments)) limit.

Definition validate_project_data (project_data : ProjectData) : list string :=
  ((if negb (str_truthy (project_id project_data))
    then ["Project ID is required"] else []) ++
   (if negb (str_truthy (description project_data))
    then ["Project description is required"] else []) ++
   (if Qle_bool (budget project_data) 0
    then ["Project budget must be greater than 0"] else []) ++
   (if (timeline_days project_data <=? 0)%Z
    then ["Project timeline must be greater than 0 days"] else []) ++
   (if negb (Qle_bool 0.0 (complexity_score project_data)
             && Qle_bool (complexity_score project_data) 1.0)
    then ["Complexity score must be between 0.0 and 1.0"] else []) ++
   (if negb (list_truthy (technologies project_data))
    then ["At least one technology should be specified"] else []) ++
   (if negb (list_truthy (stakeholders project_data))
    then ["At least one stakeholder should be specified"] else []))%list.

End RiskManager.

(* ================================================================== *)
(** ** core/recommender.py *)
(* ================================================================== *)

Module Recommender.
Import Py.

Inductive RiskCategory : Type := CRITICAL | HIGH | MEDIUM | LOW | MINIMAL.

Definition _categorize_risk (risk_score : Q) : RiskCategory :=
  if Qgeb risk_score 0.8 then CRITICAL
  else if Qgeb risk_score 0.6 then HIGH
  else if Qgeb risk_score 0.4 then MEDIUM
  else if Qgeb risk_score 0.2 then LOW
  else MINIMAL.

Record RecommendationReport : Type := mkReport {
  project_data : ProjectData;
  risk_assessments : dict RiskAssessment;
  overall_risk : Q;
  top_risks : list RiskManager.Ranked;
  priority_recommendations : list RiskManager.Ranked;
  generated_at : string;
  risk_category : RiskCategory
}.

(** [RecommendationReport.__init__]. *)
Definition new_report (project_data : ProjectData)
  (risk_assessments : dict RiskAssessment) (overall_risk : Q)
  (top_risks priority_recommendations : list RiskManager.Ranked) (now : string)
  : RecommendationReport :=
  mkReport project_data risk_assessments overall_risk top_risks
    priority_recommendations now (_categorize_risk overall_risk).

Definition sector_keywords : dict (list string) :=
  [ ("network_infrastructure",
       [ "network"; "infrastructure"; "fiber"; "tower"; "equipment";
         "hardware"; "connectivity"; "transmission"; "switching" ]);
    ("cybersecurity",
       [ "security"; "cybersecurity"; "cyber"; "protection"; "firewall";
         "encryption"; "threat"; "vulnerability"; "incident" ]);
    ("regulatory_compliance",
       [ "compliance"; "regulation"; "regulatory"; "license"; "legal";
         "policy"; "audit"; "standard"; "certification" ]);
    ("it_software_development",
       [ "software"; "development"; "programming"; "system"; "integration";
         "application"; "platform"; "database"; "api" ]);
    ("telecom_services",
       [ "service"; "voice"; "data"; "internet"; "mobile"; "broadband";
         "telecommunication"; "subscriber"; "billing" ]);
    ("customer_service_delivery",
       [ "customer"; "support"; "service delivery"; "helpdesk"; "portal";
         "experience"; "satisfaction"; "call center" ]);
    ("supply_chain_management",
       [ "procurement"; "vendor"; "supplier"; "logistics"; "inventory";
         "sourcing"; "contract"; "delivery" ]);
    ("marketing_sales",
       [ "marketing"; "sales"; "campaign"; "promotion"; "advertising";
         "customer acquisition"; "revenue"; "pricing" ]);
    ("human_resources",
       [ "training"; "staff"; "employee"; "recruitment"; "workforce";
         "skills"; "performance"; "human resources" ]);
    ("research_development",
       [ "research"; "development"; "innovation"; "r&d"; "prototype";
         "pilot"; "testing"; "experiment"; "technology development" ]) ].

(** [for keyword in keywords: if keyword in text: score += 1]. *)
Definition count_hits (keywords : list string) (text : string) (score : Z) : Z :=
  fold_left (fun score keyword => if str_in keyword text then (score + 1)%Z else score)
    keywords score.

(** The [relevance_score] the loop computes for one sector's keywords. *)
Definition relevance_score (project_data : ProjectData) (keywords : list string) : Z :=
  let description_lower := lower (description project_data) in
  let relevance_score := count_hits keywords description_lower 0%Z in
  fold_left
    (fun relevance_score tech => count_hits keywords (lower tech) relevance_score)
    (technologies project_data) relevance_score.

(** [relevant_sectors] as the first loop leaves it: the sectors with a hit,
    in the order of [sector_keywords]. *)
Definition scored_sectors (project_data : ProjectData) : list (string * Z) :=
  flat_map
    (fun '(sector_id, keywords) =>
       let relevance_score := relevance_score project_data keywords in
       if (relevance_score >? 0)%Z then [(sector_id, relevance_score)] else [])
    sector_keywords.

(** [key x >= key y] for [key = lambda x: x[1]]. *)
Definition score_ge (x y : string * Z) : bool := (snd y <=? snd x)%Z.

Definition mandatory_sectors : list string := ["cybersecurity"; "regulatory_compliance"].

(** [for sector in mandatory_sectors: if sector not in result: result.append(sector)]. *)
Definition add_mandatory (result : list string) : list string :=
  fold_left
    (fun result sector => if negb (list_in sector result) then (result ++ [sector])%list else result)
    mandatory_sectors result.

Definition _identify_relevant_sectors (project_data : ProjectData)
  (sectors_filter : option (list string)) : list string :=
  match sectors_filter with
  | Some (s :: l) => s :: l
  | _ =>
      let relevant_sectors := sort_desc score_ge (scored_sectors project_data) in
      let result := map fst (firstn 3 relevant_sectors) in
      let result :=
        fold_left
          (fun result '(sector_id, score) =>
             if (score >=? 3)%Z then (result ++ [sector_id])%list else result)
          (skipn 3 relevant_sectors) result in
      add_mandatory result
  end.

(** [TelecomRecommenderSystem]: its [risk_manager]. *)
Record t : Type := mk { risk_manager : RiskManager.t }.

(** [TelecomRecommenderSystem(config_path)], from the loaded configuration. *)
Definition new (config : ConfigManager.Config) : result t :=
  match ConfigManager.validate_config config with
  | Raise e => Raise e
  | Ok _ => Ok (mk (RiskManager.new config))
  end.

Definition assess_project (self : t) (project_data : ProjectData)
  (sectors_filter : option (list string)) (now : string) : M RecommendationReport :=
  let validation_issues := RiskManager.validate_project_data project_data in
  if list_truthy validation_issues then
    raise (ValueError ("Project data validation failed: " ++ join "; " validation_issues))
  else
    let relevant_sectors := _identify_relevant_sectors project_data sectors_filter in
    (risk_assessments <-
       RiskManager.assess_project_risk (risk_manager self) project_data
         (Some relevant_sectors) now ;;
     let overall_risk :=
       RiskManager.calculate_overall_risk (risk_manager self) risk_assessments in
     let top_risks :=
       RiskManager.get_top_risk_factors (risk_manager self) risk_assessments 10 in
     let priority_recommendations :=
       RiskManager.get_priority_recommendations (risk_manager self) risk_assessments 15 in
     ret (new_report project_data risk_assessments overall_risk top_risks
            priority_recommendations now))%monad.

End Recommender.

(* ================================================================== *)
(** ** Example inputs *)
(* ================================================================== *)

Module Samples.

(** A configuration with the ten sector ids the test-suite expects of the
    shipped file.  The shipped names and weights are not part of the
    sources; the ones here are examples that pass [validate_config]. *)
Definition sector (display_name : string) (w : Q) : SectorConfig :=
  mkSectorConfig display_name "" ["Risk A"; "Risk B"; "Risk C"; "Risk D"] w.

Definition config : ConfigManager.Config :=
  [ ("network_infrastructure", sector "Network Infrastructure" 0.15);
    ("it_software_development", sector "IT Software Development" 0.1);
    ("telecom_services", sector "Telecom Services" 0.1);
    ("customer_service_delivery", sector "Customer Service Delivery" 0.1);
    ("regulatory_compliance", sector "Regulatory Compliance" 0.1);
    ("supply_chain_management", sector "Supply Chain Management" 0.1);
    ("cybersecurity", sector "Cybersecurity" 0.15);
    ("marketing_sales", sector "Marketing and Sales" 0.05);
    ("human_resources", sector "Human Resources" 0.05);
    ("research_development", sector "Research and Development" 0.1) ].

Definition system : Recommender.t := Recommender.mk (RiskManager.new config).

(** [create_sample_project("network_upgrade")] of core/recommender.py. *)
Definition network_upgrade : ProjectData :=
  mkProjectData "UAE_NET_2024_001" "network_infrastructure"
    "5G network infrastructure upgrade across Dubai and Abu Dhabi, including new cell towers, fiber optic cables, and core network equipment replacement"
    75000000 548 0.8
    ["Etisalat"; "du"; "UAE Ministry of Energy"; "Dubai Municipality"; "Abu Dhabi Government"]
    ["5G NR"; "Fiber Optic"; "Massive MIMO"; "Network Function Virtualization"; "Edge Computing"]
    ["Spectrum allocation"; "Site permits"; "Environmental approvals"; "Vendor contracts"]
    None.

(** [valid_project] and [invalid_project] of tests/unit/test_recommender.py. *)
Definition valid_project : ProjectData :=
  mkProjectData "TEST_001" "test" "Test project" 1000000 180 0.5
    ["Test Team"] ["Test Tech"] ["Test Dep"] None.

Definition invalid_project : ProjectData :=
  mkProjectData "" "test" "" 0 0 1.5 [] [] [] None.

(** A sector object whose scorer raises on every project. *)
Definition failing_sector (sector_id display_name : string) (w : Q) : Sector :=
  mkSector sector_id display_name w []
    (fun _ _ => Raise (mkException "RuntimeError" "scorer failed"))
    (fun _ => ["Review " ++ display_name]).

(** A risk manager whose cybersecurity scorer fails. *)
Definition manager_with_failure : RiskManager.t :=
  RiskManager.mk
    (dict_set (RiskManager.sectors (RiskManager.new config)) "cybersecurity"
       (failing_sector "cybersecurity" "Cybersecurity" 0.15)).

(** A configuration that passes [validate_config] although one of its
    weights is negative. *)
Definition config_with_negative_weight : ConfigManager.Config :=
  [ ("network_infrastructure", sector "Network Infrastructure" 0.02);
    ("marketing_sales", sector "Marketing and Sales" (-0.01));
    ("cybersecurity", sector "Cybersecurity" 0.5);
    ("regulatory_compliance", sector "Regulatory Compliance" 0.49) ].

(** A configuration that passes [validate_config] and defines neither of
    the two mandatory sectors. *)
Definition config_without_mandatory : ConfigManager.Config :=
  [ ("network_infrastructure", sector "Network Infrastructure" 1.0) ].

(** A small project without a keyword of any sector. *)
Definition plain_project : ProjectData :=
  mkProjectData "P1" "" "x" 1 1 1.0 ["z"] ["y"] [] None.

(** A hand-made assessment. *)
Definition assessment (sector_id : string) (level : Q) (factors : list string)
  : RiskAssessment :=
  mkRiskAssessment sector_id level factors [] 0.8 "2024-01-01T00:00:00".

End Samples.

(* ================================================================== *)
(** ** config/config_manager.py: the lookups *)
(* ================================================================== *)

Module ConfigQueries.
Import Py.

Definition get_sectors (config : ConfigManager.Config) : dict SectorConfig := config.

Definition get_sector (config : ConfigManager.Config) (sector_id : string)
  : result SectorConfig :=
  match dict_get (get_sectors config) sector_id with
  | None => Raise (ValueError ("Unknown sector: " ++ sector_id))
  | Some c => Ok c
  end.

Definition get_sector_names (config : ConfigManager.Config) : list string :=
  map (fun '(_, c) => cfg_name c) (get_sectors config).

Definition get_risk_factors (config : ConfigManager.Config) (sector_id : string)
  : result (list string) :=
  match get_sector config sector_id with
  | Raise e => Raise e
  | Ok sector_config => Ok (cfg_risk_factors sector_config)
  end.

Definition get_all_risk_factors (config : ConfigManager.Config) : dict (list string) :=
  map (fun '(sector_id, c) => (sector_id, cfg_risk_factors c)) (get_sectors config).

End ConfigQueries.

(* ================================================================== *)
(** ** Introspection: [get_sector_summary] and [get_sector_information] *)
(* ================================================================== *)

Module Introspection.
Import Py.

(** An entry of the dictionary [get_sector_information] returns.  The first
    four fields are those of [get_sector_summary]; the other three are the
    ones [info.update] adds. *)
Record SectorInfo : Type := mkSectorInfo {
  info_name : string;
  info_weight : Q;
  info_risk_factors_count : Z;
  info_implemented : bool;
  info_description : option string;
  info_risk_factors : option (list string);
  info_uae_context : bool
}.

(** [RiskManager.get_sector_summary].  Every sector object, the placeholder
    included, has the attribute [risk_factors] and a callable [assess_risk],
    so both [hasattr] tests succeed. *)
Definition get_sector_summary (self : RiskManager.t) : dict SectorInfo :=
  fold_left
    (fun summary '(sector_id, sector) =>
       dict_set summary sector_id
         (mkSectorInfo (name sector) (weight sector)
            (len (self_risk_factors sector)) true None None false))
    (RiskManager.sectors self) [].

(** [TelecomRecommenderSystem.get_sector_information], for the system built
    from [config]: the loop stops at the first sector id that
    [config_manager.get_sector] does not know. *)
Fixpoint add_context (config : ConfigManager.Config)
  (todo : list (string * SectorInfo)) (sector_info : dict SectorInfo)
  : result (dict SectorInfo) :=
  match todo with
  | [] => Ok sector_info
  | (sector_id, info) :: todo' =>
      match ConfigQueries.get_sector config sector_id with
      | Raise e => Raise e
      | Ok sector_config =>
          add_context config todo'
            (dict_set sector_info sector_id
               (mkSectorInfo (info_name info) (info_weight info)
                  (info_risk_factors_count info) (info_implemented info)
                  (Some (cfg_description sector_config))
                  (Some (cfg_risk_factors sector_config))
                  true))
      end
  end.

Definition get_sector_information (config : ConfigManager.Config)
  : result (dict SectorInfo) :=
  let sector_info := get_sector_summary (RiskManager.new config) in
  add_context config sector_info sector_info.

End Introspection.

(* ================================================================== *)
(** ** core/recommender.py: [create_sample_project] *)
(* ================================================================== *)

Module SampleProjects.

Definition sample_projects : dict ProjectData :=
  [ ("network_upgrade",
       mkProjectData "UAE_NET_2024_001" "network_infrastructure"
         "5G network infrastructure upgrade across Dubai and Abu Dhabi, including new cell towers, fiber optic cables, and core network equipment replacement"
         75000000 548 0.8
         ["Etisalat"; "du"; "UAE Ministry of Energy"; "Dubai Municipality"; "Abu Dhabi Government"]
         ["5G NR"; "Fiber Optic"; "Massive MIMO"; "Network Function Virtualization"; "Edge Computing"]
         ["Spectrum allocation"; "Site permits"; "Environmental approvals"; "Vendor contracts"]
         None);
    ("cybersecurity_enhancement",
       mkProjectData "UAE_SEC_2024_002" "cybersecurity"
         "Comprehensive cybersecurity enhancement for critical telecom infrastructure including AI-powered threat detection, zero-trust architecture, and compliance with UAE Cyber Security Law"
         25000000 365 0.7
         ["UAE Cyber Security Council"; "Telecom operators"; "Critical infrastructure providers"]
         ["AI-powered security"; "Zero-trust architecture"; "SIEM"; "Threat intelligence"; "Endpoint protection"]
         ["Security clearances"; "Compliance audits"; "Staff training"; "Vendor assessments"]
         None);
    ("customer_portal",
       mkProjectData "UAE_CUS_2024_003" "customer_service_delivery"
         "Digital customer self-service portal with AI chatbot, mobile app, and integrated billing system for improved customer experience"
         15000000 273 0.6
         ["Customer service teams"; "IT development"; "Marketing"; "Billing department"]
         ["React Native"; "AI Chatbot"; "Cloud services"; "API Gateway"; "Analytics platform"]
         ["Customer data migration"; "Payment gateway integration"; "App store approvals"; "User testing"]
         None) ].

Definition create_sample_project (project_type : string) : result ProjectData :=
  match dict_get sample_projects project_type with
  | None =>
      Raise (ValueError
               ("Unknown project type: " ++ project_type
                ++ ". Available: ['network_upgrade', 'cybersecurity_enhancement', 'customer_portal']"))
  | Some p => Ok p
  end.

End SampleProjects.

(* ================================================================== *)
(** ** cli.py *)
(* ================================================================== *)

Module Cli.
Import Py.

Definition _get_risk_color (risk_level : Q) : string :=
  if Qgeb risk_level 0.8 then "red"
  else if Qgeb risk_level 0.6 then "yellow"
  else if Qgeb risk_level 0.4 then "cyan"
  else "green".

(** [s.split(',')]: one more piece than there are commas. *)
Fixpoint split_comma (s : string) : list string :=
  match s with
  | EmptyString => [""]
  | String c s' =>
      if Ascii.eqb c ","%char then "" :: split_comma s'
      else
        match split_comma s' with
        | piece :: pieces => String c piece :: pieces
        | [] => [String c ""]
        end
  end.

(** The characters [str.strip()] removes, among the 8-bit ones: tab, line
    feed, vertical tab, form feed, carriage return, the four separators
    28 to 31, and the space. *)
Definition is_space (c : ascii) : bool :=
  let n := nat_of_ascii c in
  ((9 <=? n)%nat && (n <=? 13)%nat) || ((28 <=? n)%nat && (n <=? 32)%nat).

Fixpoint lstrip (s : string) : string :=
  match s with
  | EmptyString => EmptyString
  | String c s' => if is_space c then lstrip s' else s
  end.

Fixpoint rstrip (s : string) : string :=
  match s with
  | EmptyString => EmptyString
  | String c s' =>
      match rstrip s' with
      | EmptyString => if is_space c then EmptyString else String c EmptyString
      | r => String c r
      end
  end.

Definition strip (s : string) : string := rstrip (lstrip s).

(** [option.split(',') if option else default] for a comma-separated
    option that may be absent. *)
Definition split_option (option : option string) (default : list string) : list string :=
  match option with
  | Some s => if str_truthy s then split_comma s else default
  | None => default
  end.

(** The [ProjectData] the [assess] command builds from its options. *)
Definition assess_project_data (project_id description : string) (budget : Q)
  (timeline_days : Z) (complexity : Q)
  (technologies stakeholders dependencies : option string) : ProjectData :=
  let tech_list := split_option technologies ["General IT"] in
  let stakeholder_list := split_option stakeholders ["Project Team"] in
  let dependency_list := split_option dependencies [] in
  mkProjectData project_id "general" description budget timeline_days complexity
    (map strip stakeholder_list) (map strip tech_list) (map strip dependency_list) None.

(** The sector filter the [assess] command passes on: the pieces are not
    stripped. *)
Definition assess_sector_filter (sectors : option string) : option (list string) :=
  match sectors with
  | Some s => if str_truthy s then Some (split_comma s) else None
  | None => None
  end.

End Cli.

(* ================================================================== *)
(** ** The same code on binary64 floats *)
(* ================================================================== *)

(** The embedding above computes with exact rationals.  Two behaviours of
    a Python [float] are lost there: rounding, and NaN, which fails every
    comparison.  This module embeds once more, on IEEE 754 binary64 values
    (the kernel's primitive floats, with the arithmetic of the hardware),
    the functions in which one of the two decides the result:
    [validate_project_data], [calculate_confidence_score],
    [calculate_overall_risk] and the weight check of [validate_config]. *)

Module Binary64.
Import Stdlib.Floats.Floats.
Local Open Scope float_scope.

(** [min(x, y)]: [y] when [y < x], else [x]. *)
Definition min (x y : float) : float := if y <? x then y else x.

Record ProjectData : Type := mkProjectData {
  project_id : string;
  project_sector_id : string;
  description : string;
  budget : float;
  timeline_days : Z;
  complexity_score : float;
  stakeholders : list string;
  technologies : list string;
  dependencies : list string;
  historical_risks : option (list string)
}.

Record RiskAssessment : Type := mkRiskAssessment {
  sector_id : string;
  risk_level : float;
  risk_factors : list string;
  mitigation_strategies : list string;
  confidence : float;
  timestamp : string
}.

(** The attributes of a sector object; the two methods play no role in the
    functions of this module. *)
Record Sector : Type := mkSector {
  self_sector_id : string;
  name : string;
  weight : float;
  self_risk_factors : list string
}.

(** core/risk_manager.py, [validate_project_data]: [budget <= 0] and
    [0.0 <= complexity_score <= 1.0] are comparisons of floats, false when
    an operand is NaN. *)
Definition validate_project_data (project_data : ProjectData) : list string :=
  ((if negb (Py.str_truthy (project_id project_data))
    then ["Project ID is required"] else []) ++
   (if negb (Py.str_truthy (description project_data))
    then ["Project description is required"] else []) ++
   (if budget project_data <=? 0
    then ["Project budget must be greater than 0"] else []) ++
   (if (timeline_days project_data <=? 0)%Z
    then ["Project timeline must be greater than 0 days"] else []) ++
   (if negb ((0 <=? complexity_score project_data)
             && (complexity_score project_data <=? 1))
    then ["Complexity score must be between 0.0 and 1.0"] else []) ++
   (if negb (Py.list_truthy (technologies project_data))
    then ["At least one technology should be specified"] else []) ++
   (if negb (Py.list_truthy (stakeholders project_data))
    then ["At least one stakeholder should be specified"] else []))%list.

Definition historical_risks_truthy (project_data : ProjectData) : bool :=
  match historical_risks project_data with
  | Some l => Py.list_truthy l
  | None => false
  end.

(** sectors/base_sector.py, [calculate_confidence_score]: [budget > 0] is
    false for a NaN budget. *)
Definition calculate_confidence_score (project_data : ProjectData) : float :=
  let data_completeness := 0 in
  let data_completeness :=
    if Py.str_truthy (description project_data)
    then data_completeness + 0.2 else data_completeness in
  let data_completeness :=
    if 0 <? budget project_data
    then data_completeness + 0.2 else data_completeness in
  let data_completeness :=
    if (timeline_days project_data >? 0)%Z
    then data_completeness + 0.2 else data_completeness in
  let data_completeness :=
    if Py.list_truthy (technologies project_data)
    then data_completeness + 0.2 else data_completeness in
  let data_completeness :=
    if historical_risks_truthy project_data
    then data_completeness + 0.2 else data_completeness in
  data_completeness.

(** config/config_manager.py: [sum(self.get_sector_weights().values())] and
    the test [0.95 <= total_weight <= 1.05] of [validate_config], on the
    mapping of sector ids to weights. *)
Definition total_weight (sector_weights : dict float) : float :=
  fold_left PrimFloat.add (map snd sector_weights) 0.


(** core/risk_manager.py, [calculate_overall_risk], for the sector objects
    [sectors] of the risk manager. *)
Definition accumulate_risk (sectors : dict Sector)
  (risk_assessments : dict RiskAssessment) : float * float :=
  fold_left
    (fun '(weighted_risk, total_weight) '(sector_id, assessment) =>
       match dict_get sectors sector_id with
       | Some sector =>
           let sector_weight := weight sector in
           (weighted_risk + risk_level assessment * sector_weight,
            total_weight + sector_weight)
       | None => (weighted_risk, total_weight)
       end)
    risk_assessments (0, 0).

Definition calculate_overall_risk (sectors : dict Sector)
  (risk_assessments : dict RiskAssessment) : float :=
  if negb (Py.list_truthy risk_assessments) then 0.5
  else
    let '(weighted_risk, total_weight) := accumulate_risk sectors risk_assessments in
    if 0 <? total_weight then min (weighted_risk / total_weight) 1
    else 0.5.



Definition assessment (sector_id : string) (level : float) : RiskAssessment :=
  mkRiskAssessment sector_id level ["Risk A"] [] 0.8 "2024-01-01T00:00:00".


End Binary64.

(* ================================================================== *)
(** * Properties *)
(* ================================================================== *)

(** ** Facts about the built-ins *)

Module PyFacts.
Import Py.

Lemma Qgtb_true (x y : Q) : Qgtb x y = true <-> y < x.
Proof.
  unfold Qgtb. rewrite negb_true_iff. split; intro H.
  - apply Qnot_le_lt. intro Hle. apply Qle_bool_iff in Hle. congruence.
  - destruct (Qle_bool x y) eqn:E; [|reflexivity].
    apply Qle_bool_iff in E. exfalso. apply (Qlt_not_le _ _ H E).
Qed.

Lemma Qgtb_false (x y : Q) : Qgtb x y = false <-> x <= y.
Proof.
  unfold Qgtb. rewrite negb_false_iff. apply Qle_bool_iff.
Qed.

Lemma Qgeb_true (x y : Q) : Qgeb x y = true <-> y <= x.
Proof. unfold Qgeb. apply Qle_bool_iff. Qed.

Lemma Qgeb_false (x y : Q) : Qgeb x y = false <-> x < y.
Proof.
  unfold Qgeb. split; intro H.
  - apply Qnot_le_lt. intro Hle. apply Qle_bool_iff in Hle. congruence.
  - destruct (Qle_bool y x) eqn:E; [|reflexivity].
    apply Qle_bool_iff in E. exfalso. apply (Qlt_not_le _ _ H E).
Qed.

Lemma clip_bounds (x lo hi : Q) : lo <= hi -> lo <= clip x lo hi /\ clip x lo hi <= hi.
Proof.
  intro H. unfold clip. split.
  - apply Q.min_glb; [apply Q.le_max_r | exact H].
  - apply Q.le_min_r.
Qed.

Lemma clip_id (x lo hi : Q) : lo <= x -> x <= hi -> clip x lo hi == x.
Proof.
  intros H1 H2. unfold clip.
  rewrite (Q.max_l x lo H1). apply Q.min_l. exact H2.
Qed.

Lemma Qmin_nonneg (x y : Q) : 0 <= x -> 0 <= y -> 0 <= Qmin x y.
Proof. intros. apply Q.min_glb; assumption. Qed.

Lemma str_truthy_false (s : string) : str_truthy s = false <-> s = "".
Proof. destruct s; simpl; split; congruence. Qed.

Lemma list_truthy_false {A : Type} (l : list A) : list_truthy l = false <-> l = [].
Proof. destruct l; simpl; split; congruence. Qed.

Lemma prefix_self_app (s t : string) : String.prefix s (s ++ t) = true.
Proof.
  induction s as [|c s IH]; simpl.
  - destruct t; reflexivity.
  - destruct (ascii_dec c c) as [_|n]; [exact IH | congruence].
Qed.

Lemma prefix_app_l (s a b : string) :
  String.prefix s a = true -> String.prefix s (a ++ b) = true.
Proof.
  revert a. induction s as [|c s IH]; intros a H.
  - destruct (a ++ b); reflexivity.
  - destruct a as [|c' a]; [discriminate|]. simpl in *.
    destruct (ascii_dec c c'); [apply IH; exact H | discriminate].
Qed.

Lemma str_in_refl (s : string) : str_in s s = true.
Proof.
  assert (H : String.prefix s s = true).
  { pose proof (prefix_self_app s "") as P.
    assert (E : s ++ "" = s) by (clear; induction s; simpl; congruence).
    now rewrite E in P. }
  destruct s; simpl in *; [reflexivity | now rewrite H].
Qed.

Lemma str_in_app_l (s a b : string) : str_in s a = true -> str_in s (a ++ b) = true.
Proof.
  induction a as [|c a IH]; simpl; intro H.
  - rewrite orb_false_r in H.
    destruct s; [|discriminate]. destruct b; reflexivity.
  - apply orb_true_iff in H. destruct H as [H|H].
    + pose proof (prefix_app_l s (String c a) b H) as P. simpl in P.
      now rewrite P.
    + rewrite (IH H). apply orb_true_r.
Qed.

Lemma str_in_app_r (s a b : string) : str_in s b = true -> str_in s (a ++ b) = true.
Proof.
  induction a as [|c a IH]; simpl; intro H.
  - exact H.
  - rewrite (IH H). apply orb_true_r.
Qed.

Lemma str_in_join (sep s : string) (l : list string) :
  In s l -> str_in s (join sep l) = true.
Proof.
  induction l as [|x l IH]; intro H; [contradiction|].
  destruct l as [|y l].
  - destruct H as [->|[]]. apply str_in_refl.
  - change (join sep (x :: y :: l)) with (x ++ sep ++ join sep (y :: l)).
    destruct H as [->|H].
    + apply str_in_app_l, str_in_refl.
    + apply str_in_app_r, str_in_app_r, IH, H.
Qed.

Lemma slice_to_nonneg {A : Type} (l : list A) (n : Z) :
  (0 <= n)%Z -> slice_to l n = firstn (Z.to_nat n) l.
Proof.
  intro H. unfold slice_to.
  destruct (n <? 0)%Z eqn:E; [apply Z.ltb_lt in E; lia | reflexivity].
Qed.

Lemma slice_to_length {A : Type} (l : list A) (n : Z) :
  (0 <= n)%Z -> (len (slice_to l n) <= n)%Z.
Proof.
  intro H. rewrite slice_to_nonneg by exact H. unfold len.
  rewrite length_firstn. lia.
Qed.

Lemma list_in_true (x : string) (l : list string) : list_in x l = true <-> In x l.
Proof.
  unfold list_in. rewrite existsb_exists. split.
  - intros [y [Hy E]]. apply String.eqb_eq in E. now subst.
  - intro H. exists x. split; [exact H | apply String.eqb_refl].
Qed.

(** *** The stable descending sort *)

Section SortFacts.
Context {A : Type} (ge : A -> A -> bool).
Hypothesis ge_total : forall x y, ge x y = true \/ ge y x = true.
Hypothesis ge_trans : forall x y z, ge x y = true -> ge y z = true -> ge x z = true.

Lemma insert_desc_perm (x : A) (l : list A) : Permutation (insert_desc ge x l) (x :: l).
Proof.
  induction l as [|y l IH]; simpl.
  - apply Permutation_refl.
  - destruct (ge x y).
    + apply Permutation_refl.
    + eapply Permutation_trans; [apply perm_skip, IH | apply perm_swap].
Qed.

Lemma sort_desc_perm (l : list A) : Permutation (sort_desc ge l) l.
Proof.
  induction l as [|x l IH]; simpl.
  - apply Permutation_refl.
  - eapply Permutation_trans; [apply insert_desc_perm | apply perm_skip, IH].
Qed.

Lemma insert_desc_sorted (x : A) (l : list A) :
  StronglySorted (fun a b => ge a b = true) l ->
  StronglySorted (fun a b => ge a b = true) (insert_desc ge x l).
Proof.
  induction l as [|y l IH]; intro H; simpl.
  - constructor; constructor.
  - inversion H as [|? ? Hs Hall]; subst.
    destruct (ge x y) eqn:E.
    + constructor; [exact H|]. constructor; [exact E|].
      rewrite Forall_forall in *. intros z Hz. eapply ge_trans; [exact E | auto].
    + constructor; [apply IH; exact Hs|].
      assert (Hyx : ge y x = true) by (destruct (ge_total x y); congruence).
      rewrite Forall_forall in *. intros z Hz.
      apply (Permutation_in _ (insert_desc_perm x l)) in Hz.
      destruct Hz as [<-|Hz]; auto.
Qed.

Lemma sort_desc_sorted (l : list A) :
  StronglySorted (fun a b => ge a b = true) (sort_desc ge l).
Proof.
  induction l as [|x l IH]; simpl; [constructor | apply insert_desc_sorted, IH].
Qed.

(** Stability: the elements whose key equals that of [z] keep their order. *)
Definition same_key (z y : A) : bool := ge z y && ge y z.

Lemma insert_desc_stable (z x : A) (l : list A) :
  filter (same_key z) (insert_desc ge x l) = filter (same_key z) (x :: l).
Proof.
  induction l as [|y l IH]; [reflexivity|].
  simpl insert_desc. destruct (ge x y) eqn:E; [reflexivity|].
  simpl filter in *. rewrite IH.
  destruct (same_key z x) eqn:Ex; [|reflexivity].
  destruct (same_key z y) eqn:Ey; [|reflexivity].
  exfalso. unfold same_key in *.
  apply andb_true_iff in Ex, Ey. destruct Ex as [_ Hxz], Ey as [Hzy _].
  rewrite (ge_trans _ _ _ Hxz Hzy) in E. discriminate.
Qed.

Lemma sort_desc_stable (z : A) (l : list A) :
  filter (same_key z) (sort_desc ge l) = filter (same_key z) l.
Proof.
  induction l as [|x l IH]; [reflexivity|].
  simpl sort_desc. rewrite insert_desc_stable. simpl. now rewrite IH.
Qed.

End SortFacts.

Lemma StronglySorted_firstn {A : Type} (R : A -> A -> Prop) (n : nat) (l : list A) :
  StronglySorted R l -> StronglySorted R (firstn n l).
Proof.
  revert n. induction l as [|x l IH]; intros n H.
  - rewrite firstn_nil. constructor.
  - destruct n; simpl; [constructor|].
    inversion H as [|? ? Hs Hall]; subst. constructor; [apply IH; exact Hs|].
    rewrite Forall_forall in *. intros y Hy. apply Hall.
    rewrite <- (firstn_skipn n l). apply in_or_app. now left.
Qed.

Lemma StronglySorted_weaken {A : Type} (R R' : A -> A -> Prop) (l : list A) :
  (forall x y, R x y -> R' x y) -> StronglySorted R l -> StronglySorted R' l.
Proof.
  intros HR H. induction H as [|x l Hs IH Hall]; constructor.
  - exact IH.
  - eapply Forall_impl; [|exact Hall]. intros y Hy. apply HR, Hy.
Qed.

End PyFacts.

(** ** Validation *)

Module ValidationFacts.
Import Py PyFacts RiskManager.

(** A project is valid when [validate_project_data] reports no issue. *)
Definition valid (project_data : ProjectData) : Prop :=
  validate_project_data project_data = [].

Lemma if_singleton_nil {A : Type} (b : bool) (x : A) :
  (if b then [x] else []) = [] -> b = false.
Proof. destruct b; [discriminate | reflexivity]. Qed.

Lemma valid_fields (project_data : ProjectData) :
  valid project_data ->
  str_truthy (project_id project_data) = true /\
  str_truthy (description project_data) = true /\
  0 < budget project_data /\
  (0 < timeline_days project_data)%Z /\
  0 <= complexity_score project_data <= 1 /\
  list_truthy (technologies project_data) = true /\
  list_truthy (stakeholders project_data) = true.
Proof.
  unfold valid, validate_project_data. intro H.
  apply app_eq_nil in H; destruct H as [H1 H].
  apply app_eq_nil in H; destruct H as [H2 H].
  apply app_eq_nil in H; destruct H as [H3 H].
  apply app_eq_nil in H; destruct H as [H4 H].
  apply app_eq_nil in H; destruct H as [H5 H].
  apply app_eq_nil in H; destruct H as [H6 H7].
  apply if_singleton_nil, negb_false_iff in H1, H2, H5, H6, H7.
  apply if_singleton_nil in H3, H4.
  apply andb_true_iff in H5. destruct H5 as [H5 H5'].
  apply Qle_bool_iff in H5, H5'.
  repeat split; try assumption; try lra.
  - apply Qnot_le_lt. intro Hle. apply Qle_bool_iff in Hle. congruence.
  - apply Z.leb_gt. assumption.
Qed.

Lemma valid_project_is_valid : valid Samples.valid_project.
Proof. reflexivity. Qed.

Lemma network_upgrade_is_valid : valid Samples.network_upgrade.
Proof. reflexivity. Qed.

(** A number within the range of a float.  Beyond it Python raises
    [OverflowError] when it divides the int or multiplies it with a float,
    and a scorer returns nothing. *)
Definition float_range (x : Q) : Prop :=
  - inject_Z (2 ^ 1023) < x < inject_Z (2 ^ 1023).

(** The numbers of a project are within the range of a float. *)
Definition in_float_range (project_data : ProjectData) : Prop :=
  float_range (budget project_data) /\
  (- 2 ^ 1023 < timeline_days project_data < 2 ^ 1023)%Z /\
  float_range (complexity_score project_data).

Lemma network_upgrade_in_float_range : in_float_range Samples.network_upgrade.
Proof. vm_compute. repeat split. Qed.

Lemma sample_weight_in_float_range : float_range 0.15.
Proof. vm_compute. repeat split. Qed.

End ValidationFacts.

(** ** The shared helpers of the sector scorers *)

Module BaseSectorFacts.
Import Py PyFacts BaseSector ValidationFacts.

(** The base risk score in the words of the specification: the four
    normalised factors, weighted, clamped to [0, 1]. *)
Definition spec_base_risk_score (project_data : ProjectData) : Q :=
  let weighted_sum :=
    0.25 * Qmin (budget project_data / 1000000) 1.0 +
    0.25 * Qmin (inject_Z (timeline_days project_data) / 365) 1.0 +
    0.35 * complexity_score project_data +
    0.15 * Qmin (inject_Z (Z.of_nat (List.length (dependencies project_data))) / 10) 1.0 in
  Qmax 0 (Qmin weighted_sum 1).

Lemma clamp_either_order (x : Q) : Qmin (Qmax x 0) 1 == Qmax 0 (Qmin x 1).
Proof.
  destruct (Qlt_le_dec x 0) as [Hn|Hp].
  - rewrite (Q.max_r x 0) by lra. rewrite (Q.min_l 0 1) by lra.
    rewrite (Q.min_l x 1) by lra. rewrite (Q.max_l 0 x) by lra. reflexivity.
  - rewrite (Q.max_l x 0) by lra.
    symmetry. apply Q.max_r. apply Q.min_glb; lra.
Qed.

Lemma base_risk_score_bounds (project_data : ProjectData) :
  0 <= calculate_base_risk_score project_data <= 1.
Proof.
  unfold calculate_base_risk_score. cbv zeta.
  match goal with
  | |- 0 <= clip ?x _ _ <= 1 =>
      destruct (clip_bounds x 0.0 1.0) as [Hlo Hhi]; [lra | split; lra]
  end.
Qed.

Lemma base_risk_score_nonneg (project_data : ProjectData) :
  0 <= calculate_base_risk_score project_data.
Proof. apply base_risk_score_bounds. Qed.

(** C7. For every project, [calculate_base_risk_score] is the weighted sum
    0.25 * min(budget / 1,000,000, 1) + 0.25 * min(timeline_days / 365, 1)
    + 0.35 * complexity_score + 0.15 * min(len(dependencies) / 10, 1),
    clamped to the interval [0, 1]. *)
Theorem base_risk_score_is_clamped_weighted_sum (project_data : ProjectData) :
  calculate_base_risk_score project_data == spec_base_risk_score project_data /\
  0 <= calculate_base_risk_score project_data <= 1.
Proof.
  split.
  - unfold calculate_base_risk_score, spec_base_risk_score, clip, flen, len.
    cbv zeta.
    assert (E0 : 0.0 == 0) by reflexivity.
    assert (E1 : 1.0 == 1) by reflexivity.
    rewrite E0, E1, clamp_either_order.
    apply Q.max_compat; [reflexivity|].
    apply Q.min_compat; [ring | reflexivity].
  - apply base_risk_score_bounds.
Qed.

Example base_risk_score_network_upgrade :
  calculate_base_risk_score Samples.network_upgrade == 0.84.
Proof. reflexivity. Qed.

(** The confidence helper on a valid project. *)
Lemma confidence_of_valid (project_data : ProjectData) :
  valid project_data ->
  calculate_confidence_score project_data ==
  if historical_risks_truthy project_data then 1.0 else 0.8.
Proof.
  intro Hv. destruct (valid_fields _ Hv) as (_ & Hd & Hb & Ht & _ & Hte & _).
  unfold calculate_confidence_score.
  rewrite Hd, Hte. apply Qgtb_true in Hb. rewrite Hb.
  apply Z.gtb_lt in Ht. rewrite Ht.
  destruct (historical_risks_truthy project_data); reflexivity.
Qed.

End BaseSectorFacts.

(** ** Dictionaries *)

Module DictFacts.

Lemma dict_get_set_eq {V : Type} (d : dict V) (k : string) (v : V) :
  dict_get (dict_set d k v) k = Some v.
Proof.
  induction d as [|[k' v'] d IH]; simpl.
  - now rewrite String.eqb_refl.
  - destruct (String.eqb k k') eqn:E; simpl.
    + now rewrite String.eqb_refl.
    + now rewrite E.
Qed.

Lemma dict_get_set_neq {V : Type} (d : dict V) (k k' : string) (v : V) :
  k' <> k -> dict_get (dict_set d k v) k' = dict_get d k'.
Proof.
  intro Hne. induction d as [|[k0 v0] d IH]; simpl.
  - apply String.eqb_neq in Hne. now rewrite Hne.
  - destruct (String.eqb k k0) eqn:E; simpl.
    + apply String.eqb_eq in E. subst k0.
      apply String.eqb_neq in Hne. now rewrite Hne.
    + destruct (String.eqb k' k0); [reflexivity | exact IH].
Qed.

Lemma dict_set_not_nil {V : Type} (d : dict V) (k : string) (v : V) :
  dict_set d k v <> [].
Proof.
  destruct d as [|[k' v'] d]; simpl; [discriminate|].
  destruct (String.eqb k k'); discriminate.
Qed.

Lemma dict_get_In {V : Type} (d : dict V) (k : string) (v : V) :
  dict_get d k = Some v -> In (k, v) d.
Proof.
  induction d as [|[k' v'] d IH]; simpl; [discriminate|].
  destruct (String.eqb k k') eqn:E.
  - apply String.eqb_eq in E. intro H. inversion H. subst. now left.
  - intro H. right. apply IH, H.
Qed.

Lemma dict_get_keys {V : Type} (d : dict V) (k : string) (v : V) :
  dict_get d k = Some v -> In k (dict_keys d).
Proof.
  intro H. apply dict_get_In in H. unfold dict_keys.
  apply (in_map fst) in H. exact H.
Qed.

End DictFacts.

(** ** The aggregation loop *)

Module AggregationFacts.
Import Py PyFacts DictFacts RiskManager.

(** The sector ids the loop of [assess_project_risk] runs over. *)
Definition requested (self : t) (sectors_to_assess : option (list string)) : list string :=
  match sectors_to_assess with
  | None => dict_keys (sectors self)
  | Some l => l
  end.

(** What one iteration stores for [sector_id], if anything. *)
Definition outcome (self : t) (project_data : ProjectData) (now : string)
  (sector_id : string) : option RiskAssessment :=
  match dict_get (sectors self) sector_id with
  | None => None
  | Some sector =>
      match assess_risk sector project_data now with
      | Ok a => Some a
      | Raise e => _create_fallback_assessment self sector_id project_data (exn_msg e) now
      end
  end.

Definition store (self : t) (project_data : ProjectData) (now : string)
  (risk_assessments : dict RiskAssessment) (sector_id : string) : dict RiskAssessment :=
  match outcome self project_data now sector_id with
  | Some a => dict_set risk_assessments sector_id a
  | None => risk_assessments
  end.

(** What one iteration adds to the trace. *)
Definition sector_events (self : t) (project_data : ProjectData) (now : string)
  (sector_id : string) : list event :=
  match dict_get (sectors self) sector_id with
  | None => []
  | Some sector =>
      Scored sector_id ::
      match assess_risk sector project_data now with
      | Ok _ => []
      | Raise e =>
          [Printed ("Error assessing risk for sector " ++ sector_id ++ ": " ++ exn_msg e)]
      end
  end.

(** The fallback branch always has a sector to name. *)
Lemma fallback_is_some (self : t) (sector_id : string) (sector : Sector)
  (project_data : ProjectData) (msg now : string) :
  dict_get (sectors self) sector_id = Some sector ->
  _create_fallback_assessment self sector_id project_data msg now =
  Some (mkRiskAssessment sector_id 0.5 ["Assessment error occurred"]
          [ "Review " ++ name sector ++ " assessment methodology";
            "Conduct manual risk evaluation";
            "Seek expert consultation" ]
          0.1 now).
Proof. intro H. unfold _create_fallback_assessment. now rewrite H. Qed.

Lemma assess_sector_run (self : t) (project_data : ProjectData) (now : string)
  (sector_id : string) (risk_assessments : dict RiskAssessment) (tr : list event) :
  assess_sector self project_data now sector_id risk_assessments tr =
  (Ok (store self project_data now risk_assessments sector_id),
   (tr ++ sector_events self project_data now sector_id)%list).
Proof.
  unfold assess_sector, store, outcome, sector_events.
  destruct (dict_get (sectors self) sector_id) as [sector|] eqn:Hs.
  - unfold try_except, call_assess_risk, bind, emit, ret, print, emit.
    destruct (assess_risk sector project_data now) as [a|e] eqn:Ha.
    + reflexivity.
    + rewrite (fallback_is_some self sector_id sector _ _ _ Hs).
      now rewrite <- app_assoc.
  - unfold ret. now rewrite app_nil_r.
Qed.

Lemma for_each_assess_run (self : t) (project_data : ProjectData) (now : string)
  (l : list string) (acc : dict RiskAssessment) (tr : list event) :
  for_each l (assess_sector self project_data now) acc tr =
  (Ok (fold_left (store self project_data now) l acc),
   (tr ++ flat_map (sector_events self project_data now) l)%list).
Proof.
  revert acc tr. induction l as [|x l IH]; intros acc tr; simpl.
  - unfold ret. now rewrite app_nil_r.
  - unfold bind. rewrite assess_sector_run, IH. now rewrite <- app_assoc.
Qed.

(** [assess_project_risk] always returns: its result and its trace. *)
Lemma assess_project_risk_run (self : t) (project_data : ProjectData)
  (sectors_to_assess : option (list string)) (now : string) (tr : list event) :
  assess_project_risk self project_data sectors_to_assess now tr =
  (Ok (fold_left (store self project_data now) (requested self sectors_to_assess) []),
   (tr ++ flat_map (sector_events self project_data now)
            (requested self sectors_to_assess))%list).
Proof. unfold assess_project_risk. apply for_each_assess_run. Qed.

Lemma fold_store_get (self : t) (project_data : ProjectData) (now : string)
  (l : list string) (acc : dict RiskAssessment) (sector_id : string) :
  dict_get (fold_left (store self project_data now) l acc) sector_id =
  if list_in sector_id l then
    match outcome self project_data now sector_id with
    | Some a => Some a
    | None => dict_get acc sector_id
    end
  else dict_get acc sector_id.
Proof.
  revert acc. induction l as [|x l IH]; intro acc; [reflexivity|].
  simpl fold_left. rewrite IH. unfold list_in. simpl existsb. fold (list_in sector_id l).
  destruct (String.eqb sector_id x) eqn:E.
  - apply String.eqb_eq in E. subst x. simpl.
    unfold store. destruct (outcome self project_data now sector_id) as [a|].
    + rewrite dict_get_set_eq. now destruct (list_in sector_id l).
    + now destruct (list_in sector_id l).
  - simpl. apply String.eqb_neq in E.
    assert (Hx : dict_get (store self project_data now acc x) sector_id =
                 dict_get acc sector_id).
    { unfold store. destruct (outcome self project_data now x); [|reflexivity].
      now apply dict_get_set_neq. }
    now rewrite Hx.
Qed.

(** Every key of the result is a configured sector. *)
Lemma fold_store_keys_configured (self : t) (project_data : ProjectData) (now : string)
  (l : list string) (sector_id : string) (a : RiskAssessment) :
  dict_get (fold_left (store self project_data now) l []) sector_id = Some a ->
  dict_mem (sectors self) sector_id = true.
Proof.
  rewrite fold_store_get. unfold outcome, dict_mem.
  destruct (list_in sector_id l); [|discriminate].
  destruct (dict_get (sectors self) sector_id); [reflexivity | discriminate].
Qed.

(** C3. When the scorer of a requested, configured sector raises,
    [assess_project_risk] still returns a mapping (the exception does not
    reach the caller); the mapping sends that sector to the fallback
    assessment with risk_level 0.5, the single risk factor
    "Assessment error occurred" and confidence 0.1; the error is printed; and
    every other requested sector whose scorer returns is mapped to the
    assessment its scorer returned. *)
Theorem scorer_failure_yields_fallback
  (self : t) (project_data : ProjectData) (sectors_to_assess : option (list string))
  (now : string) (tr : list event) (sector_id : string) (sector : Sector) (e : Exception) :
  In sector_id (requested self sectors_to_assess) ->
  dict_get (sectors self) sector_id = Some sector ->
  assess_risk sector project_data now = Raise e ->
  exists risk_assessments tr',
    assess_project_risk self project_data sectors_to_assess now tr
      = (Ok risk_assessments, tr') /\
    (exists fallback,
        dict_get risk_assessments sector_id = Some fallback /\
        risk_level fallback = 0.5 /\
        risk_factors fallback = ["Assessment error occurred"] /\
        confidence fallback = 0.1) /\
    In (Printed ("Error assessing risk for sector " ++ sector_id ++ ": " ++ exn_msg e)) tr' /\
    (forall sector_id' sector' a,
        In sector_id' (requested self sectors_to_assess) ->
        dict_get (sectors self) sector_id' = Some sector' ->
        assess_risk sector' project_data now = Ok a ->
        dict_get risk_assessments sector_id' = Some a).
Proof.
  intros Hin Hs Hr.
  eexists. eexists. split; [apply assess_project_risk_run|].
  split; [|split].
  - eexists. split.
    + rewrite fold_store_get. apply list_in_true in Hin. rewrite Hin.
      unfold outcome. rewrite Hs, Hr.
      rewrite (fallback_is_some self sector_id sector _ _ _ Hs). reflexivity.
    + simpl. repeat split.
  - apply in_or_app. right. apply in_flat_map. exists sector_id.
    split; [exact Hin|]. unfold sector_events. rewrite Hs, Hr. right. now left.
  - intros sid' sector' a Hin' Hs' Ha.
    rewrite fold_store_get. apply list_in_true in Hin'. rewrite Hin'.
    unfold outcome. now rewrite Hs', Ha.
Qed.

(** C3 at work: the cybersecurity scorer fails on the sample project; the
    two other relevant sectors are unaffected. *)
Lemma scorer_failure_witness :
  exists risk_assessments tr',
    assess_project_risk Samples.manager_with_failure Samples.network_upgrade
      (Some ["network_infrastructure"; "cybersecurity"; "regulatory_compliance"])
      "2024-01-01T00:00:00" []
      = (Ok risk_assessments, tr') /\
    (exists fallback,
        dict_get risk_assessments "cybersecurity" = Some fallback /\
        risk_level fallback = 0.5 /\
        risk_factors fallback = ["Assessment error occurred"] /\
        confidence fallback = 0.1) /\
    In (Printed ("Error assessing risk for sector " ++ "cybersecurity" ++ ": "
                 ++ exn_msg (mkException "RuntimeError" "scorer failed"))) tr' /\
    (forall sector_id' sector' a,
        In sector_id' ["network_infrastructure"; "cybersecurity"; "regulatory_compliance"] ->
        dict_get (sectors Samples.manager_with_failure) sector_id' = Some sector' ->
        assess_risk sector' Samples.network_upgrade "2024-01-01T00:00:00" = Ok a ->
        dict_get risk_assessments sector_id' = Some a).
Proof.
  apply (scorer_failure_yields_fallback Samples.manager_with_failure
           Samples.network_upgrade
           (Some ["network_infrastructure"; "cybersecurity"; "regulatory_compliance"])
           "2024-01-01T00:00:00" [] "cybersecurity"
           (Samples.failing_sector "cybersecurity" "Cybersecurity" 0.15)
           (mkException "RuntimeError" "scorer failed")).
  - simpl. right. left. reflexivity.
  - reflexivity.
  - reflexivity.
Defined.

End AggregationFacts.

(** ** The overall risk *)

Module OverallRiskFacts.
Import Py PyFacts DictFacts RiskManager.

(** The assessments whose sector id is configured, each as
    [(risk_level, configured weight)]. *)
Definition matched (self : t) (risk_assessments : dict RiskAssessment) : list (Q * Q) :=
  flat_map
    (fun '(sector_id, assessment) =>
       match dict_get (sectors self) sector_id with
       | Some sector => [(risk_level assessment, weight sector)]
       | None => []
       end)
    risk_assessments.

Definition Qsum (l : list Q) : Q := fold_right Qplus 0 l.

Definition total_matched_weight (self : t) (risk_assessments : dict RiskAssessment) : Q :=
  Qsum (map snd (matched self risk_assessments)).

(** The weighted average in the words of the specification: the sum of
    risk_level * weight over the sum of the weights. *)
Definition spec_weighted_average (self : t) (risk_assessments : dict RiskAssessment) : Q :=
  Qsum (map (fun '(r, w) => r * w) (matched self risk_assessments))
  / total_matched_weight self risk_assessments.

Lemma accumulate_from (self : t) (risk_assessments : dict RiskAssessment) (wr tw : Q) :
  let step := fun '(weighted_risk, total_weight) '(sector_id, assessment) =>
       match dict_get (sectors self) sector_id with
       | Some sector =>
           (weighted_risk + risk_level assessment * weight sector,
            total_weight + weight sector)
       | None => (weighted_risk, total_weight)
       end in
  fst (fold_left step risk_assessments (wr, tw)) ==
    wr + Qsum (map (fun '(r, w) => r * w) (matched self risk_assessments)) /\
  snd (fold_left step risk_assessments (wr, tw)) ==
    tw + total_matched_weight self risk_assessments.
Proof.
  intro step. revert wr tw.
  induction risk_assessments as [|[sid a] l IH]; intros wr tw.
  - simpl. unfold total_matched_weight. simpl. split; ring.
  - simpl fold_left. unfold total_matched_weight, matched in *. simpl flat_map.
    destruct (dict_get (sectors self) sid) as [sector|].
    + destruct (IH (wr + risk_level a * weight sector) (tw + weight sector)) as [H1 H2].
      rewrite H1, H2. simpl. split; ring.
    + apply IH.
Qed.

Lemma accumulate_risk_spec (self : t) (risk_assessments : dict RiskAssessment) :
  fst (accumulate_risk self risk_assessments) ==
    Qsum (map (fun '(r, w) => r * w) (matched self risk_assessments)) /\
  snd (accumulate_risk self risk_assessments) ==
    total_matched_weight self risk_assessments.
Proof.
  destruct (accumulate_from self risk_assessments 0.0 0.0) as [H1 H2].
  unfold accumulate_risk. split.
  - rewrite H1. ring.
  - rewrite H2. ring.
Qed.

(** The two branches of [calculate_overall_risk] on a non-empty mapping. *)
Lemma overall_risk_cases (self : t) (risk_assessments : dict RiskAssessment) :
  (0 < total_matched_weight self risk_assessments ->
   calculate_overall_risk self risk_assessments ==
   Qmin (spec_weighted_average self risk_assessments) 1) /\
  (total_matched_weight self risk_assessments <= 0 ->
   calculate_overall_risk self risk_assessments = 0.5).
Proof.
  destruct (accumulate_risk_spec self risk_assessments) as [H1 H2].
  unfold calculate_overall_risk.
  destruct risk_assessments as [|p l].
  - split; intro H.
    + unfold total_matched_weight in H. simpl in H. lra.
    + reflexivity.
  - cbn [list_truthy negb].
    destruct (accumulate_risk self (p :: l)) as [wr tw]. simpl fst in H1. simpl snd in H2.
    split; intro H.
    + assert (Hg : Qgtb tw 0 = true) by (apply Qgtb_true; lra).
      rewrite Hg. unfold spec_weighted_average.
      apply Q.min_compat; [|reflexivity].
      rewrite H1, H2. reflexivity.
    + assert (Hg : Qgtb tw 0 = false) by (apply Qgtb_false; lra).
      now rewrite Hg.
Qed.








End OverallRiskFacts.

(** ** The rankings *)

Module RankingFacts.
Import Py PyFacts DictFacts RiskManager.

(** [x] is ranked no lower than [y]. *)
Definition no_lower (x y : Ranked) : Prop := ranked_level y <= ranked_level x.

Lemma level_ge_total (x y : Ranked) : level_ge x y = true \/ level_ge y x = true.
Proof.
  unfold level_ge. rewrite !Qgeb_true.
  destruct (Qlt_le_dec (ranked_level x) (ranked_level y)) as [H|H].
  - right. apply Qlt_le_weak, H.
  - left. exact H.
Qed.

Lemma level_ge_trans (x y z : Ranked) :
  level_ge x y = true -> level_ge y z = true -> level_ge x z = true.
Proof.
  unfold level_ge. rewrite !Qgeb_true. intros H1 H2. eapply Qle_trans; eassumption.
Qed.

Lemma ranking_sorted (l : list Ranked) : StronglySorted no_lower (sort_desc level_ge l).
Proof.
  apply (StronglySorted_weaken (fun a b => level_ge a b = true)).
  - intros x y H. apply Qgeb_true in H. exact H.
  - apply sort_desc_sorted; [apply level_ge_total | apply level_ge_trans].
Qed.

(** What a ranking of [l] cut at a non-negative [limit] satisfies. *)
Lemma ranking_cut (l : list Ranked) (limit : Z) :
  (0 <= limit)%Z ->
  slice_to (sort_desc level_ge l) limit = firstn (Z.to_nat limit) (sort_desc level_ge l) /\
  StronglySorted no_lower (slice_to (sort_desc level_ge l) limit) /\
  (len (slice_to (sort_desc level_ge l) limit) <= limit)%Z.
Proof.
  intro H. split; [apply slice_to_nonneg, H|]. split.
  - rewrite slice_to_nonneg by exact H. apply StronglySorted_firstn, ranking_sorted.
  - apply slice_to_length, H.
Qed.

(** The entries of [all_risks]: one per factor label of each assessment of
    a configured sector, with the sector's name and risk level. *)
Lemma all_risks_In (self : t) (risk_assessments : dict RiskAssessment)
  (factor sector_name : string) (level : Q) :
  In (factor, sector_name, level) (all_risks self risk_assessments) <->
  exists sector_id assessment sector,
    In (sector_id, assessment) risk_assessments /\
    dict_get (sectors self) sector_id = Some sector /\
    In factor (risk_factors assessment) /\
    sector_name = name sector /\ level = risk_level assessment.
Proof.
  unfold all_risks. rewrite in_flat_map. split.
  - intros [[sid a] [Hin H]].
    destruct (dict_get (sectors self) sid) as [sector|] eqn:E; [|contradiction].
    apply in_map_iff in H. destruct H as [f [Heq Hf]]. inversion Heq. subst.
    exists sid, a, sector. repeat split; assumption.
  - intros (sid & a & sector & Hin & E & Hf & -> & ->).
    exists (sid, a). split; [exact Hin|]. rewrite E.
    apply in_map_iff. exists factor. split; [reflexivity | exact Hf].
Qed.

(** The number of factor labels of the assessments of configured sectors. *)
Fixpoint count_factors (self : t) (risk_assessments : dict RiskAssessment) : nat :=
  match risk_assessments with
  | [] => 0
  | (sector_id, assessment) :: rest =>
      (if dict_mem (sectors self) sector_id
       then List.length (risk_factors assessment) else 0)
      + count_factors self rest
  end.

Lemma all_risks_length (self : t) (risk_assessments : dict RiskAssessment) :
  List.length (all_risks self risk_assessments) = count_factors self risk_assessments.
Proof.
  induction risk_assessments as [|[sid a] l IH]; [reflexivity|].
  cbn [count_factors]. rewrite <- IH. unfold all_risks at 1. cbn [flat_map].
  rewrite length_app. f_equal. unfold dict_mem.
  destruct (dict_get (sectors self) sid); [apply length_map | reflexivity].
Qed.

(** The entries of [all_recommendations]: one per recommendation of each
    assessed, configured sector, with the sector's name and the risk level
    of its assessment. *)
Lemma all_recommendations_iff (self : t) (risk_assessments : dict RiskAssessment)
  (recommendation sector_name : string) (level : Q) :
  In (recommendation, sector_name, level) (all_recommendations self risk_assessments) <->
  exists sector_id assessment sector,
    In (sector_id, assessment) risk_assessments /\
    dict_get (sectors self) sector_id = Some sector /\
    In recommendation (get_recommendations sector assessment) /\
    sector_name = name sector /\ level = risk_level assessment.
Proof.
  unfold all_recommendations. rewrite in_flat_map. split.
  - intros [[sid a] [Hin H]].
    destruct (dict_get (sectors self) sid) as [sector|] eqn:E; [|contradiction].
    apply in_map_iff in H. destruct H as [f [Heq Hf]]. inversion Heq. subst.
    exists sid, a, sector. repeat split; assumption.
  - intros (sid & a & sector & Hin & E & Hf & -> & ->).
    exists (sid, a). split; [exact Hin|]. rewrite E.
    apply in_map_iff. exists recommendation. split; [reflexivity | exact Hf].
Qed.

(** C6, as the code has it.  For a limit that is not negative,
    [get_top_risk_factors] holds one (factor, sector name, risk level) triple
    per factor label of every assessment whose sector id is configured,
    sorted by descending risk level with ties in their original order, cut
    to the first [limit] entries; [get_priority_recommendations] is the same
    ranking of the (recommendation, sector name, risk level) triples, one
    per recommendation of every assessed, configured sector: a stable
    descending sort cut to the first [limit] entries. *)
Theorem rankings_sorted_stable_and_capped
  (self : t) (risk_assessments : dict RiskAssessment) (limit : Z) :
  (0 <= limit)%Z ->
  (forall factor sector_name level,
      In (factor, sector_name, level) (all_risks self risk_assessments) <->
      exists sector_id assessment sector,
        In (sector_id, assessment) risk_assessments /\
        dict_get (sectors self) sector_id = Some sector /\
        In factor (risk_factors assessment) /\
        sector_name = name sector /\ level = risk_level assessment) /\
  List.length (all_risks self risk_assessments) = count_factors self risk_assessments /\
  (exists ranked,
      Permutation ranked (all_risks self risk_assessments) /\
      StronglySorted no_lower ranked /\
      (forall z, filter (same_key level_ge z) ranked
                 = filter (same_key level_ge z) (all_risks self risk_assessments)) /\
      get_top_risk_factors self risk_assessments limit = firstn (Z.to_nat limit) ranked) /\
  StronglySorted no_lower (get_top_risk_factors self risk_assessments limit) /\
  (len (get_top_risk_factors self risk_assessments limit) <= limit)%Z /\
  StronglySorted no_lower (get_priority_recommendations self risk_assessments limit) /\
  (len (get_priority_recommendations self risk_assessments limit) <= limit)%Z /\
  (forall recommendation sector_name level,
      In (recommendation, sector_name, level)
        (all_recommendations self risk_assessments) <->
      exists sector_id assessment sector,
        In (sector_id, assessment) risk_assessments /\
        dict_get (sectors self) sector_id = Some sector /\
        In recommendation (get_recommendations sector assessment) /\
        sector_name = name sector /\ level = risk_level assessment) /\
  (exists ranked,
      Permutation ranked (all_recommendations self risk_assessments) /\
      StronglySorted no_lower ranked /\
      (forall z, filter (same_key level_ge z) ranked
                 = filter (same_key level_ge z)
                     (all_recommendations self risk_assessments)) /\
      get_priority_recommendations self risk_assessments limit
      = firstn (Z.to_nat limit) ranked).
Proof.
  intro Hlimit.
  split; [intros; apply all_risks_In|].
  split; [apply all_risks_length|].
  destruct (ranking_cut (all_risks self risk_assessments) limit Hlimit) as (Hcut & Hs & Hl).
  destruct (ranking_cut (all_recommendations self risk_assessments) limit Hlimit)
    as (Hcut' & Hs' & Hl').
  split.
  { exists (sort_desc level_ge (all_risks self risk_assessments)).
    split; [apply sort_desc_perm|].
    split; [apply ranking_sorted|].
    split; [|exact Hcut].
    intro z. apply sort_desc_stable. apply level_ge_trans. }
  split; [exact Hs|]. split; [exact Hl|]. split; [exact Hs'|]. split; [exact Hl'|].
  split; [intros; apply all_recommendations_iff|].
  exists (sort_desc level_ge (all_recommendations self risk_assessments)).
  split; [apply sort_desc_perm|].
  split; [apply ranking_sorted|].
  split; [|exact Hcut'].
  intro z. apply sort_desc_stable. apply level_ge_trans.
Qed.

(** Two sectors tie at 0.7; the cut at 3 keeps the lower-ranked sector out
    and the tied entries in their original order. *)
Lemma rankings_witness :
  get_top_risk_factors (new Samples.config)
    [ ("regulatory_compliance", Samples.assessment "regulatory_compliance" 0.4 ["R1"]);
      ("cybersecurity", Samples.assessment "cybersecurity" 0.7 ["C1"; "C2"]);
      ("network_infrastructure", Samples.assessment "network_infrastructure" 0.7 ["N1"]) ]
    3
  = [ ("C1", "Cybersecurity", 0.7); ("C2", "Cybersecurity", 0.7);
      ("N1", "Network Infrastructure", 0.7) ] /\
  StronglySorted no_lower
    (get_top_risk_factors (new Samples.config)
       [ ("regulatory_compliance", Samples.assessment "regulatory_compliance" 0.4 ["R1"]);
         ("cybersecurity", Samples.assessment "cybersecurity" 0.7 ["C1"; "C2"]);
         ("network_infrastructure", Samples.assessment "network_infrastructure" 0.7 ["N1"]) ]
       3).
Proof.
  split; [reflexivity|].
  destruct (rankings_sorted_stable_and_capped (new Samples.config)
              [ ("regulatory_compliance",
                 Samples.assessment "regulatory_compliance" 0.4 ["R1"]);
                ("cybersecurity", Samples.assessment "cybersecurity" 0.7 ["C1"; "C2"]);
                ("network_infrastructure",
                 Samples.assessment "network_infrastructure" 0.7 ["N1"]) ]
              3)
    as (_ & _ & _ & Hsorted & _).
  - lia.
  - exact Hsorted.
Defined.

(** C6 as stated fails in two ways.  With the limit -1 the slice drops the
    last entry only, so two entries come back; and the factors of an
    assessment whose sector id is not configured are left out. *)
Lemma rankings_as_stated_fail :
  (len (get_top_risk_factors (new Samples.config)
          [("cybersecurity", Samples.assessment "cybersecurity" 0.7 ["C1"; "C2"; "C3"])]
          (-1)) = 2%Z /\
   ~ (len (get_top_risk_factors (new Samples.config)
             [("cybersecurity", Samples.assessment "cybersecurity" 0.7 ["C1"; "C2"; "C3"])]
             (-1)) <= -1)%Z) /\
  (In "Ghost risk"
      (risk_factors (Samples.assessment "unknown_sector" 0.9 ["Ghost risk"])) /\
   get_top_risk_factors (new Samples.config)
     [("unknown_sector", Samples.assessment "unknown_sector" 0.9 ["Ghost risk"])] 10 = []).
Proof.
  split; split.
  - reflexivity.
  - vm_compute. intro H. apply H. reflexivity.
  - simpl. now left.
  - reflexivity.
Qed.

End RankingFacts.

(** ** Rejection of invalid projects *)

Module RejectionFacts.
Import Py PyFacts RiskManager Recommender ValidationFacts.

(** The message of the [ValueError] that [assess_project] raises. *)
Definition validation_message (project_data : ProjectData) : string :=
  "Project data validation failed: " ++ join "; " (validate_project_data project_data).

(** An issue is reported when it is one of the issues found and its text
    occurs in the message. *)
Definition reported (project_data : ProjectData) (issue : string) : Prop :=
  In issue (validate_project_data project_data) /\
  str_in issue (validation_message project_data) = true.

Lemma issue_in_message (project_data : ProjectData) (issue : string) :
  In issue (validate_project_data project_data) -> reported project_data issue.
Proof.
  intro H. split; [exact H|].
  unfold validation_message. apply str_in_app_r, str_in_join, H.
Qed.

(** The seven ways in which a project can be invalid. *)
Definition violations (project_data : ProjectData) : list (Prop * string) :=
  [ (project_id project_data = "", "Project ID is required");
    (description project_data = "", "Project description is required");
    (budget project_data <= 0, "Project budget must be greater than 0");
    ((timeline_days project_data <= 0)%Z, "Project timeline must be greater than 0 days");
    (~ (0 <= complexity_score project_data <= 1),
       "Complexity score must be between 0.0 and 1.0");
    (technologies project_data = [], "At least one technology should be specified");
    (stakeholders project_data = [], "At least one stakeholder should be specified") ].

Lemma violation_found (project_data : ProjectData) (violated : Prop) (issue : string) :
  In (violated, issue) (violations project_data) -> violated ->
  In issue (validate_project_data project_data).
Proof.
  unfold violations, validate_project_data. intros Hin Hv.
  repeat (destruct Hin as [Heq|Hin];
          [inversion Heq; subst violated issue; clear Heq|]); [ .. | contradiction].
  - apply str_truthy_false in Hv. rewrite Hv. simpl. now left.
  - apply str_truthy_false in Hv. rewrite Hv.
    apply in_or_app. right. simpl. now left.
  - apply Qle_bool_iff in Hv. rewrite Hv.
    do 2 (apply in_or_app; right). simpl. now left.
  - apply Z.leb_le in Hv. rewrite Hv.
    do 3 (apply in_or_app; right). simpl. now left.
  - assert (E : Qle_bool 0.0 (complexity_score project_data)
                && Qle_bool (complexity_score project_data) 1.0 = false).
    { apply not_true_is_false. intro Ht. apply andb_true_iff in Ht.
      destruct Ht as [H1 H2]. apply Qle_bool_iff in H1, H2. apply Hv. split; lra. }
    rewrite E. do 4 (apply in_or_app; right). simpl. now left.
  - apply list_truthy_false in Hv. rewrite Hv.
    do 5 (apply in_or_app; right). simpl. now left.
  - apply list_truthy_false in Hv. rewrite Hv.
    do 6 (apply in_or_app; right). simpl. now left.
Qed.

(** C2. If a project has an empty project_id, an empty description, a
    budget or a timeline that is not positive, a complexity score outside
    [0, 1], no technology or no stakeholder, then [assess_project] raises a
    [ValueError] whose message contains the issue of every violated field;
    the trace is unchanged, so no sector scorer was entered. *)
Theorem invalid_project_is_rejected_before_scoring
  (self : Recommender.t) (project_data : ProjectData)
  (sectors_filter : option (list string)) (now : string) (tr : list event) :
  (exists violated issue, In (violated, issue) (violations project_data) /\ violated) ->
  assess_project self project_data sectors_filter now tr
    = (Raise (ValueError (validation_message project_data)), tr) /\
  (forall violated issue,
      In (violated, issue) (violations project_data) -> violated ->
      reported project_data issue).
Proof.
  intros (violated & issue & Hin & Hv). split.
  - unfold assess_project.
    pose proof (violation_found _ _ _ Hin Hv) as Hf.
    destruct (validate_project_data project_data) eqn:E; [contradiction|].
    unfold validation_message. rewrite E. reflexivity.
  - intros v i Hi Hvi. apply issue_in_message. eapply violation_found; eassumption.
Qed.

(** C2 on the invalid project of the test-suite: all seven issues are
    reported. *)
Lemma invalid_project_witness :
  assess_project Samples.system Samples.invalid_project None "2024-01-01T00:00:00" []
    = (Raise (ValueError (validation_message Samples.invalid_project)), []) /\
  (forall violated issue,
      In (violated, issue) (violations Samples.invalid_project) -> violated ->
      reported Samples.invalid_project issue).
Proof.
  apply (invalid_project_is_rejected_before_scoring Samples.system
           Samples.invalid_project None "2024-01-01T00:00:00" []).
  exists (project_id Samples.invalid_project = ""), "Project ID is required".
  split; [simpl; now left | reflexivity].
Defined.

Example invalid_project_message :
  validation_message Samples.invalid_project =
  "Project data validation failed: Project ID is required; Project description is required; Project budget must be greater than 0; Project timeline must be greater than 0 days; Complexity score must be between 0.0 and 1.0; At least one technology should be specified; At least one stakeholder should be specified".
Proof. reflexivity. Qed.

End RejectionFacts.

(** ** Selection of the relevant sectors *)

Module SelectionFacts.
Import Py PyFacts DictFacts RiskManager Recommender ValidationFacts AggregationFacts.

(** The keyword hits in one text: the keywords that occur in it. *)
Definition hits (keywords : list string) (text : string) : Z :=
  Z.of_nat (List.length (filter (fun keyword => str_in keyword text) keywords)).

(** The score in the words of the specification: the hits in the
    description plus the hits in each technology string. *)
Definition spec_relevance_score (project_data : ProjectData) (keywords : list string) : Z :=
  (hits keywords (lower (description project_data))
   + fold_right Z.add 0
       (map (fun tech => hits keywords (lower tech)) (technologies project_data)))%Z.

(** The three best of all ten sectors, whatever their score: the selection
    as the specification words it. *)
Definition spec_top3_of_all (project_data : ProjectData) : list string :=
  map fst
    (firstn 3
       (sort_desc score_ge
          (map (fun '(sector_id, keywords) =>
                  (sector_id, relevance_score project_data keywords))
             sector_keywords))).

Definition no_less_relevant (x y : string * Z) : Prop := (snd y <= snd x)%Z.

Lemma count_hits_spec (keywords : list string) (text : string) (score : Z) :
  count_hits keywords text score = (score + hits keywords text)%Z.
Proof.
  unfold count_hits, hits. revert score.
  induction keywords as [|k l IH]; intro score; simpl.
  - lia.
  - rewrite IH. destruct (str_in k text); simpl List.length; lia.
Qed.

Lemma relevance_score_spec (project_data : ProjectData) (keywords : list string) :
  relevance_score project_data keywords = spec_relevance_score project_data keywords.
Proof.
  assert (H : forall (l : list string) (z : Z),
             fold_left (fun score tech => count_hits keywords (lower tech) score) l z
             = (z + fold_right Z.add 0 (map (fun tech => hits keywords (lower tech)) l))%Z).
  { induction l as [|tech l IH]; intro z; simpl.
    - lia.
    - rewrite IH, count_hits_spec. lia. }
  unfold relevance_score, spec_relevance_score. rewrite H, count_hits_spec. lia.
Qed.

Lemma scored_sectors_In (project_data : ProjectData) (sector_id : string) (n : Z) :
  In (sector_id, n) (scored_sectors project_data) <->
  exists keywords,
    In (sector_id, keywords) sector_keywords /\
    n = spec_relevance_score project_data keywords /\ (0 < n)%Z.
Proof.
  unfold scored_sectors. rewrite in_flat_map. split.
  - intros [[sid kws] [Hin H]]. rewrite relevance_score_spec in H.
    destruct (spec_relevance_score project_data kws >? 0)%Z eqn:E; [|contradiction].
    destruct H as [H|[]]. inversion H. subst.
    exists kws. repeat split; [exact Hin | now apply Z.gtb_lt].
  - intros (kws & Hin & -> & Hpos). exists (sector_id, kws). split; [exact Hin|].
    rewrite relevance_score_spec. apply Z.gtb_lt in Hpos. rewrite Hpos. now left.
Qed.

Lemma score_ge_total (x y : string * Z) : score_ge x y = true \/ score_ge y x = true.
Proof. unfold score_ge. rewrite !Z.leb_le. lia. Qed.

Lemma score_ge_trans (x y z : string * Z) :
  score_ge x y = true -> score_ge y z = true -> score_ge x z = true.
Proof. unfold score_ge. rewrite !Z.leb_le. lia. Qed.

Lemma append_high_scores (l : list (string * Z)) (result : list string) :
  fold_left
    (fun result '(sector_id, score) =>
       if (score >=? 3)%Z then (result ++ [sector_id])%list else result)
    l result
  = (result ++ map fst (filter (fun p => (snd p >=? 3)%Z) l))%list.
Proof.
  revert result. induction l as [|[sid n] l IH]; intro result; simpl.
  - now rewrite app_nil_r.
  - rewrite IH. destruct (n >=? 3)%Z; simpl; [now rewrite <- app_assoc | reflexivity].
Qed.

Lemma add_mandatory_spec (result : list string) (x : string) :
  In x (add_mandatory result) <-> In x result \/ In x mandatory_sectors.
Proof.
  unfold add_mandatory, mandatory_sectors. simpl.
  destruct (list_in "cybersecurity" result) eqn:E1; simpl.
  - apply list_in_true in E1.
    destruct (list_in "regulatory_compliance" result) eqn:E2; simpl.
    + apply list_in_true in E2. intuition (subst; assumption).
    + rewrite in_app_iff. simpl. intuition (subst; auto).
  - destruct (list_in "regulatory_compliance" (result ++ ["cybersecurity"])) eqn:E2; simpl.
    + apply list_in_true in E2. rewrite in_app_iff in *. simpl in *.
      intuition (subst; auto).
    + rewrite !in_app_iff. simpl. intuition (subst; auto).
Qed.

(** The list the keyword heuristic returns. *)
Lemma identified_by_keywords (project_data : ProjectData) :
  _identify_relevant_sectors project_data None =
  add_mandatory
    (map fst (firstn 3 (sort_desc score_ge (scored_sectors project_data)))
     ++ map fst (filter (fun p => (snd p >=? 3)%Z)
                   (skipn 3 (sort_desc score_ge (scored_sectors project_data)))))%list.
Proof. unfold _identify_relevant_sectors. now rewrite append_high_scores. Qed.

(** C8, as the code has it.  Without a filter, each of the ten sectors is
    scored by its keyword hits in the description and in each technology
    string; the sectors with at least one hit are ranked by descending score
    (ties in the order of the keyword table); the result holds the first
    three of that ranking, which are fewer when fewer than three sectors
    have a hit, every other ranked sector scoring at least 3, and always
    cybersecurity and regulatory_compliance; and nothing else. *)
Theorem relevant_sectors_are_top3_with_hits_plus_mandatory
  (project_data : ProjectData) (sectors_filter : option (list string)) :
  sectors_filter = None \/ sectors_filter = Some [] ->
  List.length sector_keywords = 10%nat /\
  (forall sector_id n,
      In (sector_id, n) (scored_sectors project_data) <->
      exists keywords,
        In (sector_id, keywords) sector_keywords /\
        n = spec_relevance_score project_data keywords /\ (0 < n)%Z) /\
  exists ranking,
    Permutation ranking (scored_sectors project_data) /\
    StronglySorted no_less_relevant ranking /\
    (forall z, filter (same_key score_ge z) ranking
               = filter (same_key score_ge z) (scored_sectors project_data)) /\
    (forall sector_id,
        In sector_id (map fst (firstn 3 ranking)) ->
        In sector_id (_identify_relevant_sectors project_data sectors_filter)) /\
    (forall sector_id n,
        In (sector_id, n) ranking -> (3 <= n)%Z ->
        In sector_id (_identify_relevant_sectors project_data sectors_filter)) /\
    In "cybersecurity" (_identify_relevant_sectors project_data sectors_filter) /\
    In "regulatory_compliance" (_identify_relevant_sectors project_data sectors_filter) /\
    (forall sector_id,
        In sector_id (_identify_relevant_sectors project_data sectors_filter) ->
        In sector_id (map fst (firstn 3 ranking)) \/
        (exists n, In (sector_id, n) ranking /\ (3 <= n)%Z) \/
        In sector_id mandatory_sectors).
Proof.
  intro Hf.
  assert (E : _identify_relevant_sectors project_data sectors_filter
              = _identify_relevant_sectors project_data None)
    by (destruct Hf as [->| ->]; reflexivity).
  rewrite E, identified_by_keywords. clear E Hf.
  split; [reflexivity|]. split; [apply scored_sectors_In|].
  set (ranking := sort_desc score_ge (scored_sectors project_data)).
  exists ranking.
  split; [apply sort_desc_perm|].
  split.
  { apply (StronglySorted_weaken (fun a b => score_ge a b = true)).
    - intros x y H. apply Z.leb_le in H. exact H.
    - apply sort_desc_sorted; [apply score_ge_total | apply score_ge_trans]. }
  split; [intro z; apply sort_desc_stable, score_ge_trans|].
  split; [|split; [|split; [|split]]].
  - intros sid H. apply add_mandatory_spec. left. apply in_or_app. now left.
  - intros sid n Hin Hn. apply add_mandatory_spec. left. apply in_or_app.
    rewrite <- (firstn_skipn 3 ranking) in Hin. apply in_app_or in Hin.
    destruct Hin as [Hin|Hin].
    + left. apply (in_map fst) in Hin. exact Hin.
    + right. apply (in_map fst (filter _ _) (sid, n)). apply filter_In.
      split; [exact Hin|]. simpl. apply Z.geb_le. exact Hn.
  - apply add_mandatory_spec. right. simpl. auto.
  - apply add_mandatory_spec. right. simpl. auto.
  - intros sid H. apply add_mandatory_spec in H. destruct H as [H|H]; [|auto].
    apply in_app_or in H. destruct H as [H|H]; [now left|].
    right. left. apply in_map_iff in H. destruct H as [[s n] [Hs Hin]].
    simpl in Hs. subst s. apply filter_In in Hin. destruct Hin as [Hin Hn].
    exists n. split.
    + rewrite <- (firstn_skipn 3 ranking). apply in_or_app. now right.
    + simpl in Hn. apply Z.geb_le in Hn. exact Hn.
Qed.

(** C8 on the sample project: one sector has hits, and the two mandatory
    sectors follow it. *)
Lemma relevant_sectors_witness :
  scored_sectors Samples.network_upgrade = [("network_infrastructure", 7%Z)] /\
  _identify_relevant_sectors Samples.network_upgrade None
    = ["network_infrastructure"; "cybersecurity"; "regulatory_compliance"] /\
  In "network_infrastructure" (_identify_relevant_sectors Samples.network_upgrade None).
Proof.
  split; [reflexivity|]. split; [reflexivity|].
  destruct (relevant_sectors_are_top3_with_hits_plus_mandatory
              Samples.network_upgrade None (or_introl eq_refl))
    as (_ & _ & ranking & Hperm & _ & _ & _ & Hhigh & _).
  apply (Hhigh "network_infrastructure" 7%Z); [|lia].
  apply (Permutation_in _ (Permutation_sym Hperm)). simpl. now left.
Defined.

(** C8 as stated fails: no keyword occurs in the valid project of the
    test-suite, so the three best of the ten sectors include
    network_infrastructure, but only the two mandatory sectors are selected. *)
Lemma top3_of_all_sectors_not_selected :
  ValidationFacts.valid Samples.valid_project /\
  In "network_infrastructure" (spec_top3_of_all Samples.valid_project) /\
  _identify_relevant_sectors Samples.valid_project None
    = ["cybersecurity"; "regulatory_compliance"] /\
  ~ In "network_infrastructure" (_identify_relevant_sectors Samples.valid_project None) /\
  ~ (3 <= List.length (_identify_relevant_sectors Samples.valid_project None))%nat.
Proof.
  split; [reflexivity|]. split; [vm_compute; now left|]. split; [reflexivity|].
  split.
  - vm_compute. intros [H|[H|[]]]; discriminate.
  - vm_compute. lia.
Qed.

End SelectionFacts.

(** ** The project assessment *)

Module AssessmentFacts.
Import Py PyFacts DictFacts RiskManager Recommender ValidationFacts AggregationFacts.
Import SelectionFacts.

(** The report of a valid project, and the trace of its assessment. *)
Lemma assess_project_run (self : Recommender.t) (project_data : ProjectData)
  (sectors_filter : option (list string)) (now : string) (tr : list event) :
  valid project_data ->
  let relevant_sectors := _identify_relevant_sectors project_data sectors_filter in
  let risk_assessments :=
    fold_left (store (risk_manager self) project_data now) relevant_sectors [] in
  assess_project self project_data sectors_filter now tr =
  (Ok (new_report project_data risk_assessments
         (calculate_overall_risk (risk_manager self) risk_assessments)
         (get_top_risk_factors (risk_manager self) risk_assessments 10)
         (get_priority_recommendations (risk_manager self) risk_assessments 15)
         now),
   (tr ++ flat_map (sector_events (risk_manager self) project_data now)
            relevant_sectors)%list).
Proof.
  intro Hv. unfold assess_project. rewrite Hv. cbn [list_truthy].
  unfold bind. rewrite assess_project_risk_run. reflexivity.
Qed.

Lemma outcome_of_configured (self : RiskManager.t) (project_data : ProjectData)
  (now : string) (sector_id : string) :
  dict_mem (sectors self) sector_id = true ->
  exists a, outcome self project_data now sector_id = Some a.
Proof.
  unfold dict_mem, outcome. intro H.
  destruct (dict_get (sectors self) sector_id) as [sector|] eqn:E; [|discriminate].
  destruct (assess_risk sector project_data now) as [a|e].
  - now exists a.
  - rewrite (fallback_is_some self sector_id sector _ _ _ E). eauto.
Qed.

Lemma identified_never_empty (project_data : ProjectData)
  (sectors_filter : option (list string)) :
  _identify_relevant_sectors project_data sectors_filter <> [].
Proof.
  destruct sectors_filter as [[|s l]|]; try discriminate;
    change (_identify_relevant_sectors project_data None <> []);
    rewrite identified_by_keywords; intro H;
    assert (Hin : In "cybersecurity" ([] : list string))
      by (rewrite <- H; apply add_mandatory_spec; right; simpl; auto);
    exact Hin.
Qed.

(** C9, as the code has it.  An empty list as the sector filter is treated
    as no filter: the keyword heuristic chooses the sectors, and the report
    and the trace are those of the call without a filter.  The chosen list
    is never empty; and when the configuration defines cybersecurity or
    regulatory_compliance, the report of a valid project has at least one
    assessed sector. *)
Theorem empty_filter_is_no_filter
  (self : Recommender.t) (project_data : ProjectData) (now : string) (tr : list event) :
  _identify_relevant_sectors project_data (Some [])
    = _identify_relevant_sectors project_data None /\
  assess_project self project_data (Some []) now tr
    = assess_project self project_data None now tr /\
  In "cybersecurity" (_identify_relevant_sectors project_data (Some [])) /\
  In "regulatory_compliance" (_identify_relevant_sectors project_data (Some [])) /\
  (valid project_data ->
   dict_mem (sectors (risk_manager self)) "cybersecurity" = true \/
   dict_mem (sectors (risk_manager self)) "regulatory_compliance" = true ->
   exists report tr',
     assess_project self project_data (Some []) now tr = (Ok report, tr') /\
     risk_assessments report <> []).
Proof.
  split; [reflexivity|]. split; [reflexivity|].
  change (_identify_relevant_sectors project_data (Some []))
    with (_identify_relevant_sectors project_data None).
  rewrite identified_by_keywords.
  split; [apply add_mandatory_spec; right; simpl; auto|].
  split; [apply add_mandatory_spec; right; simpl; auto|].
  intros Hv Hcfg.
  eexists. eexists. split; [apply (assess_project_run self _ (Some []) now tr Hv)|].
  cbn [risk_assessments new_report].
  change (_identify_relevant_sectors project_data (Some []))
    with (_identify_relevant_sectors project_data None).
  rewrite identified_by_keywords.
  assert (Hkey : forall sector_id,
             In sector_id mandatory_sectors ->
             dict_mem (sectors (risk_manager self)) sector_id = true ->
             forall l, In sector_id l ->
             fold_left (store (risk_manager self) project_data now) l [] <> []).
  { intros sid _ Hm l Hin Hnil.
    destruct (outcome_of_configured (risk_manager self) project_data now sid Hm)
      as [a Ha].
    pose proof (fold_store_get (risk_manager self) project_data now l [] sid) as Hg.
    apply list_in_true in Hin. rewrite Hin, Ha, Hnil in Hg. discriminate. }
  destruct Hcfg as [Hc|Hc].
  - apply (Hkey "cybersecurity"); [simpl; auto | exact Hc|].
    apply add_mandatory_spec. right. simpl. auto.
  - apply (Hkey "regulatory_compliance"); [simpl; auto | exact Hc|].
    apply add_mandatory_spec. right. simpl. auto.
Qed.

(** C9 on the valid project of the test-suite and the example configuration. *)
Lemma empty_filter_witness :
  assess_project Samples.system Samples.valid_project (Some []) "2024-01-01T00:00:00" []
    = assess_project Samples.system Samples.valid_project None "2024-01-01T00:00:00" [] /\
  exists report tr',
    assess_project Samples.system Samples.valid_project (Some []) "2024-01-01T00:00:00" []
      = (Ok report, tr') /\
    risk_assessments report <> [].
Proof.
  destruct (empty_filter_is_no_filter Samples.system Samples.valid_project
              "2024-01-01T00:00:00" [])
    as (_ & Hsame & _ & _ & Hreport).
  split; [exact Hsame|].
  apply Hreport; [reflexivity | left; reflexivity].
Defined.

(** C9 as stated fails: the configuration below passes [validate_config]
    and defines neither mandatory sector, and the report of a valid project
    assessed with an empty filter has no assessed sector. *)
Lemma empty_filter_report_without_sectors :
  ConfigManager.validate_config Samples.config_without_mandatory = Ok true /\
  valid Samples.valid_project /\
  exists report tr',
    assess_project (Recommender.mk (RiskManager.new Samples.config_without_mandatory))
      Samples.valid_project (Some []) "2024-01-01T00:00:00" []
      = (Ok report, tr') /\
    risk_assessments report = [] /\
    overall_risk report = 0.5.
Proof.
  split; [reflexivity|]. split; [reflexivity|].
  eexists. eexists. split; [vm_compute; reflexivity|]. split; reflexivity.
Qed.

End AssessmentFacts.

(** ** The sector objects of a risk manager *)

Module SectorFacts.
Import Py PyFacts DictFacts RiskManager ValidationFacts BaseSector BaseSectorFacts.

(** The object [_initialize_sectors] makes for one entry of the
    configuration. *)
Definition make_sector (sector_id : string) (config : SectorConfig) : Sector :=
  match dict_get sector_classes sector_id with
  | Some cls => cls sector_id config
  | None => _create_placeholder_sector sector_id config
  end.

(** Whether a sector id has a scorer of its own. *)
Definition implemented (sector_id : string) : bool := dict_mem sector_classes sector_id.

Lemma initialize_sectors_from (configs : ConfigManager.Config) (acc : dict Sector)
  (sector_id : string) (sector : Sector) :
  dict_get
    (fold_left
       (fun sectors '(sector_id, sector_config) =>
          match dict_get sector_classes sector_id with
          | Some cls => dict_set sectors sector_id (cls sector_id sector_config)
          | None =>
              dict_set sectors sector_id (_create_placeholder_sector sector_id sector_config)
          end)
       configs acc) sector_id = Some sector ->
  dict_get acc sector_id = Some sector \/
  exists config, In (sector_id, config) configs /\ sector = make_sector sector_id config.
Proof.
  revert acc. induction configs as [|[sid c] l IH]; intros acc H; cbn [fold_left] in H.
  - now left.
  - apply IH in H. destruct H as [H|(c' & Hin & ->)].
    + assert (Hset : dict_get (dict_set acc sid (make_sector sid c)) sector_id
                     = Some sector).
      { unfold make_sector. destruct (dict_get sector_classes sid); exact H. }
      destruct (String.eqb sector_id sid) eqn:E.
      * apply String.eqb_eq in E. subst sid. rewrite dict_get_set_eq in Hset.
        inversion Hset. right. exists c. split; [now left | reflexivity].
      * apply String.eqb_neq in E. rewrite dict_get_set_neq in Hset by exact E.
        now left.
    + right. exists c'. split; [now right | reflexivity].
Qed.

(** Every sector of a risk manager built from a configuration was made
    from an entry of that configuration. *)
Lemma sectors_of_new (config : ConfigManager.Config) (sector_id : string) (sector : Sector) :
  dict_get (sectors (new config)) sector_id = Some sector ->
  exists c, In (sector_id, c) config /\ sector = make_sector sector_id c.
Proof.
  intro H. apply initialize_sectors_from in H. destruct H as [H|H]; [discriminate | exact H].
Qed.

Lemma make_sector_weight (sector_id : string) (c : SectorConfig) :
  weight (make_sector sector_id c) = cfg_weight c.
Proof.
  unfold make_sector, sector_classes. simpl.
  repeat (destruct (String.eqb sector_id _); [reflexivity|]). reflexivity.
Qed.

(** The scorer of a sector made from the configuration never raises; it is
    one of the three concrete scorers or the placeholder. *)
Lemma make_sector_assess (sector_id : string) (c : SectorConfig)
  (project_data : ProjectData) (now : string) :
  exists a,
    assess_risk (make_sector sector_id c) project_data now = Ok a /\
    (a = NetworkInfrastructureSector.assess_risk sector_id (cfg_weight c) project_data now \/
     a = CybersecuritySector.assess_risk sector_id (cfg_weight c) project_data now \/
     a = RegulatoryComplianceSector.assess_risk sector_id (cfg_weight c) project_data now \/
     a = PlaceholderSector.assess_risk sector_id (cfg_name c) (cfg_risk_factors c)
           project_data now).
Proof.
  unfold make_sector, sector_classes. simpl.
  destruct (String.eqb sector_id "network_infrastructure"); [eexists; split; [reflexivity|auto]|].
  destruct (String.eqb sector_id "cybersecurity"); [eexists; split; [reflexivity|auto]|].
  destruct (String.eqb sector_id "regulatory_compliance"); [eexists; split; [reflexivity|auto]|].
  eexists; split; [reflexivity|]. auto.
Qed.

End SectorFacts.

(** ** Bounds of the sector scores *)

Module ScoreBounds.
Import Py PyFacts Idiom BaseSector BaseSectorFacts ValidationFacts.

Lemma fold_left_invariant {A S : Type} (P : S -> Prop) (f : S -> A -> S)
  (l : list A) (acc : S) :
  (forall s x, In x l -> P s -> P (f s x)) -> P acc -> P (fold_left f l acc).
Proof.
  revert acc. induction l as [|x l IH]; intros acc Hf Hacc; simpl; [exact Hacc|].
  apply IH.
  - intros s y Hy. apply Hf. now right.
  - apply Hf; [now left | exact Hacc].
Qed.

Lemma add_if_nonneg (c : bool) (acc v : Q) : 0 <= acc -> 0 <= v -> 0 <= add_if c acc v.
Proof. intros Ha Hv. unfold add_if. destruct c; lra. Qed.

Lemma add_per_keyword_nonneg (keywords : list string) (text : string) (v acc : Q) :
  0 <= v -> 0 <= acc -> 0 <= add_per_keyword keywords text v acc.
Proof.
  intros Hv Ha. unfold add_per_keyword.
  apply (fold_left_invariant (fun q => 0 <= q)); [|exact Ha].
  intros s x _ Hs. now apply add_if_nonneg.
Qed.

Lemma Qdiv_nonneg (x y : Q) : 0 <= x -> 0 < y -> 0 <= x / y.
Proof.
  intros Hx Hy. unfold Qdiv. apply Qmult_le_0_compat; [exact Hx|].
  apply Qlt_le_weak, Qinv_lt_0_compat, Hy.
Qed.

Lemma len_max_pos {A : Type} (l : list A) : 0 < inject_Z (Z.max (len l) 1).
Proof.
  replace 0 with (inject_Z 0) by reflexivity. rewrite <- Zlt_Qlt. lia.
Qed.

(** A sum over a literal table of non-negative values stays non-negative. *)
Lemma table_sum_nonneg (table : dict Q) (text : string) (acc : Q) :
  Forall (fun p => 0 <= snd p) table -> 0 <= acc ->
  0 <= fold_left (fun acc '(key, v) => add_if (key_in key text) acc v) table acc.
Proof.
  intros Ht Ha. apply (fold_left_invariant (fun q => 0 <= q)); [|exact Ha].
  intros s [k v] Hin Hs. rewrite Forall_forall in Ht.
  apply add_if_nonneg; [exact Hs | apply (Ht (k, v) Hin)].
Qed.

Ltac table_nonneg := repeat constructor; simpl; lra.

Section ValidProject.
Variable project_data : ProjectData.
Hypothesis Hvalid : valid project_data.

Let Hbudget : 0 < budget project_data.
Proof. apply (valid_fields _ Hvalid). Qed.
Let Htimeline : (0 < timeline_days project_data)%Z.
Proof. apply (valid_fields _ Hvalid). Qed.
Let Hcomplexity : 0 <= complexity_score project_data <= 1.
Proof. apply (valid_fields _ Hvalid). Qed.

Lemma timeline_ratio_nonneg : 0 <= inject_Z (timeline_days project_data) / 365.
Proof.
  apply Qdiv_nonneg; [|reflexivity].
  replace 0 with (inject_Z 0) by reflexivity. rewrite <- Zle_Qle. lia.
Qed.

(** *** Network infrastructure *)

Lemma network_total_nonneg :
  0 <= NetworkInfrastructureSector._assess_infrastructure_risk project_data /\
  0 <= NetworkInfrastructureSector._assess_environmental_risk project_data /\
  0 <= NetworkInfrastructureSector._assess_technology_risk project_data /\
  0 <= NetworkInfrastructureSector._assess_capacity_risk project_data.
Proof.
  repeat split.
  - unfold NetworkInfrastructureSector._assess_infrastructure_risk. cbv zeta.
    apply Qmin_nonneg; [|lra]. apply Qdiv_nonneg; [|reflexivity].
    apply Qmult_le_0_compat; [|lra].
    apply (fold_left_invariant (fun q => 0 <= q)); [|lra].
    intros s tech _ Hs. apply table_sum_nonneg; [table_nonneg | exact Hs].
  - unfold NetworkInfrastructureSector._assess_environmental_risk. cbv zeta.
    apply Qmin_nonneg; [|lra].
    pose proof timeline_ratio_nonneg as Ht.
    assert (0 <= Qmin (inject_Z (timeline_days project_data) / 365) 2.0)
      by (apply Qmin_nonneg; lra).
    match goal with
    | |- context [add_per_keyword ?k ?t ?v ?a] =>
        pose proof (add_per_keyword_nonneg k t v a) as Hk
    end.
    lra.
  - unfold NetworkInfrastructureSector._assess_technology_risk. cbv zeta.
    apply Qmin_nonneg; [|lra]. apply Qdiv_nonneg; [|apply len_max_pos].
    apply (fold_left_invariant (fun q => 0 <= q)); [|lra].
    intros s tech _ Hs.
    repeat match goal with
           | |- context [if ?c then _ else _] => destruct c
           end; vm_compute getitem; lra.
  - unfold NetworkInfrastructureSector._assess_capacity_risk. cbv zeta.
    apply Qmin_nonneg; [|lra]. apply add_per_keyword_nonneg; [lra|].
    apply add_if_nonneg; [|lra]. apply add_if_nonneg; lra.
Qed.

Lemma network_risk_level_bounds (sector_id : string) (w : Q) (now : string) :
  0 <= w ->
  0 <= risk_level (NetworkInfrastructureSector.assess_risk sector_id w project_data now) <= 1.
Proof.
  intro Hw. destruct network_total_nonneg as (H1 & H2 & H3 & H4).
  pose proof (base_risk_score_nonneg project_data) as H0.
  unfold NetworkInfrastructureSector.assess_risk. cbv zeta. cbn [risk_level].
  split.
  - apply Qmin_nonneg; [|lra].
    apply Qmult_le_0_compat; [|lra]. apply Qmult_le_0_compat; [|exact Hw]. lra.
  - eapply Qle_trans; [apply Q.le_min_r | lra].
Qed.

(** *** Cybersecurity *)

Lemma cybersecurity_scores_nonneg :
  0 <= CybersecuritySector._assess_threat_landscape project_data /\
  0 <= CybersecuritySector._assess_compliance_risk project_data /\
  0 <= CybersecuritySector._assess_technology_security_risk project_data /\
  0 <= CybersecuritySector._assess_data_protection_risk project_data.
Proof.
  repeat split.
  - unfold CybersecuritySector._assess_threat_landscape. cbv zeta.
    apply Qmin_nonneg; [|lra]. apply add_if_nonneg; [|lra].
    match goal with
    | |- context [add_per_keyword ?k ?t ?v ?a] =>
        pose proof (add_per_keyword_nonneg k t v a) as Hk
    end.
    repeat match goal with
           | |- context [if ?c then _ else _] => destruct c
           end; lra.
  - unfold CybersecuritySector._assess_compliance_risk. cbv zeta.
    apply Qmin_nonneg; [|lra].
    apply add_per_keyword_nonneg; [lra|]. apply add_per_keyword_nonneg; lra.
  - unfold CybersecuritySector._assess_technology_security_risk. cbv zeta.
    apply Qmin_nonneg; [|lra]. apply Qdiv_nonneg; [|apply len_max_pos].
    apply (fold_left_invariant (fun q => 0 <= q)).
    + intros s keyword _ Hs. apply add_if_nonneg; [exact Hs | lra].
    + apply (fold_left_invariant (fun q => 0 <= q)); [|lra].
      intros s tech _ Hs. apply table_sum_nonneg; [table_nonneg | exact Hs].
  - unfold CybersecuritySector._assess_data_protection_risk. cbv zeta.
    apply Qmin_nonneg; [|lra]. apply add_if_nonneg; [|lra].
    apply add_if_nonneg; [|lra]. apply add_per_keyword_nonneg; lra.
Qed.

(** The controls never remove more than half of the risk. *)
Lemma security_controls_at_most_1 :
  CybersecuritySector._assess_security_controls project_data <= 1.
Proof.
  unfold CybersecuritySector._assess_security_controls. cbv zeta.
  match goal with
  | |- (let '(_, _) := ?p in _) <= 1 => destruct p as [score found]
  end.
  destruct (found >? 0)%Z; [|lra].
  eapply Qle_trans; [apply Q.le_min_r | lra].
Qed.

Lemma cybersecurity_risk_level_bounds (sector_id : string) (w : Q) (now : string) :
  0 <= w ->
  0 <= risk_level (CybersecuritySector.assess_risk sector_id w project_data now) <= 1.
Proof.
  intro Hw. destruct cybersecurity_scores_nonneg as (H1 & H2 & H3 & H4).
  pose proof (base_risk_score_nonneg project_data) as H0.
  pose proof security_controls_at_most_1 as Hc.
  unfold CybersecuritySector.assess_risk. cbv zeta. cbn [risk_level].
  split.
  - apply Qmin_nonneg; [|lra].
    apply Qmult_le_0_compat; [|lra]. apply Qmult_le_0_compat; [|exact Hw].
    apply Qmult_le_0_compat; lra.
  - eapply Qle_trans; [apply Q.le_min_r | lra].
Qed.

(** *** Regulatory compliance *)

Lemma regulatory_scores_nonneg :
  0 <= RegulatoryComplianceSector._assess_regulatory_framework_risk project_data /\
  0 <= RegulatoryComplianceSector._assess_license_compliance_risk project_data /\
  0 <= RegulatoryComplianceSector._assess_data_protection_risk project_data /\
  0 <= RegulatoryComplianceSector._assess_audit_readiness_risk project_data /\
  0 <= RegulatoryComplianceSector._assess_policy_compliance_risk project_data.
Proof.
  repeat split.
  - unfold RegulatoryComplianceSector._assess_regulatory_framework_risk. cbv zeta.
    match goal with
    | |- 0 <= (let '(_, _) := fold_left ?f ?l ?a in _) =>
        assert (Hinv : 0 <= fst (fold_left f l a) /\ (0 <= snd (fold_left f l a))%Z);
        [ apply (fold_left_invariant (fun s => 0 <= fst s /\ (0 <= snd s)%Z) f l a)
        | destruct (fold_left f l a) as [risk applicable] ]
    end.
    + intros [risk applicable] [framework details] Hin [Hr Ha]. simpl in Hr, Ha.
      assert (Hlevel : 0 <= RegulatoryComplianceSector.fw_risk_level details).
      { unfold RegulatoryComplianceSector.regulatory_frameworks in Hin. simpl in Hin.
        repeat (destruct Hin as [Hin|Hin]; [inversion Hin; simpl; lra|]).
        contradiction. }
      destruct (any_keyword_in _ _); simpl; split; try lia; lra.
    + simpl. split; [lra | lia].
    + simpl in Hinv. destruct Hinv as [Hr Ha].
      apply Qmin_nonneg; [|lra]. apply Qdiv_nonneg.
      * apply add_if_nonneg; [|lra].
        repeat match goal with
               | |- context [if ?c then _ else _] => destruct c
               end; lra.
      * replace 0 with (inject_Z 0) by reflexivity. rewrite <- Zlt_Qlt. lia.
  - unfold RegulatoryComplianceSector._assess_license_compliance_risk. cbv zeta.
    apply Qmin_nonneg; [|lra]. apply add_if_nonneg; [|lra].
    apply add_per_keyword_nonneg; [lra|]. apply add_per_keyword_nonneg; lra.
  - unfold RegulatoryComplianceSector._assess_data_protection_risk. cbv zeta.
    apply Qmin_nonneg; [|lra]. apply add_if_nonneg; [|lra].
    apply add_per_keyword_nonneg; [lra|]. apply add_per_keyword_nonneg; lra.
  - unfold RegulatoryComplianceSector._assess_audit_readiness_risk. cbv zeta.
    apply Qmin_nonneg; [|lra].
    apply (fold_left_invariant (fun q => 0 <= q)).
    + intros s tech _ Hs. apply add_if_nonneg; [exact Hs | lra].
    + apply add_if_nonneg; [|lra]. apply add_if_nonneg; lra.
  - unfold RegulatoryComplianceSector._assess_policy_compliance_risk. cbv zeta.
    apply Qmin_nonneg; [|lra].
    assert (Hp : 0 <= add_if (len (stakeholders project_data) >? 10)%Z 0.4 0.2)
      by (apply add_if_nonneg; lra).
    destruct (historical_risks project_data) as [[|r rs]|]; try exact Hp.
    apply add_if_nonneg; [exact Hp | lra].
Qed.

Lemma regulatory_risk_level_bounds (sector_id : string) (w : Q) (now : string) :
  0 <= w ->
  0 <= risk_level (RegulatoryComplianceSector.assess_risk sector_id w project_data now) <= 1.
Proof.
  intro Hw. destruct regulatory_scores_nonneg as (H1 & H2 & H3 & H4 & H5).
  pose proof (base_risk_score_nonneg project_data) as H0.
  unfold RegulatoryComplianceSector.assess_risk. cbv zeta. cbn [risk_level].
  split.
  - apply Qmin_nonneg; [|lra].
    apply Qmult_le_0_compat; [|lra]. apply Qmult_le_0_compat; [|exact Hw]. lra.
  - eapply Qle_trans; [apply Q.le_min_r | lra].
Qed.

(** *** Placeholder *)

Lemma placeholder_risk_level_bounds (sector_id display_name : string)
  (factors : list string) (now : string) :
  0 <= risk_level (RiskManager.PlaceholderSector.assess_risk sector_id display_name
                     factors project_data now) <= 1.
Proof.
  unfold RiskManager.PlaceholderSector.assess_risk. cbv zeta. cbn [risk_level]. split.
  - apply Qmin_nonneg; lra.
  - eapply Qle_trans; [apply Q.le_min_r | lra].
Qed.

End ValidProject.

End ScoreBounds.

(** ** The overall risk and the category of a report *)

Module ReportFacts.
Import Py PyFacts DictFacts RiskManager Recommender ValidationFacts AggregationFacts.
Import OverallRiskFacts SectorFacts ScoreBounds AssessmentFacts.

(** The category follows the threshold table. *)
Lemma categorize_risk_thresholds (risk_score : Q) :
  (0.8 <= risk_score -> _categorize_risk risk_score = CRITICAL) /\
  (0.6 <= risk_score < 0.8 -> _categorize_risk risk_score = HIGH) /\
  (0.4 <= risk_score < 0.6 -> _categorize_risk risk_score = MEDIUM) /\
  (0.2 <= risk_score < 0.4 -> _categorize_risk risk_score = LOW) /\
  (risk_score < 0.2 -> _categorize_risk risk_score = MINIMAL).
Proof.
  unfold _categorize_risk.
  destruct (Qgeb risk_score 0.8) eqn:E8;
    [apply Qgeb_true in E8 | apply Qgeb_false in E8];
  (destruct (Qgeb risk_score 0.6) eqn:E6;
    [apply Qgeb_true in E6 | apply Qgeb_false in E6]);
  (destruct (Qgeb risk_score 0.4) eqn:E4;
    [apply Qgeb_true in E4 | apply Qgeb_false in E4]);
  (destruct (Qgeb risk_score 0.2) eqn:E2;
    [apply Qgeb_true in E2 | apply Qgeb_false in E2]);
  repeat split; intros; try reflexivity; exfalso; lra.
Qed.

Lemma dict_set_In {V : Type} (d : dict V) (k k' : string) (v v' : V) :
  In (k', v') (dict_set d k v) -> (k', v') = (k, v) \/ In (k', v') d.
Proof.
  induction d as [|[k0 v0] d IH]; simpl.
  - intros [H|[]]. now left.
  - destruct (String.eqb k k0); simpl.
    + intros [H|H]; [now left | right; now right].
    + intros [H|H]; [right; now left|]. destruct (IH H); [now left | right; now right].
Qed.

Lemma fold_store_In (self : RiskManager.t) (project_data : ProjectData) (now : string)
  (l : list string) (acc : dict RiskAssessment) (sector_id : string) (a : RiskAssessment) :
  In (sector_id, a) (fold_left (store self project_data now) l acc) ->
  In (sector_id, a) acc \/ outcome self project_data now sector_id = Some a.
Proof.
  revert acc. induction l as [|x l IH]; intros acc H; simpl in H; [now left|].
  apply IH in H. destruct H as [H|H]; [|now right].
  unfold store in H. destruct (outcome self project_data now x) as [a'|] eqn:E; [|now left].
  apply dict_set_In in H. destruct H as [H|H]; [|now left].
  inversion H. subst. now right.
Qed.

Lemma weighted_sum_nonneg (self : RiskManager.t) (risk_assessments : dict RiskAssessment) :
  (forall sector_id sector, dict_get (sectors self) sector_id = Some sector ->
                            0 <= weight sector) ->
  (forall sector_id a, In (sector_id, a) risk_assessments -> 0 <= risk_level a) ->
  0 <= Qsum (map (fun '(r, w) => r * w) (matched self risk_assessments)).
Proof.
  intros Hw Hr. unfold matched.
  induction risk_assessments as [|[sid a] l IH]; simpl; [lra|].
  assert (IH' : 0 <= Qsum (map (fun '(r, w) => r * w) (matched self l))).
  { apply IH. intros s b Hin. apply (Hr s b). now right. }
  unfold matched in IH'.
  destruct (dict_get (sectors self) sid) as [sector|] eqn:E; [|exact IH'].
  simpl. specialize (Hw sid sector E). specialize (Hr sid a (or_introl eq_refl)).
  pose proof (Qmult_le_0_compat _ _ Hr Hw). lra.
Qed.

(** With weights and risk levels that are not negative, the overall risk
    lies in [0, 1]. *)
Lemma overall_risk_bounds (self : RiskManager.t) (risk_assessments : dict RiskAssessment) :
  (forall sector_id sector, dict_get (sectors self) sector_id = Some sector ->
                            0 <= weight sector) ->
  (forall sector_id a, In (sector_id, a) risk_assessments -> 0 <= risk_level a) ->
  0 <= calculate_overall_risk self risk_assessments <= 1.
Proof.
  intros Hw Hr.
  destruct (overall_risk_cases self risk_assessments) as [Hpos Hnonpos].
  destruct (Qlt_le_dec 0 (total_matched_weight self risk_assessments)) as [Ht|Ht].
  - rewrite (Hpos Ht). split; [|apply Q.le_min_r].
    apply Qmin_nonneg; [|lra]. unfold spec_weighted_average.
    apply Qdiv_nonneg; [apply weighted_sum_nonneg; assumption | exact Ht].
  - rewrite (Hnonpos Ht). split; lra.
Qed.

(** A scorer built from a configuration entry of non-negative weight rates a
    valid project in [0, 1]. *)
Lemma make_sector_risk_level (sector_id : string) (c : SectorConfig)
  (project_data : ProjectData) (now : string) (a : RiskAssessment) :
  valid project_data -> 0 <= cfg_weight c ->
  assess_risk (make_sector sector_id c) project_data now = Ok a ->
  0 <= risk_level a <= 1.
Proof.
  intros Hv Hw Ha.
  destruct (make_sector_assess sector_id c project_data now) as (a' & Ha' & Hcase).
  rewrite Ha' in Ha. inversion Ha. subst a'.
  destruct Hcase as [->|[->|[->| ->]]].
  - now apply network_risk_level_bounds.
  - now apply cybersecurity_risk_level_bounds.
  - now apply regulatory_risk_level_bounds.
  - now apply placeholder_risk_level_bounds.
Qed.

(** The range the docstring of [calculate_overall_risk] promises holds when
    the configuration passes [validate_config], none of its weights is
    negative and the risk levels of the assessments lie in [0, 1]. *)
Theorem overall_risk_in_unit_interval_for_nonnegative_weights
  (config : ConfigManager.Config) (risk_assessments : dict RiskAssessment) :
  ConfigManager.validate_config config = Ok true ->
  (forall sector_id c, In (sector_id, c) config -> 0 <= cfg_weight c) ->
  (forall sector_id a, In (sector_id, a) risk_assessments -> 0 <= risk_level a <= 1) ->
  0 <= calculate_overall_risk (RiskManager.new config) risk_assessments <= 1.
Proof.
  intros _ Hw Hr. apply overall_risk_bounds.
  - intros sid sector Hs. apply sectors_of_new in Hs.
    destruct Hs as (c & Hin & ->). rewrite make_sector_weight. apply (Hw sid c Hin).
  - intros sid a Hin. apply (Hr sid a Hin).
Qed.

Lemma overall_risk_in_unit_interval_witness :
  0 <= calculate_overall_risk (RiskManager.new Samples.config)
         [ ("cybersecurity", Samples.assessment "cybersecurity" 0.7 ["C1"]);
           ("regulatory_compliance",
            Samples.assessment "regulatory_compliance" 1.0 ["R1"]) ] <= 1.
Proof.
  apply (overall_risk_in_unit_interval_for_nonnegative_weights Samples.config).
  - reflexivity.
  - intros sid c Hin. simpl in Hin.
    repeat (destruct Hin as [Hin|Hin]; [inversion Hin; subst; simpl; lra|]).
    contradiction.
  - intros sid a Hin. simpl in Hin.
    repeat (destruct Hin as [Hin|Hin]; [inversion Hin; subst; simpl; lra|]).
    contradiction.
Defined.

(** C1 at its failing input.  The configuration passes [validate_config]
    (its weights sum to 1.0) and the project is valid, yet the overall risk
    of the report is negative: the weight -0.01 of marketing_sales makes the
    weighted sum negative while the total weight 0.01 is positive, and
    nothing clamps the quotient from below. *)
Lemma overall_risk_negative_for_negative_weight :
  ConfigManager.validate_config Samples.config_with_negative_weight = Ok true /\
  ConfigManager.total_weight Samples.config_with_negative_weight == 1 /\
  valid Samples.plain_project /\
  exists report tr',
    assess_project (Recommender.mk (RiskManager.new Samples.config_with_negative_weight))
      Samples.plain_project (Some ["network_infrastructure"; "marketing_sales"])
      "2024-01-01T00:00:00" []
      = (Ok report, tr') /\
    overall_risk report == - (5123839781 # 7300000000) /\
    overall_risk report < 0 /\
    risk_category report = MINIMAL.
Proof.
  split; [reflexivity|]. split; [reflexivity|]. split; [reflexivity|].
  eexists. eexists. split; [vm_compute; reflexivity|].
  split; [vm_compute; reflexivity|]. split; reflexivity.
Qed.

End ReportFacts.

(** ** Further properties of the scoring core *)

Module ScenarioFacts.
Import Py PyFacts DictFacts RiskManager ValidationFacts AggregationFacts AssessmentFacts.

Lemma list_of_set_In (x : string) (l : list string) : In x (list_of_set l) <-> In x l.
Proof.
  induction l as [|y l IH]; simpl; [tauto|].
  rewrite filter_In, IH, negb_true_iff, String.eqb_neq.
  destruct (string_dec y x) as [->|Hne]; tauto.
Qed.

(** Each concrete scorer reports its baseline risk factor for every project
    and every weight whose numbers are within the range of a float. *)
Theorem baseline_factor_always_reported
  (project_data : ProjectData) (sector_id : string) (w : Q) (now : string) :
  in_float_range project_data -> float_range w ->
  In "Network congestion"
    (risk_factors (NetworkInfrastructureSector.assess_risk sector_id w project_data now)) /\
  In "Insider threats"
    (risk_factors (CybersecuritySector.assess_risk sector_id w project_data now)) /\
  In "Policy non-compliance"
    (risk_factors (RegulatoryComplianceSector.assess_risk sector_id w project_data now)).
Proof.
  intros _ _. split; [|split].
  - unfold NetworkInfrastructureSector.assess_risk,
      NetworkInfrastructureSector._identify_active_risk_factors.
    cbv zeta. cbn [risk_factors]. rewrite !in_app_iff. simpl. tauto.
  - unfold CybersecuritySector.assess_risk,
      CybersecuritySector._identify_active_risk_factors.
    cbv zeta. cbn [risk_factors]. rewrite list_of_set_In, !in_app_iff. simpl. tauto.
  - unfold RegulatoryComplianceSector.assess_risk,
      RegulatoryComplianceSector._identify_active_risk_factors.
    cbv zeta. cbn [risk_factors]. rewrite !in_app_iff. simpl. tauto.
Qed.

Lemma baseline_factor_witness :
  In "Insider threats"
    (risk_factors (CybersecuritySector.assess_risk "cybersecurity" 0.15
                     Samples.network_upgrade "2024-01-01T00:00:00")).
Proof.
  destruct (baseline_factor_always_reported Samples.network_upgrade "cybersecurity" 0.15
              "2024-01-01T00:00:00" network_upgrade_in_float_range
              sample_weight_in_float_range) as (_ & H & _).
  exact H.
Defined.

(** [assess_project_risk] assesses exactly the requested sector ids that
    are configured; the other ids are skipped without an error. *)
Theorem assessed_sectors_are_requested_and_configured
  (self : t) (project_data : ProjectData) (sectors_to_assess : option (list string))
  (now : string) (tr : list event) :
  exists risk_assessments tr',
    assess_project_risk self project_data sectors_to_assess now tr
      = (Ok risk_assessments, tr') /\
    forall sector_id,
      dict_mem risk_assessments sector_id = true <->
      In sector_id (requested self sectors_to_assess) /\
      dict_mem (sectors self) sector_id = true.
Proof.
  eexists. eexists. split; [apply assess_project_risk_run|].
  intro sid. unfold dict_mem at 1. rewrite fold_store_get.
  destruct (list_in sid (requested self sectors_to_assess)) eqn:E.
  - apply list_in_true in E.
    destruct (dict_mem (sectors self) sid) eqn:Hm.
    + destruct (outcome_of_configured self project_data now sid Hm) as [a Ha].
      rewrite Ha. tauto.
    + unfold outcome. unfold dict_mem in Hm.
      destruct (dict_get (sectors self) sid); [discriminate|]. simpl.
      split; [discriminate | intros [_ H]; discriminate].
  - simpl. split; [discriminate|]. intros [H _]. apply list_in_true in H. congruence.
Qed.

End ScenarioFacts.

(** ** When an assessment is produced *)

Module AcceptanceFacts.
Import Py PyFacts RiskManager Recommender ValidationFacts AggregationFacts AssessmentFacts.

(** The seven validated fields are in order, as numbers and texts. *)
Definition well_formed (project_data : ProjectData) : Prop :=
  project_id project_data <> "" /\
  description project_data <> "" /\
  0 < budget project_data /\
  (0 < timeline_days project_data)%Z /\
  0 <= complexity_score project_data <= 1 /\
  technologies project_data <> [] /\
  stakeholders project_data <> [].

Lemma str_truthy_true (s : string) : str_truthy s = true <-> s <> "".
Proof. destruct s; simpl; split; congruence. Qed.

Lemma list_truthy_true {A : Type} (l : list A) : list_truthy l = true <-> l <> [].
Proof. destruct l; simpl; split; congruence. Qed.

Lemma well_formed_is_valid (project_data : ProjectData) :
  well_formed project_data -> valid project_data.
Proof.
  intros (H1 & H2 & H3 & H4 & H5 & H6 & H7).
  apply str_truthy_true in H1, H2. apply list_truthy_true in H6, H7.
  unfold valid, validate_project_data. rewrite H1, H2, H6, H7. simpl.
  assert (E3 : Qle_bool (budget project_data) 0 = false).
  { apply not_true_is_false. intro E. apply Qle_bool_iff in E. lra. }
  assert (E4 : (timeline_days project_data <=? 0)%Z = false) by (apply Z.leb_gt; lia).
  assert (E5 : Qle_bool 0.0 (complexity_score project_data)
               && Qle_bool (complexity_score project_data) 1.0 = true).
  { apply andb_true_iff. split; apply Qle_bool_iff; lra. }
  rewrite E3, E4, E5. reflexivity.
Qed.

(** [assess_project] returns a report exactly when [validate_project_data]
    reports no issue, and raises a [ValueError] exactly when it reports one,
    leaving the trace as it was; it raises nothing else, whatever the sector
    scorers do.  A sector filter, known or not, does not change this.  In
    particular every project whose seven validated fields are in order gets
    a report. *)
Theorem assess_project_succeeds_iff_validated
  (self : Recommender.t) (project_data : ProjectData)
  (sectors_filter : option (list string)) (now : string) (tr : list event) :
  (validate_project_data project_data = [] <->
   exists report tr',
     assess_project self project_data sectors_filter now tr = (Ok report, tr')) /\
  (validate_project_data project_data <> [] <->
   exists msg,
     assess_project self project_data sectors_filter now tr
       = (Raise (ValueError msg), tr)) /\
  (validate_project_data project_data <> [] ->
   assess_project self project_data sectors_filter now tr
   = (Raise (ValueError ("Project data validation failed: "
                         ++ join "; " (validate_project_data project_data))), tr)) /\
  (well_formed project_data ->
   exists report tr',
     assess_project self project_data sectors_filter now tr = (Ok report, tr')).
Proof.
  destruct (validate_project_data project_data) as [|issue issues] eqn:E.
  - assert (Hv : valid project_data) by exact E.
    pose proof (assess_project_run self project_data sectors_filter now tr Hv) as Hrun.
    cbv zeta in Hrun. split; [split|split; [split|split]].
    + intros _. eexists. eexists. exact Hrun.
    + intros _. reflexivity.
    + intro Hn. congruence.
    + intros [msg Hm]. rewrite Hrun in Hm. discriminate.
    + intro Hn. congruence.
    + intros _. eexists. eexists. exact Hrun.
  - assert (Hrun : assess_project self project_data sectors_filter now tr
                   = (Raise (ValueError ("Project data validation failed: "
                                         ++ join "; " (issue :: issues))), tr)).
    { unfold assess_project. rewrite E. reflexivity. }
    split; [split|split; [split|split]].
    + discriminate.
    + intros (report & tr' & Hr). rewrite Hrun in Hr. discriminate.
    + intros _. eexists. exact Hrun.
    + intros _. discriminate.
    + intros _. exact Hrun.
    + intro Hw. apply well_formed_is_valid in Hw. unfold valid in Hw. congruence.
Qed.

End AcceptanceFacts.

(** ** What the sector scorers report *)

Module ScorerFacts.
Import Py PyFacts Idiom BaseSector BaseSectorFacts ValidationFacts ScoreBounds.
Import AcceptanceFacts.

Lemma network_upgrade_well_formed : well_formed Samples.network_upgrade.
Proof.
  unfold well_formed. simpl.
  repeat split; try discriminate; try lra; try lia.
Qed.

(** For a project whose seven validated fields are in order and whose
    numbers are within the range of a float, and for a weight within that
    range that is not negative, each of the three concrete scorers and the
    placeholder rates the project in [0, 1]. *)
Theorem scorer_risk_levels_in_unit_interval
  (project_data : ProjectData) (sector_id : string) (w : Q) (now : string) :
  well_formed project_data -> in_float_range project_data ->
  float_range w -> 0 <= w ->
  0 <= risk_level (NetworkInfrastructureSector.assess_risk sector_id w project_data now) <= 1 /\
  0 <= risk_level (CybersecuritySector.assess_risk sector_id w project_data now) <= 1 /\
  0 <= risk_level (RegulatoryComplianceSector.assess_risk sector_id w project_data now) <= 1 /\
  (forall display_name factors,
      0 <= risk_level (RiskManager.PlaceholderSector.assess_risk sector_id display_name
                         factors project_data now) <= 1).
Proof.
  intros Hwf _ _ Hw. pose proof (well_formed_is_valid _ Hwf) as Hv.
  split; [|split; [|split]].
  - now apply network_risk_level_bounds.
  - now apply cybersecurity_risk_level_bounds.
  - now apply regulatory_risk_level_bounds.
  - intros. now apply placeholder_risk_level_bounds.
Qed.

Lemma scorer_risk_levels_witness :
  0 <= risk_level (CybersecuritySector.assess_risk "cybersecurity" 0.15
                     Samples.network_upgrade "2024-01-01T00:00:00") <= 1.
Proof.
  assert (Hw : 0 <= 0.15) by lra.
  destruct (scorer_risk_levels_in_unit_interval Samples.network_upgrade "cybersecurity"
              0.15 "2024-01-01T00:00:00" network_upgrade_well_formed
              network_upgrade_in_float_range sample_weight_in_float_range Hw)
    as (_ & Hc & _).
  exact Hc.
Defined.

(** The environmental score of a project with a positive timeline exceeds
    its 0.4 baseline, which is also the threshold of the factor: the
    network scorer reports "Infrastructure damage" for every such project
    and every weight whose numbers are within the range of a float. *)
Theorem network_always_reports_infrastructure_damage
  (project_data : ProjectData) (sector_id : string) (w : Q) (now : string) :
  (0 < timeline_days project_data)%Z ->
  in_float_range project_data -> float_range w ->
  0.4 < NetworkInfrastructureSector._assess_environmental_risk project_data /\
  In "Infrastructure damage"
    (risk_factors (NetworkInfrastructureSector.assess_risk sector_id w project_data now)).
Proof.
  intros Ht _ _.
  assert (Henv : 0.4 < NetworkInfrastructureSector._assess_environmental_risk project_data).
  { unfold NetworkInfrastructureSector._assess_environmental_risk. cbv zeta.
    assert (Hr : 0 < inject_Z (timeline_days project_data) / 365).
    { unfold Qdiv. apply Qmult_lt_0_compat; [|reflexivity].
      replace 0 with (inject_Z 0) by reflexivity. rewrite <- Zlt_Qlt. exact Ht. }
    assert (Hf : 0 < Qmin (inject_Z (timeline_days project_data) / 365) 2.0).
    { destruct (Q.min_spec (inject_Z (timeline_days project_data) / 365) 2.0)
        as [[_ E]|[_ E]]; rewrite E; lra. }
    match goal with
    | |- context [add_per_keyword ?k ?t ?v ?a] =>
        assert (Hk : 0 <= add_per_keyword k t v a)
          by (apply add_per_keyword_nonneg; lra);
        set (outdoor := add_per_keyword k t v a) in *
    end.
    match goal with
    | |- 0.4 < Qmin ?x 1.0 =>
        destruct (Q.min_spec x 1.0) as [[_ E]|[_ E]]; rewrite E; lra
    end. }
  split; [exact Henv|].
  unfold NetworkInfrastructureSector.assess_risk,
    NetworkInfrastructureSector._identify_active_risk_factors.
  cbv zeta. cbn [risk_factors].
  apply Qgtb_true in Henv. rewrite Henv.
  rewrite !in_app_iff. right. left. simpl. now left.
Qed.

Lemma infrastructure_damage_witness :
  In "Infrastructure damage"
    (risk_factors (NetworkInfrastructureSector.assess_risk "network_infrastructure" 0.15
                     Samples.network_upgrade "2024-01-01T00:00:00")).
Proof.
  assert (Ht : (0 < timeline_days Samples.network_upgrade)%Z) by reflexivity.
  destruct (network_always_reports_infrastructure_damage Samples.network_upgrade
              "network_infrastructure" 0.15 "2024-01-01T00:00:00" Ht
              network_upgrade_in_float_range sample_weight_in_float_range)
    as [_ Hin].
  exact Hin.
Defined.

(** The average effectiveness of the matched security controls. *)
Lemma security_controls_range (project_data : ProjectData) :
  0.1 <= CybersecuritySector._assess_security_controls project_data <= 0.5.
Proof.
  unfold CybersecuritySector._assess_security_controls. cbv zeta.
  match goal with
  | |- _ <= (let '(_, _) := fold_left ?f ?l ?a in _) <= _ =>
      assert (Hinv : (0 <= snd (fold_left f l a))%Z /\
                     0.3 * inject_Z (snd (fold_left f l a)) <= fst (fold_left f l a) /\
                     fst (fold_left f l a) <= 0.5 * inject_Z (snd (fold_left f l a)));
      [ apply (fold_left_invariant
                 (fun s => (0 <= snd s)%Z /\ 0.3 * inject_Z (snd s) <= fst s /\
                           fst s <= 0.5 * inject_Z (snd s)) f l a)
      | destruct (fold_left f l a) as [score found] ]
  end.
  - intros s tech _ Hs.
    apply (fold_left_invariant
             (fun s => (0 <= snd s)%Z /\ 0.3 * inject_Z (snd s) <= fst s /\
                       fst s <= 0.5 * inject_Z (snd s))); [|exact Hs].
    intros [score found] [control effectiveness] Hin (Hf & Hlo & Hhi).
    simpl in Hf, Hlo, Hhi.
    assert (He : 0.3 <= effectiveness <= 0.5).
    { unfold CybersecuritySector.security_controls in Hin. simpl in Hin.
      repeat (destruct Hin as [Hin|Hin]; [inversion Hin; subst; split; lra|]).
      contradiction. }
    match goal with
    | |- context [if ?c then _ else _] => destruct c
    end; simpl; [|tauto].
    rewrite inject_Z_plus. change (inject_Z 1) with 1.
    generalize dependent (inject_Z found). intros q Hlo Hhi.
    split; [lia|]. split; lra.
  - simpl. change (inject_Z 0) with 0. split; [lia|]. split; lra.
  - simpl in Hinv. destruct Hinv as (Hf & Hlo & Hhi).
    destruct (found >? 0)%Z eqn:E; [|split; lra].
    apply Z.gtb_lt in E.
    assert (Hq : 0 < inject_Z found).
    { replace 0 with (inject_Z 0) by reflexivity. rewrite <- Zlt_Qlt. exact E. }
    assert (Hd : 0.3 <= score / inject_Z found <= 0.5).
    { split.
      - apply Qle_shift_div_l; [exact Hq | lra].
      - apply Qle_shift_div_r; [exact Hq | lra]. }
    rewrite (Q.min_l (score / inject_Z found) 1.0) by lra. split; lra.
Qed.

(** The controls named in a project lower the combined cybersecurity score
    by at least 5% and at most 25%: the effectiveness is 0.1 when no control
    is matched and an average of values between 0.3 and 0.5 otherwise. *)
Theorem security_controls_reduce_risk_by_5_to_25_percent (project_data : ProjectData) :
  0.1 <= CybersecuritySector._assess_security_controls project_data <= 0.5 /\
  0.75 <= 1.0 - CybersecuritySector._assess_security_controls project_data * 0.5 <= 0.95.
Proof.
  pose proof (security_controls_range project_data) as H. split; [exact H|]. split; lra.
Qed.

(** The number of the five inputs the confidence helper finds present. *)
Definition present_inputs (project_data : ProjectData) : Z :=
  (Z.b2z (str_truthy (description project_data))
   + Z.b2z (Qgtb (budget project_data) 0)
   + Z.b2z (timeline_days project_data >? 0)%Z
   + Z.b2z (list_truthy (technologies project_data))
   + Z.b2z (historical_risks_truthy project_data))%Z.

(** For every project, valid or not, the confidence is a fifth of the
    number of inputs present, so it lies in [0, 1]. *)
Theorem confidence_is_a_fifth_per_present_input (project_data : ProjectData) :
  calculate_confidence_score project_data == 0.2 * inject_Z (present_inputs project_data) /\
  0 <= calculate_confidence_score project_data <= 1.
Proof.
  unfold calculate_confidence_score, present_inputs.
  destruct (str_truthy (description project_data));
    destruct (Qgtb (budget project_data) 0);
    destruct (timeline_days project_data >? 0)%Z;
    destruct (list_truthy (technologies project_data));
    destruct (historical_risks_truthy project_data);
    simpl; (split; [reflexivity | split; discriminate]).
Qed.

(** The labels each scorer can report. *)
Definition network_labels : list string :=
  [ "Equipment failure"; "Infrastructure damage"; "Technology obsolescence";
    "Capacity limitations"; "Network congestion" ].
Definition cybersecurity_labels : list string :=
  [ "Cyber attacks"; "System vulnerabilities"; "Compliance violations";
    "Data breaches"; "Insider threats" ].
Definition regulatory_labels : list string :=
  [ "Regulatory violations"; "License compliance"; "Data protection breaches";
    "Audit failures"; "Policy non-compliance" ].

(** A list of risk factors is well formed for a set of labels when it is
    not empty, repeats no label and holds labels of the set only. *)
Definition factors_ok (labels factors : list string) : Prop :=
  factors <> [] /\ NoDup factors /\ incl factors labels.

(** A checker for [factors_ok]. *)
Fixpoint distinct (l : list string) : bool :=
  match l with
  | [] => true
  | x :: l' => negb (list_in x l') && distinct l'
  end.

Definition factors_okb (labels factors : list string) : bool :=
  list_truthy factors && distinct factors
  && forallb (fun x => list_in x labels) factors.

Lemma distinct_NoDup (l : list string) : distinct l = true -> NoDup l.
Proof.
  induction l as [|x l IH]; simpl; intro H; constructor.
  - apply andb_true_iff in H. destruct H as [H _]. apply negb_true_iff in H.
    intro Hin. apply list_in_true in Hin. congruence.
  - apply andb_true_iff in H. apply IH, H.
Qed.

Lemma factors_okb_ok (labels factors : list string) :
  factors_okb labels factors = true -> factors_ok labels factors.
Proof.
  unfold factors_okb, factors_ok. intro H.
  apply andb_true_iff in H. destruct H as [H H3].
  apply andb_true_iff in H. destruct H as [H1 H2].
  split; [destruct factors; [discriminate | discriminate]|].
  split; [apply distinct_NoDup, H2|].
  intros x Hx. rewrite forallb_forall in H3. apply list_in_true, H3, Hx.
Qed.

(** Whatever the project and the weight, the risk factors of a concrete
    scorer are not empty, repeat no label (the cybersecurity scorer can add
    "System vulnerabilities" twice before it removes duplicates) and come
    from the five labels of that scorer. *)
Theorem risk_factors_are_distinct_known_labels
  (project_data : ProjectData) (sector_id : string) (w : Q) (now : string) :
  factors_ok network_labels
    (risk_factors (NetworkInfrastructureSector.assess_risk sector_id w project_data now)) /\
  factors_ok cybersecurity_labels
    (risk_factors (CybersecuritySector.assess_risk sector_id w project_data now)) /\
  factors_ok regulatory_labels
    (risk_factors (RegulatoryComplianceSector.assess_risk sector_id w project_data now)).
Proof.
  split; [|split]; apply factors_okb_ok.
  - unfold NetworkInfrastructureSector.assess_risk. cbv zeta. cbn [risk_factors].
    unfold NetworkInfrastructureSector._identify_active_risk_factors.
    destruct (Qgtb _ 0.5), (Qgtb _ 0.4), (Qgtb _ 0.5), (Qgtb _ 0.4); reflexivity.
  - unfold CybersecuritySector.assess_risk. cbv zeta. cbn [risk_factors].
    unfold CybersecuritySector._identify_active_risk_factors.
    destruct (Qgtb _ 0.6), (Qgtb _ 0.6), (Qgtb _ 0.5), (Qgtb _ 0.5); reflexivity.
  - unfold RegulatoryComplianceSector.assess_risk. cbv zeta. cbn [risk_factors].
    unfold RegulatoryComplianceSector._identify_active_risk_factors.
    destruct (Qgtb _ 0.6), (Qgtb _ 0.5), (Qgtb _ 0.5), (Qgtb _ 0.5); reflexivity.
Qed.

(** The placeholder rates a project by its complexity alone: for a
    complexity of at most 1 the level is 0.8 times the complexity, never
    above 0.8, with at most three risk factors, the first ones configured,
    and the fixed confidence 0.5. *)
Theorem placeholder_rates_by_complexity
  (project_data : ProjectData) (sector_id display_name : string)
  (factors : list string) (now : string) :
  complexity_score project_data <= 1 ->
  risk_level (RiskManager.PlaceholderSector.assess_risk sector_id display_name factors
                project_data now) == complexity_score project_data * 0.8 /\
  risk_level (RiskManager.PlaceholderSector.assess_risk sector_id display_name factors
                project_data now) <= 0.8 /\
  risk_factors (RiskManager.PlaceholderSector.assess_risk sector_id display_name factors
                  project_data now) = firstn 3 factors /\
  (List.length (risk_factors (RiskManager.PlaceholderSector.assess_risk sector_id
                                display_name factors project_data now)) <= 3)%nat /\
  confidence (RiskManager.PlaceholderSector.assess_risk sector_id display_name factors
                project_data now) = 0.5.
Proof.
  intro Hc. unfold RiskManager.PlaceholderSector.assess_risk. cbv zeta.
  cbn [risk_level risk_factors confidence].
  assert (E : Qmin (complexity_score project_data * 0.8) 1.0
              == complexity_score project_data * 0.8) by (apply Q.min_l; lra).
  split; [exact E|]. split; [rewrite E; lra|]. split; [reflexivity|].
  split; [|reflexivity]. rewrite length_firstn. lia.
Qed.

Lemma placeholder_witness :
  risk_level (RiskManager.PlaceholderSector.assess_risk "marketing_sales"
                "Marketing and Sales" ["Risk A"; "Risk B"; "Risk C"; "Risk D"]
                Samples.valid_project "2024-01-01T00:00:00") == 0.4.
Proof.
  assert (Hc : complexity_score Samples.valid_project <= 1) by (simpl; lra).
  destruct (placeholder_rates_by_complexity Samples.valid_project "marketing_sales"
              "Marketing and Sales" ["Risk A"; "Risk B"; "Risk C"; "Risk D"]
              "2024-01-01T00:00:00" Hc) as [E _].
  rewrite E. reflexivity.
Defined.

(** The mitigation strategies of an assessment do not depend on the
    project, the weight or the risk factors found.  The shared list has ten
    entries and the network scorer keeps ten, so none of its own strategies
    is ever returned; the other two scorers keep twelve, the shared ten and
    the first two of their own. *)
Theorem mitigation_strategies_are_fixed
  (project_data : ProjectData) (sector_id : string) (w : Q) (now : string) :
  mitigation_strategies
    (NetworkInfrastructureSector.assess_risk sector_id w project_data now)
    = get_common_mitigation_strategies /\
  mitigation_strategies (CybersecuritySector.assess_risk sector_id w project_data now)
    = (get_common_mitigation_strategies
       ++ [ "Implement multi-layered security controls (Defense in Depth)";
            "Conduct regular security assessments and penetration testing" ])%list /\
  mitigation_strategies
    (RegulatoryComplianceSector.assess_risk sector_id w project_data now)
    = (get_common_mitigation_strategies
       ++ [ "Establish dedicated compliance officer and team";
            "Conduct regular regulatory impact assessments" ])%list.
Proof. repeat split. Qed.

End ScorerFacts.


(** ** What the overall risk depends on *)

Module OverallRiskInvariance.
Import Py PyFacts DictFacts RiskManager.

(** The step of the loop of [calculate_overall_risk]. *)
Definition step (self : t) : Q * Q -> string * RiskAssessment -> Q * Q :=
  fun '(weighted_risk, total_weight) '(sector_id, assessment) =>
    match dict_get (sectors self) sector_id with
    | Some sector =>
        let sector_weight := weight sector in
        (weighted_risk + risk_level assessment * sector_weight,
         total_weight + sector_weight)
    | None => (weighted_risk, total_weight)
    end.

Lemma accumulate_skips_unconfigured (self : t) (risk_assessments : dict RiskAssessment)
  (acc : Q * Q) :
  fold_left (step self) risk_assessments acc
  = fold_left (step self)
      (filter (fun p => dict_mem (sectors self) (fst p)) risk_assessments) acc.
Proof.
  revert acc. induction risk_assessments as [|[sid a] l IH]; intro acc; [reflexivity|].
  cbn [filter fst fold_left]. unfold dict_mem.
  destruct (dict_get (sectors self) sid) as [sector|] eqn:E.
  - cbn [fold_left]. apply IH.
  - rewrite IH. f_equal. destruct acc as [wr tw]. unfold step. rewrite E. reflexivity.
Qed.

(** The assessments stored under sector ids that are not configured have no
    influence on the overall risk: the loop passes over them without
    touching its two sums, so the result is the very value computed for the
    mapping without them, with the same additions, products and quotient in
    the same order; and 0.5 when no entry is left. *)
Theorem overall_risk_ignores_unconfigured_assessments
  (self : t) (risk_assessments : dict RiskAssessment) :
  calculate_overall_risk self risk_assessments
  = calculate_overall_risk self
      (filter (fun p => dict_mem (sectors self) (fst p)) risk_assessments) /\
  (filter (fun p => dict_mem (sectors self) (fst p)) risk_assessments = [] ->
   calculate_overall_risk self risk_assessments = 0.5).
Proof.
  assert (Hacc : accumulate_risk self risk_assessments
                 = accumulate_risk self
                     (filter (fun p => dict_mem (sectors self) (fst p)) risk_assessments)).
  { apply (accumulate_skips_unconfigured self risk_assessments (0.0, 0.0)). }
  assert (Hnil : filter (fun p => dict_mem (sectors self) (fst p)) risk_assessments = [] ->
                 calculate_overall_risk self risk_assessments = 0.5).
  { intro Hf.
    pose proof (eq_trans Hacc (f_equal (accumulate_risk self) Hf)) as Hacc0.
    unfold calculate_overall_risk. rewrite Hacc0.
    destruct risk_assessments; reflexivity. }
  split; [|exact Hnil].
  destruct (filter (fun p => dict_mem (sectors self) (fst p)) risk_assessments)
    as [|p l] eqn:Hf.
  - rewrite (Hnil eq_refl). reflexivity.
  - unfold calculate_overall_risk. rewrite Hacc.
    destruct risk_assessments as [|q r]; [discriminate|]. reflexivity.
Qed.

End OverallRiskInvariance.

(** ** What the cut of a ranking keeps *)

Module RankingCutFacts.
Import Py PyFacts DictFacts RiskManager RankingFacts.

Lemma StronglySorted_app_cross {A : Type} (R : A -> A -> Prop) (l1 l2 : list A) :
  StronglySorted R (l1 ++ l2) -> forall x y, In x l1 -> In y l2 -> R x y.
Proof.
  induction l1 as [|a l1 IH]; intros H x y Hx Hy; [contradiction|].
  simpl in H. inversion H as [|? ? Hs Hall]; subst.
  destruct Hx as [->|Hx].
  - rewrite Forall_forall in Hall. apply Hall, in_or_app. now right.
  - now apply IH.
Qed.

(** For a limit that is not negative the entries [get_top_risk_factors]
    returns are a prefix of the ranking: no entry left out has a higher risk
    level than an entry returned, a smaller limit returns a prefix of what a
    larger one returns, and a limit of at least the number of entries
    returns all of them. *)
Theorem top_risk_factors_keep_the_highest
  (self : t) (risk_assessments : dict RiskAssessment) (limit : Z) :
  (0 <= limit)%Z ->
  (exists omitted,
      Permutation (get_top_risk_factors self risk_assessments limit ++ omitted)
        (all_risks self risk_assessments) /\
      forall kept left_out,
        In kept (get_top_risk_factors self risk_assessments limit) ->
        In left_out omitted ->
        ranked_level left_out <= ranked_level kept) /\
  (forall limit', (0 <= limit' <= limit)%Z ->
      get_top_risk_factors self risk_assessments limit'
      = firstn (Z.to_nat limit') (get_top_risk_factors self risk_assessments limit)) /\
  ((len (all_risks self risk_assessments) <= limit)%Z ->
   Permutation (get_top_risk_factors self risk_assessments limit)
     (all_risks self risk_assessments)).
Proof.
  intro Hl. unfold get_top_risk_factors.
  set (ranking := sort_desc level_ge (all_risks self risk_assessments)).
  assert (Hperm : Permutation ranking (all_risks self risk_assessments))
    by apply sort_desc_perm.
  rewrite slice_to_nonneg by exact Hl.
  split; [|split].
  - exists (skipn (Z.to_nat limit) ranking). split.
    + rewrite firstn_skipn. exact Hperm.
    + intros kept left_out Hk Ho.
      apply (StronglySorted_app_cross no_lower (firstn (Z.to_nat limit) ranking)
               (skipn (Z.to_nat limit) ranking)); [|exact Hk | exact Ho].
      rewrite firstn_skipn. apply ranking_sorted.
  - intros limit' Hl'. rewrite slice_to_nonneg by lia.
    rewrite firstn_firstn. f_equal. lia.
  - intro Hlen. rewrite firstn_all2; [exact Hperm|].
    rewrite (Permutation_length Hperm). unfold len in Hlen. lia.
Qed.

Lemma top_risk_factors_witness :
  get_top_risk_factors (new Samples.config)
    [ ("regulatory_compliance", Samples.assessment "regulatory_compliance" 0.4 ["R1"]);
      ("cybersecurity", Samples.assessment "cybersecurity" 0.7 ["C1"; "C2"]) ] 1
  = firstn 1
      (get_top_risk_factors (new Samples.config)
         [ ("regulatory_compliance", Samples.assessment "regulatory_compliance" 0.4 ["R1"]);
           ("cybersecurity", Samples.assessment "cybersecurity" 0.7 ["C1"; "C2"]) ] 2).
Proof.
  assert (H2 : (0 <= 2)%Z) by lia.
  destruct (top_risk_factors_keep_the_highest (new Samples.config)
              [ ("regulatory_compliance",
                 Samples.assessment "regulatory_compliance" 0.4 ["R1"]);
                ("cybersecurity", Samples.assessment "cybersecurity" 0.7 ["C1"; "C2"]) ]
              2 H2) as (_ & Hprefix & _).
  apply (Hprefix 1%Z). lia.
Defined.

(** A negative limit does not cap the result: the slice drops the last
    [-limit] entries of the ranking and returns the rest, which is empty
    only when the ranking has no more than [-limit] entries. *)
Theorem negative_limit_drops_from_the_end
  (self : t) (risk_assessments : dict RiskAssessment) (limit : Z) :
  (limit < 0)%Z ->
  len (get_top_risk_factors self risk_assessments limit)
  = Z.max 0 (len (all_risks self risk_assessments) + limit) /\
  exists dropped,
    Permutation (get_top_risk_factors self risk_assessments limit ++ dropped)
      (all_risks self risk_assessments) /\
    len dropped = Z.min (- limit) (len (all_risks self risk_assessments)).
Proof.
  intro Hl. unfold get_top_risk_factors.
  set (ranking := sort_desc level_ge (all_risks self risk_assessments)).
  assert (Hperm : Permutation ranking (all_risks self risk_assessments))
    by apply sort_desc_perm.
  assert (Hn : len ranking = len (all_risks self risk_assessments))
    by (unfold len; now rewrite (Permutation_length Hperm)).
  unfold slice_to. apply Z.ltb_lt in Hl. rewrite Hl. apply Z.ltb_lt in Hl.
  rewrite Hn. split.
  - unfold len at 1. rewrite length_firstn. unfold len in *. lia.
  - exists (skipn (Z.to_nat (len (all_risks self risk_assessments) + limit)) ranking).
    split; [rewrite firstn_skipn; exact Hperm|].
    unfold len at 1. rewrite length_skipn. unfold len in *. lia.
Qed.

Lemma negative_limit_witness :
  len (get_top_risk_factors (new Samples.config)
         [("cybersecurity", Samples.assessment "cybersecurity" 0.7 ["C1"; "C2"; "C3"])]
         (-1))
  = Z.max 0
      (len (all_risks (new Samples.config)
              [("cybersecurity", Samples.assessment "cybersecurity" 0.7 ["C1"; "C2"; "C3"])])
       + -1).
Proof.
  assert (Hl : (-1 < 0)%Z) by lia.
  destruct (negative_limit_drops_from_the_end (new Samples.config)
              [("cybersecurity", Samples.assessment "cybersecurity" 0.7 ["C1"; "C2"; "C3"])]
              (-1) Hl) as [Hlen _].
  exact Hlen.
Defined.

End RankingCutFacts.

(** ** The shape of the identified sector list *)

Module SelectionShapeFacts.
Import Py PyFacts DictFacts Recommender SelectionFacts ScorerFacts.

Lemma sector_keywords_keys_distinct : NoDup (dict_keys sector_keywords).
Proof. apply distinct_NoDup. reflexivity. Qed.

Lemma scored_keys (project_data : ProjectData) :
  forall (l : dict (list string)),
    NoDup (dict_keys l) ->
    NoDup (map fst
             (flat_map
                (fun '(sector_id, keywords) =>
                   if (relevance_score project_data keywords >? 0)%Z
                   then [(sector_id, relevance_score project_data keywords)] else [])
                l)) /\
    incl (map fst
            (flat_map
               (fun '(sector_id, keywords) =>
                  if (relevance_score project_data keywords >? 0)%Z
                  then [(sector_id, relevance_score project_data keywords)] else [])
               l))
         (dict_keys l).
Proof.
  induction l as [|[sid kws] l IH]; intro Hnd.
  - split; [constructor | intros x []].
  - unfold dict_keys in Hnd. simpl in Hnd. inversion Hnd as [|? ? Hnot Hnd']; subst.
    destruct (IH Hnd') as [IH1 IH2]. cbn [flat_map].
    destruct (relevance_score project_data kws >? 0)%Z; simpl.
    + split.
      * constructor; [|exact IH1]. intro Hin. apply Hnot, IH2, Hin.
      * intros x [<-|Hx]; [now left | right; apply IH2, Hx].
    + split; [exact IH1|]. intros x Hx. right. apply IH2, Hx.
Qed.

Lemma nodup_keys_app_filter {V : Type} (p : string * V -> bool) (l1 l2 : list (string * V)) :
  NoDup (map fst (l1 ++ l2)) -> NoDup (map fst (l1 ++ filter p l2)).
Proof.
  assert (Hsub : forall l x, In x (map fst (l ++ filter p l2)) -> In x (map fst (l ++ l2))).
  { intros l x. rewrite !map_app, !in_app_iff. intros [H|H]; [now left|]. right.
    apply in_map_iff in H. destruct H as [q [Hq Hin]]. apply filter_In in Hin.
    apply in_map_iff. exists q. tauto. }
  induction l1 as [|a l1 IH]; intro H.
  - simpl in *. induction l2 as [|b l2 IH2]; [constructor|].
    simpl in H. inversion H as [|? ? Hnot Hnd]; subst. simpl.
    destruct (p b); simpl.
    + constructor; [|apply IH2; [|exact Hnd]].
      * intro Hin. apply Hnot. apply in_map_iff in Hin. destruct Hin as [q [Hq Hin]].
        apply filter_In in Hin. apply in_map_iff. exists q. tauto.
      * intros l x Hx. specialize (Hsub l x).
        rewrite !map_app, !in_app_iff in *. simpl in Hsub.
        destruct Hx as [Hx|Hx]; [now left|]. right.
        apply in_map_iff in Hx. destruct Hx as [q [Hq Hin]]. apply filter_In in Hin.
        apply in_map_iff. exists q. tauto.
    + apply IH2; [|exact Hnd].
      intros l x Hx. rewrite !map_app, !in_app_iff in *.
      destruct Hx as [Hx|Hx]; [now left|]. right.
      apply in_map_iff in Hx. destruct Hx as [q [Hq Hin]]. apply filter_In in Hin.
      apply in_map_iff. exists q. tauto.
  - simpl in *. inversion H as [|? ? Hnot Hnd]; subst.
    constructor; [|apply IH, Hnd]. intro Hin. apply Hnot, Hsub, Hin.
Qed.

Lemma nodup_snoc (l : list string) (x : string) :
  NoDup l -> ~ In x l -> NoDup (l ++ [x]).
Proof.
  intros Hnd Hx. induction l as [|y l IH]; simpl.
  - constructor; [intros [] | constructor].
  - inversion Hnd as [|? ? Hnot Hnd']; subst. constructor.
    + rewrite in_app_iff. simpl. intros [H|[H|[]]]; [contradiction|].
      apply Hx. now left.
    + apply IH; [exact Hnd'|]. intro H. apply Hx. now right.
Qed.

Lemma add_mandatory_nodup (result : list string) :
  NoDup result -> NoDup (add_mandatory result).
Proof.
  intro Hnd. unfold add_mandatory, mandatory_sectors. simpl.
  assert (Hstep : forall l x, NoDup l ->
             NoDup (if negb (list_in x l) then (l ++ [x])%list else l)).
  { intros l x Hl. destruct (list_in x l) eqn:E; simpl; [exact Hl|].
    apply nodup_snoc; [exact Hl|]. intro Hin. apply list_in_true in Hin. congruence. }
  apply Hstep, Hstep, Hnd.
Qed.

Lemma two_distinct_members (l : list string) (a b : string) :
  In a l -> In b l -> a <> b -> (2 <= List.length l)%nat.
Proof.
  destruct l as [|x [|y l]]; simpl; intros Ha Hb Hne.
  - contradiction.
  - destruct Ha as [<-|[]], Hb as [<-|[]]. congruence.
  - lia.
Qed.

(** Without a filter the identified list holds between two and ten sector
    ids, each one of the ten ids of the keyword table, and none twice: no
    sector is assessed twice for one project. *)
Theorem identified_sectors_are_distinct_known_ids
  (project_data : ProjectData) (sectors_filter : option (list string)) :
  sectors_filter = None \/ sectors_filter = Some [] ->
  NoDup (_identify_relevant_sectors project_data sectors_filter) /\
  incl (_identify_relevant_sectors project_data sectors_filter)
    (dict_keys sector_keywords) /\
  (2 <= List.length (_identify_relevant_sectors project_data sectors_filter) <= 10)%nat.
Proof.
  intro Hf.
  assert (E : _identify_relevant_sectors project_data sectors_filter
              = _identify_relevant_sectors project_data None)
    by (destruct Hf as [->| ->]; reflexivity).
  rewrite E, identified_by_keywords. clear E Hf.
  set (ranking := sort_desc score_ge (scored_sectors project_data)).
  destruct (scored_keys project_data sector_keywords sector_keywords_keys_distinct)
    as [Hnd Hincl].
  fold (scored_sectors project_data) in Hnd, Hincl.
  assert (Hperm : Permutation (map fst ranking) (map fst (scored_sectors project_data)))
    by (apply Permutation_map, sort_desc_perm).
  assert (Hnd_rank : NoDup (map fst ranking))
    by (apply (Permutation_NoDup (Permutation_sym Hperm)), Hnd).
  assert (Hnd_res : NoDup (map fst (firstn 3 ranking)
                           ++ map fst (filter (fun p => (snd p >=? 3)%Z)
                                         (skipn 3 ranking)))%list).
  { rewrite <- map_app. apply nodup_keys_app_filter.
    rewrite firstn_skipn. exact Hnd_rank. }
  assert (Hincl_res : incl (map fst (firstn 3 ranking)
                            ++ map fst (filter (fun p => (snd p >=? 3)%Z)
                                          (skipn 3 ranking)))%list
                           (dict_keys sector_keywords)).
  { intros x Hx. apply Hincl. apply (Permutation_in _ Hperm).
    rewrite <- (firstn_skipn 3 ranking), map_app.
    rewrite in_app_iff in *. destruct Hx as [Hx|Hx]; [now left|]. right.
    apply in_map_iff in Hx. destruct Hx as [q [Hq Hin]]. apply filter_In in Hin.
    apply in_map_iff. exists q. tauto. }
  assert (Hnd_all : NoDup (add_mandatory
                             (map fst (firstn 3 ranking)
                              ++ map fst (filter (fun p => (snd p >=? 3)%Z)
                                            (skipn 3 ranking)))%list))
    by (apply add_mandatory_nodup, Hnd_res).
  assert (Hincl_all : incl (add_mandatory
                              (map fst (firstn 3 ranking)
                               ++ map fst (filter (fun p => (snd p >=? 3)%Z)
                                             (skipn 3 ranking)))%list)
                           (dict_keys sector_keywords)).
  { intros x Hx. apply add_mandatory_spec in Hx. destruct Hx as [Hx|Hx].
    - apply Hincl_res, Hx.
    - simpl in Hx. destruct Hx as [<-|[<-|[]]]; simpl; tauto. }
  split; [exact Hnd_all|]. split; [exact Hincl_all|]. split.
  - apply (two_distinct_members _ "cybersecurity" "regulatory_compliance").
    + apply add_mandatory_spec. right. simpl. auto.
    + apply add_mandatory_spec. right. simpl. auto.
    + discriminate.
  - apply (NoDup_incl_length Hnd_all Hincl_all).
Qed.

Lemma identified_sectors_witness :
  NoDup (_identify_relevant_sectors Samples.network_upgrade None).
Proof.
  destruct (identified_sectors_are_distinct_known_ids Samples.network_upgrade None
              (or_introl eq_refl)) as [Hnd _].
  exact Hnd.
Defined.

End SelectionShapeFacts.

(** ** The configuration, the sector objects and the introspection *)

Module ConfigurationFacts.
Import Py PyFacts DictFacts RiskManager SectorFacts ScorerFacts.

Lemma dict_get_not_in {V : Type} (d : dict V) (k : string) :
  ~ In k (dict_keys d) -> dict_get d k = None.
Proof.
  induction d as [|[k' v] d IH]; simpl; intro H; [reflexivity|].
  destruct (String.eqb k k') eqn:E.
  - apply String.eqb_eq in E. subst. exfalso. apply H. now left.
  - apply IH. intro Hin. apply H. now right.
Qed.

Lemma dict_get_in_nodup {V : Type} (d : dict V) (k : string) (v : V) :
  NoDup (dict_keys d) -> In (k, v) d -> dict_get d k = Some v.
Proof.
  induction d as [|[k' v'] d IH]; simpl; intros Hnd Hin; [contradiction|].
  inversion Hnd as [|? ? Hnot Hnd']; subst.
  destruct Hin as [Heq|Hin].
  - inversion Heq. subst. now rewrite String.eqb_refl.
  - destruct (String.eqb k k') eqn:E.
    + apply String.eqb_eq in E. subst. exfalso. apply Hnot.
      apply (in_map fst) in Hin. exact Hin.
    + apply IH; assumption.
Qed.

Lemma dict_set_fresh {V : Type} (d : dict V) (k : string) (v : V) :
  ~ In k (dict_keys d) -> dict_set d k v = (d ++ [(k, v)])%list.
Proof.
  induction d as [|[k' v'] d IH]; simpl; intro H; [reflexivity|].
  destruct (String.eqb k k') eqn:E.
  - apply String.eqb_eq in E. subst. exfalso. apply H. now left.
  - rewrite IH; [reflexivity|]. intro Hin. apply H. now right.
Qed.

Lemma dict_set_present {V : Type} (d1 d2 : dict V) (k : string) (v0 v : V) :
  ~ In k (dict_keys d1) ->
  dict_set (d1 ++ (k, v0) :: d2)%list k v = (d1 ++ (k, v) :: d2)%list.
Proof.
  induction d1 as [|[k' v'] d1 IH]; simpl; intro H.
  - now rewrite String.eqb_refl.
  - destruct (String.eqb k k') eqn:E.
    + apply String.eqb_eq in E. subst. exfalso. apply H. now left.
    + rewrite IH; [reflexivity|]. intro Hin. apply H. now right.
Qed.

(** Filling a dictionary from entries with distinct fresh keys appends
    them in order. *)
Lemma fold_dict_set_distinct {X V : Type} (f : string -> X -> V)
  (l : list (string * X)) (acc : dict V) :
  NoDup (dict_keys acc ++ map fst l)%list ->
  fold_left (fun d '(k, x) => dict_set d k (f k x)) l acc
  = (acc ++ map (fun '(k, x) => (k, f k x)) l)%list.
Proof.
  revert acc. induction l as [|[k x] l IH]; intros acc Hnd; simpl.
  - now rewrite app_nil_r.
  - assert (Hk : ~ In k (dict_keys acc)).
    { intro Hin. apply NoDup_remove_2 in Hnd. apply Hnd, in_or_app. now left. }
    rewrite (dict_set_fresh acc k _ Hk), IH.
    + now rewrite <- app_assoc.
    + unfold dict_keys in *. rewrite map_app, <- app_assoc. simpl. exact Hnd.
Qed.

Lemma initialize_sectors_step (l : ConfigManager.Config) (acc : dict Sector) :
  fold_left
    (fun sectors '(sector_id, sector_config) =>
       match dict_get sector_classes sector_id with
       | Some cls => dict_set sectors sector_id (cls sector_id sector_config)
       | None =>
           dict_set sectors sector_id (_create_placeholder_sector sector_id sector_config)
       end)
    l acc
  = fold_left (fun d '(k, c) => dict_set d k (make_sector k c)) l acc.
Proof.
  revert acc. induction l as [|[sid c] l IH]; intro acc; [reflexivity|].
  cbn [fold_left]. rewrite IH. f_equal. unfold make_sector.
  destruct (dict_get sector_classes sid); reflexivity.
Qed.

Lemma initialize_sectors_distinct (config : ConfigManager.Config) :
  NoDup (dict_keys config) ->
  _initialize_sectors config
  = map (fun '(sector_id, c) => (sector_id, make_sector sector_id c)) config.
Proof.
  intro Hnd. unfold _initialize_sectors.
  rewrite initialize_sectors_step.
  now rewrite (fold_dict_set_distinct make_sector config []).
Qed.

Lemma make_sector_fields (sector_id : string) (c : SectorConfig) :
  self_sector_id (make_sector sector_id c) = sector_id /\
  name (make_sector sector_id c) = cfg_name c /\
  weight (make_sector sector_id c) = cfg_weight c /\
  self_risk_factors (make_sector sector_id c) = cfg_risk_factors c.
Proof.
  unfold make_sector, sector_classes. simpl.
  repeat (destruct (String.eqb sector_id _); [repeat split|]). repeat split.
Qed.

Lemma map_keys {X V : Type} (f : string -> X -> V) (l : list (string * X)) :
  dict_keys (map (fun '(k, x) => (k, f k x)) l) = dict_keys l.
Proof.
  unfold dict_keys. rewrite map_map. apply map_ext. now intros [k x].
Qed.

Lemma map_get {X V : Type} (f : string -> X -> V) (l : list (string * X)) (k : string) :
  dict_get (map (fun '(k, x) => (k, f k x)) l) k = option_map (f k) (dict_get l k).
Proof.
  induction l as [|[k' x] l IH]; [reflexivity|]. simpl.
  destruct (String.eqb k k') eqn:E; [|exact IH].
  apply String.eqb_eq in E. now subst.
Qed.

(** The risk manager mirrors the configuration: the same sector ids in the
    same order; each sector object carries the id, name, weight and risk
    factors of its entry; the three ids with a module of their own get that
    module's scorer and every other id gets the placeholder. *)
Theorem sectors_mirror_the_configuration (config : ConfigManager.Config) :
  NoDup (dict_keys config) ->
  dict_keys (sectors (new config)) = dict_keys config /\
  forall sector_id c,
    dict_get config sector_id = Some c ->
    exists sector,
      dict_get (sectors (new config)) sector_id = Some sector /\
      self_sector_id sector = sector_id /\
      name sector = cfg_name c /\
      weight sector = cfg_weight c /\
      self_risk_factors sector = cfg_risk_factors c /\
      (sector_id = "network_infrastructure" ->
       sector = NetworkInfrastructureSector.new sector_id c) /\
      (sector_id = "cybersecurity" -> sector = CybersecuritySector.new sector_id c) /\
      (sector_id = "regulatory_compliance" ->
       sector = RegulatoryComplianceSector.new sector_id c) /\
      (implemented sector_id = false -> sector = PlaceholderSector.new sector_id c).
Proof.
  intro Hnd. unfold new. cbn [sectors]. rewrite (initialize_sectors_distinct config Hnd).
  split; [apply map_keys|].
  intros sid c Hc. exists (make_sector sid c).
  split; [rewrite (map_get make_sector), Hc; reflexivity|].
  destruct (make_sector_fields sid c) as (H1 & H2 & H3 & H4).
  repeat (split; [assumption|]).
  split; [intros ->; reflexivity|]. split; [intros ->; reflexivity|].
  split; [intros ->; reflexivity|].
  unfold implemented, dict_mem, make_sector.
  destruct (dict_get sector_classes sid); [discriminate | reflexivity].
Qed.

Lemma sample_config_keys_distinct : NoDup (dict_keys Samples.config).
Proof. apply distinct_NoDup. reflexivity. Qed.

Lemma sectors_mirror_witness :
  dict_keys (sectors (new Samples.config)) = dict_keys Samples.config.
Proof.
  destruct (sectors_mirror_the_configuration Samples.config sample_config_keys_distinct)
    as [Hk _].
  exact Hk.
Defined.

End ConfigurationFacts.

(** ** The sector information *)

Module IntrospectionFacts.
Import Py PyFacts DictFacts RiskManager SectorFacts ConfigurationFacts.
Import ConfigQueries Introspection.

(** The entry of the summary for one configuration entry. *)
Definition summary_of (c : SectorConfig) : SectorInfo :=
  mkSectorInfo (cfg_name c) (cfg_weight c) (len (cfg_risk_factors c)) true None None false.

(** The finished entry for one configuration entry. *)
Definition information_of (c : SectorConfig) : SectorInfo :=
  mkSectorInfo (cfg_name c) (cfg_weight c) (len (cfg_risk_factors c)) true
    (Some (cfg_description c)) (Some (cfg_risk_factors c)) true.

Lemma summary_distinct (config : ConfigManager.Config) :
  NoDup (dict_keys config) ->
  get_sector_summary (new config)
  = map (fun '(sector_id, c) => (sector_id, summary_of c)) config.
Proof.
  intro Hnd. unfold get_sector_summary, new. cbn [sectors].
  rewrite (initialize_sectors_distinct config Hnd).
  rewrite (fold_dict_set_distinct
             (fun (_ : string) (sector : Sector) =>
                mkSectorInfo (name sector) (weight sector)
                  (len (self_risk_factors sector)) true None None false)).
  - simpl. rewrite map_map. apply map_ext. intros [sid c].
    destruct (make_sector_fields sid c) as (_ & H2 & H3 & H4).
    unfold summary_of. now rewrite H2, H3, H4.
  - simpl. rewrite map_map.
    replace (map (fun x => fst (let '(sector_id, c) := x in (sector_id, make_sector sector_id c)))
               config) with (dict_keys config); [exact Hnd|].
    unfold dict_keys. apply map_ext. now intros [sid c].
Qed.

Lemma add_context_distinct (config : ConfigManager.Config)
  (done todo : ConfigManager.Config) :
  NoDup (dict_keys (done ++ todo)%list) ->
  (forall sector_id c, In (sector_id, c) todo -> dict_get config sector_id = Some c) ->
  add_context config
    (map (fun '(sector_id, c) => (sector_id, summary_of c)) todo)
    (map (fun '(sector_id, c) => (sector_id, information_of c)) done
     ++ map (fun '(sector_id, c) => (sector_id, summary_of c)) todo)%list
  = Ok (map (fun '(sector_id, c) => (sector_id, information_of c)) (done ++ todo)%list).
Proof.
  revert done. induction todo as [|[sid c] todo IH]; intros done Hnd Hget.
  - simpl. now rewrite !app_nil_r.
  - cbn [map add_context]. unfold get_sector, get_sectors.
    rewrite (Hget sid c (or_introl eq_refl)).
    rewrite dict_set_present.
    + specialize (IH (done ++ [(sid, c)])%list).
      rewrite <- !app_assoc in IH. simpl in IH.
      rewrite map_app in IH. simpl in IH. rewrite <- app_assoc in IH. simpl in IH.
      apply IH; [exact Hnd|]. intros s c' Hin. apply Hget. now right.
    + rewrite (map_keys (fun _ c => information_of c)).
      unfold dict_keys in *. rewrite map_app in Hnd. simpl in Hnd.
      apply NoDup_remove_2 in Hnd. intro Hin. apply Hnd, in_or_app. now left.
Qed.

(** [get_sector_information] never raises: it returns one entry per
    configured sector, in the order of the configuration, with the name,
    weight, description and risk factors of that sector's entry and the
    number of its risk factors.  The flag [implemented] is set for every
    sector, the placeholders included. *)
Theorem sector_information_describes_the_configuration (config : ConfigManager.Config) :
  NoDup (dict_keys config) ->
  exists sector_info,
    get_sector_information config = Ok sector_info /\
    dict_keys sector_info = dict_keys config /\
    forall sector_id c,
      dict_get config sector_id = Some c ->
      dict_get sector_info sector_id
      = Some (mkSectorInfo (cfg_name c) (cfg_weight c) (len (cfg_risk_factors c)) true
                (Some (cfg_description c)) (Some (cfg_risk_factors c)) true).
Proof.
  intro Hnd.
  exists (map (fun '(sector_id, c) => (sector_id, information_of c)) config).
  split; [|split].
  - unfold get_sector_information. rewrite (summary_distinct config Hnd).
    apply (add_context_distinct config [] config Hnd).
    intros sid c Hin. now apply dict_get_in_nodup.
  - apply (map_keys (fun _ c => information_of c)).
  - intros sid c Hc. rewrite (map_get (fun _ c => information_of c)), Hc. reflexivity.
Qed.

Lemma sector_information_witness :
  exists sector_info,
    get_sector_information Samples.config = Ok sector_info /\
    dict_keys sector_info = dict_keys Samples.config /\
    forall sector_id c,
      dict_get Samples.config sector_id = Some c ->
      dict_get sector_info sector_id
      = Some (mkSectorInfo (cfg_name c) (cfg_weight c) (len (cfg_risk_factors c)) true
                (Some (cfg_description c)) (Some (cfg_risk_factors c)) true).
Proof.
  apply (sector_information_describes_the_configuration Samples.config
           sample_config_keys_distinct).
Defined.

(** The lookups of the configuration agree with one another: the risk
    factors of a sector id are found exactly when [get_all_risk_factors] has
    them, [get_sector] finds exactly the configured ids, and both raise
    "Unknown sector: <id>" for every other id. *)
Theorem configuration_lookups_agree (config : ConfigManager.Config) (sector_id : string) :
  (forall factors,
      get_risk_factors config sector_id = Ok factors <->
      dict_get (get_all_risk_factors config) sector_id = Some factors) /\
  (forall c, get_sector config sector_id = Ok c <-> dict_get config sector_id = Some c) /\
  (dict_get config sector_id = None <->
   get_sector config sector_id = Raise (ValueError ("Unknown sector: " ++ sector_id))) /\
  (dict_get config sector_id = None <->
   get_risk_factors config sector_id = Raise (ValueError ("Unknown sector: " ++ sector_id))).
Proof.
  assert (Hall : dict_get (get_all_risk_factors config) sector_id
                 = option_map cfg_risk_factors (dict_get config sector_id)).
  { unfold get_all_risk_factors, get_sectors.
    apply (map_get (fun _ c => cfg_risk_factors c)). }
  unfold get_risk_factors, get_sector, get_sectors. rewrite Hall.
  destruct (dict_get config sector_id) as [c|]; simpl.
  - repeat split; intro H; try discriminate; inversion H; reflexivity.
  - repeat split; intro H; try discriminate; reflexivity.
Qed.

End IntrospectionFacts.

(** ** The shape of a report *)

Module ReportShapeFacts.
Import Py PyFacts DictFacts RiskManager Recommender ValidationFacts AggregationFacts.
Import RankingFacts SelectionFacts AssessmentFacts SectorFacts ConfigurationFacts.

Lemma dict_set_keys_nodup {V : Type} (d : dict V) (k : string) (v : V) :
  NoDup (dict_keys d) -> NoDup (dict_keys (dict_set d k v)).
Proof.
  intro Hnd. induction d as [|[k' v'] d IH]; simpl.
  - constructor; [intros [] | constructor].
  - unfold dict_keys in *. simpl in Hnd. inversion Hnd as [|? ? Hnot Hnd']; subst.
    destruct (String.eqb k k') eqn:E; simpl.
    + apply String.eqb_eq in E. subst. constructor; assumption.
    + constructor; [|apply IH, Hnd'].
      intro Hin. apply in_map_iff in Hin. destruct Hin as [[k0 v0] [Hk Hin]].
      simpl in Hk. subst k0. apply ReportFacts.dict_set_In in Hin.
      destruct Hin as [Hin|Hin].
      * inversion Hin. subst. rewrite String.eqb_refl in E. discriminate.
      * apply Hnot. apply (in_map fst) in Hin. exact Hin.
Qed.

Lemma fold_store_keys_nodup (self : RiskManager.t) (project_data : ProjectData)
  (now : string) (l : list string) (acc : dict RiskAssessment) :
  NoDup (dict_keys acc) ->
  NoDup (dict_keys (fold_left (store self project_data now) l acc)).
Proof.
  revert acc. induction l as [|x l IH]; intros acc Hnd; [exact Hnd|].
  simpl. apply IH. unfold store.
  destruct (outcome self project_data now x); [apply dict_set_keys_nodup|]; exact Hnd.
Qed.

Lemma firstn_In {A : Type} (n : nat) (l : list A) (x : A) : In x (firstn n l) -> In x l.
Proof.
  intro H. rewrite <- (firstn_skipn n l). apply in_or_app. now left.
Qed.

(** For a valid project the report hangs together: its sector ids are
    distinct, each one both selected and configured; the top risks are at
    most 10 and the recommendations at most 15, both in descending order of
    risk level; and every top risk is a risk factor of an assessment of the
    report, listed under that sector's configured name and with that
    assessment's risk level. *)
Theorem report_of_valid_project_is_consistent
  (self : Recommender.t) (project_data : ProjectData)
  (sectors_filter : option (list string)) (now : string) (tr : list event) :
  valid project_data ->
  exists report tr',
    assess_project self project_data sectors_filter now tr = (Ok report, tr') /\
    NoDup (dict_keys (risk_assessments report)) /\
    (forall sector_id,
        dict_mem (risk_assessments report) sector_id = true <->
        In sector_id (_identify_relevant_sectors project_data sectors_filter) /\
        dict_mem (sectors (risk_manager self)) sector_id = true) /\
    (len (top_risks report) <= 10)%Z /\
    (len (priority_recommendations report) <= 15)%Z /\
    StronglySorted no_lower (top_risks report) /\
    StronglySorted no_lower (priority_recommendations report) /\
    (forall factor sector_name level,
        In (factor, sector_name, level) (top_risks report) ->
        exists sector_id assessment sector,
          dict_get (risk_assessments report) sector_id = Some assessment /\
          dict_get (sectors (risk_manager self)) sector_id = Some sector /\
          In factor (risk_factors assessment) /\
          sector_name = name sector /\ level = risk_level assessment).
Proof.
  intro Hv. eexists. eexists.
  split; [apply (assess_project_run self _ sectors_filter now tr Hv)|].
  cbn [risk_assessments top_risks priority_recommendations new_report].
  set (relevant := _identify_relevant_sectors project_data sectors_filter).
  set (ra := fold_left (store (risk_manager self) project_data now) relevant []).
  assert (Hnd : NoDup (dict_keys ra))
    by (apply fold_store_keys_nodup; constructor).
  split; [exact Hnd|]. split.
  { intro sid. unfold dict_mem at 1. unfold ra. rewrite fold_store_get.
    destruct (list_in sid relevant) eqn:E.
    - apply list_in_true in E.
      destruct (dict_mem (sectors (risk_manager self)) sid) eqn:Hm.
      + destruct (outcome_of_configured (risk_manager self) project_data now sid Hm)
          as [a Ha].
        rewrite Ha. tauto.
      + unfold outcome. unfold dict_mem in Hm.
        destruct (dict_get (sectors (risk_manager self)) sid); [discriminate|]. simpl.
        split; [discriminate | intros [_ H]; discriminate].
    - simpl. split; [discriminate|]. intros [H _]. apply list_in_true in H. congruence. }
  assert (H10 : (0 <= 10)%Z) by lia. assert (H15 : (0 <= 15)%Z) by lia.
  destruct (ranking_cut (all_risks (risk_manager self) ra) 10 H10) as (Hcut & Hs & Hl).
  destruct (ranking_cut (all_recommendations (risk_manager self) ra) 15 H15)
    as (_ & Hs' & Hl').
  split; [exact Hl|]. split; [exact Hl'|]. split; [exact Hs|]. split; [exact Hs'|].
  intros factor sector_name level Hin.
  unfold get_top_risk_factors in Hin. rewrite Hcut in Hin. apply firstn_In in Hin.
  apply (Permutation_in _ (sort_desc_perm level_ge _)) in Hin.
  apply all_risks_In in Hin.
  destruct Hin as (sid & a & sector & Hra & Hsec & Hf & Hn & Hlv).
  exists sid, a, sector. repeat split; try assumption.
  apply dict_get_in_nodup; assumption.
Qed.

Lemma report_consistent_witness :
  exists report tr',
    assess_project Samples.system Samples.network_upgrade None "2024-01-01T00:00:00" []
      = (Ok report, tr') /\
    (len (top_risks report) <= 10)%Z.
Proof.
  destruct (report_of_valid_project_is_consistent Samples.system Samples.network_upgrade
              None "2024-01-01T00:00:00" [] network_upgrade_is_valid)
    as (report & tr' & Hrun & _ & _ & Hlen & _).
  exists report, tr'. split; assumption.
Defined.

Lemma all_recommendations_In (self : RiskManager.t) (ra : dict RiskAssessment)
  (sector_id : string) (a : RiskAssessment) (sector : Sector) (recommendation : string) :
  In (sector_id, a) ra ->
  dict_get (sectors self) sector_id = Some sector ->
  In recommendation (get_recommendations sector a) ->
  In (recommendation, name sector, risk_level a) (all_recommendations self ra).
Proof.
  intros Hin Hs Hr. unfold all_recommendations. apply in_flat_map.
  exists (sector_id, a). split; [exact Hin|]. rewrite Hs.
  apply in_map_iff. exists recommendation. split; [reflexivity | exact Hr].
Qed.

Lemma cut_not_empty (l : list Ranked) (limit : Z) (x : Ranked) :
  (0 < limit)%Z -> In x l -> slice_to (sort_desc level_ge l) limit <> [].
Proof.
  intros Hl Hin. rewrite slice_to_nonneg by lia.
  apply (Permutation_in _ (Permutation_sym (sort_desc_perm level_ge l))) in Hin.
  destruct (sort_desc level_ge l) as [|y r]; [contradiction|].
  destruct (Z.to_nat limit) eqn:E; [lia|]. simpl. discriminate.
Qed.

Lemma new_sector_of_config (config : ConfigManager.Config) (sector_id : string) :
  dict_mem config sector_id = true ->
  exists c, dict_get (sectors (RiskManager.new config)) sector_id
            = Some (make_sector sector_id c).
Proof.
  intro Hm.
  assert (Hfold : forall (l : ConfigManager.Config) (acc : dict Sector),
             dict_mem l sector_id = true \/ dict_mem acc sector_id = true ->
             dict_mem (fold_left (fun d '(k, c) => dict_set d k (make_sector k c)) l acc)
               sector_id = true).
  { induction l as [|[sid c] l IH]; intros acc H; simpl.
    - destruct H as [H|H]; [discriminate | exact H].
    - apply IH. unfold dict_mem in *. simpl in H.
      destruct (String.eqb sector_id sid) eqn:E.
      + right. apply String.eqb_eq in E. subst. now rewrite dict_get_set_eq.
      + apply String.eqb_neq in E. rewrite (dict_get_set_neq acc sid sector_id _ E).
        exact H. }
  assert (Hsome : dict_mem (sectors (RiskManager.new config)) sector_id = true).
  { unfold RiskManager.new, _initialize_sectors. cbn [sectors].
    rewrite initialize_sectors_step. apply Hfold. now left. }
  unfold dict_mem in Hsome.
  destruct (dict_get (sectors (RiskManager.new config)) sector_id) as [sector|] eqn:E;
    [|discriminate].
  destruct (sectors_of_new config sector_id sector E) as (c & _ & ->). now exists c.
Qed.

Lemma insider_threats_reported (project_data : ProjectData) (sector_id : string)
  (w : Q) (now : string) :
  In "Insider threats"
    (risk_factors (CybersecuritySector.assess_risk sector_id w project_data now)).
Proof.
  unfold CybersecuritySector.assess_risk,
    CybersecuritySector._identify_active_risk_factors.
  cbv zeta. cbn [risk_factors].
  rewrite ScenarioFacts.list_of_set_In, !in_app_iff. simpl. tauto.
Qed.

Lemma policy_non_compliance_reported (project_data : ProjectData) (sector_id : string)
  (w : Q) (now : string) :
  In "Policy non-compliance"
    (risk_factors (RegulatoryComplianceSector.assess_risk sector_id w project_data now)).
Proof.
  unfold RegulatoryComplianceSector.assess_risk,
    RegulatoryComplianceSector._identify_active_risk_factors.
  cbv zeta. cbn [risk_factors]. rewrite !in_app_iff. simpl. tauto.
Qed.

Lemma make_sector_cybersecurity (c : SectorConfig) :
  make_sector "cybersecurity" c = CybersecuritySector.new "cybersecurity" c.
Proof. reflexivity. Qed.

Lemma make_sector_regulatory (c : SectorConfig) :
  make_sector "regulatory_compliance" c
  = RegulatoryComplianceSector.new "regulatory_compliance" c.
Proof. reflexivity. Qed.

Lemma cybersecurity_recommends (a : RiskAssessment) :
  CybersecuritySector.get_recommendations a <> [].
Proof.
  unfold CybersecuritySector.get_recommendations.
  destruct (Qgtb (risk_level a) 0.8); [discriminate|].
  destruct (Qgtb (risk_level a) 0.6); [discriminate|].
  destruct (Qgtb (risk_level a) 0.4); discriminate.
Qed.

Lemma regulatory_recommends (a : RiskAssessment) :
  RegulatoryComplianceSector.get_recommendations a <> [].
Proof.
  unfold RegulatoryComplianceSector.get_recommendations.
  destruct (Qgtb (risk_level a) 0.8); [discriminate|].
  destruct (Qgtb (risk_level a) 0.6); [discriminate|].
  destruct (Qgtb (risk_level a) 0.4); discriminate.
Qed.

(** A mandatory sector that is configured is assessed with a factor and a
    recommendation. *)
Lemma mandatory_sector_contributes (config : ConfigManager.Config)
  (project_data : ProjectData) (now : string) (relevant : list string) :
  (forall sid, In sid mandatory_sectors -> In sid relevant) ->
  dict_mem config "cybersecurity" = true \/
  dict_mem config "regulatory_compliance" = true ->
  exists sid sector a factor recommendation,
    In (sid, a) (fold_left (store (RiskManager.new config) project_data now) relevant []) /\
    dict_get (sectors (RiskManager.new config)) sid = Some sector /\
    In factor (risk_factors a) /\
    In recommendation (get_recommendations sector a).
Proof.
  intros Hrel Hcfg.
  assert (Hstored : forall sid sector a,
             In sid mandatory_sectors ->
             dict_get (sectors (RiskManager.new config)) sid = Some sector ->
             assess_risk sector project_data now = Ok a ->
             In (sid, a)
               (fold_left (store (RiskManager.new config) project_data now) relevant [])).
  { intros sid sector a Hm Hs Ha. apply dict_get_In. rewrite fold_store_get.
    assert (Hin : list_in sid relevant = true) by (apply list_in_true, Hrel, Hm).
    rewrite Hin. unfold outcome. now rewrite Hs, Ha. }
  destruct Hcfg as [Hc|Hc].
  - destruct (new_sector_of_config config "cybersecurity" Hc) as [c Hs].
    rewrite make_sector_cybersecurity in Hs.
    set (a := CybersecuritySector.assess_risk "cybersecurity" (cfg_weight c)
                project_data now).
    destruct (CybersecuritySector.get_recommendations a) as [|r rs] eqn:Er;
      [exfalso; apply (cybersecurity_recommends a Er)|].
    exists "cybersecurity", (CybersecuritySector.new "cybersecurity" c), a,
      "Insider threats", r.
    split; [apply (Hstored _ _ a (or_introl eq_refl) Hs); reflexivity|].
    split; [exact Hs|]. split; [apply insider_threats_reported|].
    cbn [get_recommendations CybersecuritySector.new]. rewrite Er. now left.
  - destruct (new_sector_of_config config "regulatory_compliance" Hc) as [c Hs].
    rewrite make_sector_regulatory in Hs.
    set (a := RegulatoryComplianceSector.assess_risk "regulatory_compliance"
                (cfg_weight c) project_data now).
    destruct (RegulatoryComplianceSector.get_recommendations a) as [|r rs] eqn:Er;
      [exfalso; apply (regulatory_recommends a Er)|].
    exists "regulatory_compliance",
      (RegulatoryComplianceSector.new "regulatory_compliance" c), a,
      "Policy non-compliance", r.
    split; [apply (Hstored _ _ a (or_intror (or_introl eq_refl)) Hs); reflexivity|].
    split; [exact Hs|]. split; [apply policy_non_compliance_reported|].
    cbn [get_recommendations RegulatoryComplianceSector.new]. rewrite Er. now left.
Qed.

(** When the configuration defines cybersecurity or regulatory_compliance
    and no filter is given, the report of a valid project is never bare: it
    has at least one assessment, one top risk and one recommendation. *)
Theorem report_without_filter_is_never_bare
  (config : ConfigManager.Config) (project_data : ProjectData)
  (sectors_filter : option (list string)) (now : string) (tr : list event) :
  valid project_data ->
  sectors_filter = None \/ sectors_filter = Some [] ->
  dict_mem config "cybersecurity" = true \/
  dict_mem config "regulatory_compliance" = true ->
  exists report tr',
    assess_project (Recommender.mk (RiskManager.new config)) project_data
      sectors_filter now tr = (Ok report, tr') /\
    risk_assessments report <> [] /\
    top_risks report <> [] /\
    priority_recommendations report <> [].
Proof.
  intros Hv Hf Hcfg. eexists. eexists.
  split; [apply (assess_project_run _ _ sectors_filter now tr Hv)|].
  cbn [risk_assessments top_risks priority_recommendations new_report risk_manager].
  assert (E : _identify_relevant_sectors project_data sectors_filter
              = _identify_relevant_sectors project_data None)
    by (destruct Hf as [->| ->]; reflexivity).
  rewrite E. clear E Hf.
  assert (Hrel : forall sid, In sid mandatory_sectors ->
                             In sid (_identify_relevant_sectors project_data None)).
  { intros sid Hin. rewrite identified_by_keywords. apply add_mandatory_spec. now right. }
  destruct (mandatory_sector_contributes config project_data now _ Hrel Hcfg)
    as (sid & sector & a & factor & recommendation & Hin & Hs & Hfa & Hre).
  split; [intro Hnil; rewrite Hnil in Hin; contradiction|]. split.
  - apply (cut_not_empty _ 10 (factor, name sector, risk_level a)); [lia|].
    apply all_risks_In. exists sid, a, sector. repeat split; assumption.
  - apply (cut_not_empty _ 15 (recommendation, name sector, risk_level a)); [lia|].
    apply (all_recommendations_In _ _ sid a sector); assumption.
Qed.

Lemma report_never_bare_witness :
  exists report tr',
    assess_project (Recommender.mk (RiskManager.new Samples.config)) Samples.valid_project
      None "2024-01-01T00:00:00" [] = (Ok report, tr') /\
    risk_assessments report <> [] /\
    top_risks report <> [] /\
    priority_recommendations report <> [].
Proof.
  apply (report_without_filter_is_never_bare Samples.config Samples.valid_project None
           "2024-01-01T00:00:00" []).
  - reflexivity.
  - now left.
  - now left.
Defined.

End ReportShapeFacts.

(** ** The sample projects *)

Module SampleFacts.
Import Py PyFacts Recommender ValidationFacts SampleProjects.

Definition sample_types : list string :=
  ["network_upgrade"; "cybersecurity_enhancement"; "customer_portal"].

Lemma network_upgrade_sample :
  create_sample_project "network_upgrade" = Ok Samples.network_upgrade.
Proof. reflexivity. Qed.

(** [create_sample_project] knows three project types and raises a
    [ValueError] that names them for any other; each project it returns
    passes validation and is routed, by the keyword heuristic, to the sector
    its own [sector_id] names. *)
Theorem sample_projects_are_valid_and_routed (project_type : string) :
  (In project_type sample_types ->
   exists project,
     create_sample_project project_type = Ok project /\
     valid project /\
     In (project_sector_id project) (_identify_relevant_sectors project None)) /\
  (~ In project_type sample_types ->
   create_sample_project project_type
   = Raise (ValueError
              ("Unknown project type: " ++ project_type
               ++ ". Available: ['network_upgrade', 'cybersecurity_enhancement', 'customer_portal']"))).
Proof.
  split.
  - intros [<-|[<-|[<-|[]]]]; eexists; (split; [reflexivity|]);
      (split; [reflexivity|]); vm_compute; tauto.
  - intro Hn. unfold create_sample_project, sample_projects. simpl.
    destruct (String.eqb project_type "network_upgrade") eqn:E1.
    { apply String.eqb_eq in E1. exfalso. apply Hn. simpl. auto. }
    destruct (String.eqb project_type "cybersecurity_enhancement") eqn:E2.
    { apply String.eqb_eq in E2. exfalso. apply Hn. simpl. auto. }
    destruct (String.eqb project_type "customer_portal") eqn:E3.
    { apply String.eqb_eq in E3. exfalso. apply Hn. simpl. auto. }
    reflexivity.
Qed.

End SampleFacts.

(** ** The command line *)

Module CliFacts.
Import Py PyFacts RiskManager Recommender ValidationFacts AcceptanceFacts Cli.

(** The colour of a risk level in the summary follows its category: red
    for CRITICAL, yellow for HIGH, cyan for MEDIUM and green for both LOW
    and MINIMAL. *)
Theorem risk_color_follows_category (risk_level : Q) :
  (_get_risk_color risk_level = "red" <-> _categorize_risk risk_level = CRITICAL) /\
  (_get_risk_color risk_level = "yellow" <-> _categorize_risk risk_level = HIGH) /\
  (_get_risk_color risk_level = "cyan" <-> _categorize_risk risk_level = MEDIUM) /\
  (_get_risk_color risk_level = "green" <->
   _categorize_risk risk_level = LOW \/ _categorize_risk risk_level = MINIMAL).
Proof.
  unfold _get_risk_color, _categorize_risk.
  destruct (Qgeb risk_level 0.8); [repeat split; intro H; try discriminate; tauto
                                   || (destruct H; discriminate)|].
  destruct (Qgeb risk_level 0.6); [repeat split; intro H; try discriminate; tauto
                                   || (destruct H; discriminate)|].
  destruct (Qgeb risk_level 0.4); [repeat split; intro H; try discriminate; tauto
                                   || (destruct H; discriminate)|].
  destruct (Qgeb risk_level 0.2); repeat split; intro H; try discriminate; tauto.
Qed.

Lemma split_comma_not_nil (s : string) : split_comma s <> [].
Proof.
  induction s as [|c s IH]; simpl; [discriminate|].
  destruct (Ascii.eqb c ","%char); [discriminate|].
  destruct (split_comma s); discriminate.
Qed.

Lemma split_option_not_nil (option : option string) (default : list string) :
  default <> [] -> split_option option default <> [].
Proof.
  intro Hd. unfold split_option. destruct option as [s|]; [|exact Hd].
  destruct (str_truthy s); [apply split_comma_not_nil | exact Hd].
Qed.

Lemma map_not_nil {A B : Type} (f : A -> B) (l : list A) : l <> [] -> map f l <> [].
Proof. destruct l; [congruence | discriminate]. Qed.

(** The project the [assess] command builds always has at least one
    technology and one stakeholder, whatever the options, so validation can
    only object to its id, description, budget, timeline or complexity; and
    without the options the lists are ["General IT"], ["Project Team"] and
    the empty list of dependencies. *)
Theorem cli_project_always_has_technologies_and_stakeholders
  (id text : string) (amount : Q) (days : Z) (complexity : Q)
  (tech_option stakeholder_option dependency_option : option string) :
  technologies
    (assess_project_data id text amount days complexity
       tech_option stakeholder_option dependency_option) <> [] /\
  stakeholders
    (assess_project_data id text amount days complexity
       tech_option stakeholder_option dependency_option) <> [] /\
  incl
    (validate_project_data
       (assess_project_data id text amount days complexity
          tech_option stakeholder_option dependency_option))
    [ "Project ID is required"; "Project description is required";
      "Project budget must be greater than 0";
      "Project timeline must be greater than 0 days";
      "Complexity score must be between 0.0 and 1.0" ] /\
  assess_project_data id text amount days complexity None None None
  = mkProjectData id "general" text amount days complexity
      ["Project Team"] ["General IT"] [] None.
Proof.
  assert (Ht : technologies
                 (assess_project_data id text amount days complexity
                    tech_option stakeholder_option dependency_option) <> []).
  { apply map_not_nil, split_option_not_nil. discriminate. }
  assert (Hs : stakeholders
                 (assess_project_data id text amount days complexity
                    tech_option stakeholder_option dependency_option) <> []).
  { apply map_not_nil, split_option_not_nil. discriminate. }
  split; [exact Ht|]. split; [exact Hs|]. split; [|reflexivity].
  apply list_truthy_true in Ht, Hs.
  unfold validate_project_data. rewrite Ht, Hs. cbn [negb].
  intros issue Hin. rewrite !in_app_iff in Hin.
  destruct Hin as [H|[H|[H|[H|[H|[[]|[]]]]]]];
    match type of H with
    | In _ (if ?b then _ else _) => destruct b; [|contradiction]
    end;
    destruct H as [<-|[]]; simpl; tauto.
Qed.

End CliFacts.

(** ** Rounding and NaN *)

Module Binary64Facts.
Import Stdlib.Floats.Floats.
Import Py PyFacts DictFacts ValidationFacts.











End Binary64Facts.
